(** * Sorrentum research utilities: a shallow embedding and its properties

    The development follows the layout of the repository:
    - [Py]        : the fragment of Python's dynamic semantics the scripts rely
                    on (exceptions as values, truthiness, [x or default]);
    - [DaoCross]  : [defi/dao_cross/SorrTask80_dao_cross_optimization.py];
    - [Cache]     : the two-tier cache driven by [helpers/notebooks/cache.py];
    - [Telegram]  : [dev_scripts/process_telegram_collaborator.py];
    - [Sources]   : [core/dataflow/nodes/sources.py]. *)

From Stdlib Require Import QArith Qminmax Lqa ZArith String Ascii.
From stdpp Require Import gmap strings list pretty.

(* ===================================================================== *)
(** * Python values, exceptions and truthiness *)
(* ===================================================================== *)

Module Py.

(** The exceptions the modelled code can raise.  An exception carries the
    text Python would show. *)
Inductive exn : Type :=
| ValueError (msg : string)
| AssertionError (msg : string)
| KeyError (key : string)
| UnboundLocalError (name : string)
| SystemExit (code : Z)
| ExternalError (msg : string).

(** A call either returns or raises. *)
Inductive result (A : Type) : Type :=
| Ok (a : A)
| Raise (e : exn).
Arguments Ok {A} a.
Arguments Raise {A} e.

Definition is_ok {A} (r : result A) : bool :=
  match r with Ok _ => true | Raise _ => false end.

Definition rbind {A B} (r : result A) (k : A -> result B) : result B :=
  match r with Ok a => k a | Raise e => Raise e end.

(** State-and-exception monad: Python keeps every mutation made before an
    exception, so the state is returned on both outcomes. *)
Definition M (S A : Type) : Type := S -> result A * S.

Definition ret {S A} (a : A) : M S A := fun s => (Ok a, s).
Definition raise {S A} (e : exn) : M S A := fun s => (Raise e, s).
Definition bind {S A B} (m : M S A) (k : A -> M S B) : M S B :=
  fun s => match m s with
           | (Ok a, s') => k a s'
           | (Raise e, s') => (Raise e, s')
           end.
Definition lift {S A} (r : result A) : M S A := fun s => (r, s).

(** [x or d] on an optional list: [None] and the empty list are falsy. *)
Definition or_list {A} (x : option (list A)) (d : list A) : list A :=
  match x with
  | Some (a :: l) => a :: l
  | Some [] | None => d
  end.

End Py.

Declare Scope py_scope.
Delimit Scope py_scope with py.
Notation "x <- m ;; k" := (Py.bind m (fun x => k))
  (at level 100, m at next level, right associativity) : py_scope.
Notation "m ;;; k" := (Py.bind m (fun _ => k))
  (at level 100, right associativity) : py_scope.

(* ===================================================================== *)
(** * DaoCross: the order-matching linear program *)
(* ===================================================================== *)

Module DaoCross.
Import Py.
Local Open Scope Q_scope.

(** [class Order]. Quantities and prices are exact rationals: the problem
    handed to the solver is a linear program over the reals. *)
Record Order : Type := mkOrder {
  action : string;
  quantity : Q;
  base_token : string;
  limit_price : Q;
  quote_token : string
}.

(** The two decision variables, both declared with [lowBound=0]. *)
Inductive LpVariable : Type := q_base_asterisk_1 | q_base_asterisk_2.

(** An affine expression [c1*q1 + c2*q2 + k], as pulp builds it. *)
Record LpAffine : Type := mkAffine { coef_1 : Q; coef_2 : Q; konst : Q }.

Definition var (v : LpVariable) : LpAffine :=
  match v with
  | q_base_asterisk_1 => mkAffine 1 0 0
  | q_base_asterisk_2 => mkAffine 0 1 0
  end.
Definition num (k : Q) : LpAffine := mkAffine 0 0 k.
Definition plus (a b : LpAffine) : LpAffine :=
  mkAffine (coef_1 a + coef_1 b) (coef_2 a + coef_2 b) (konst a + konst b).

Inductive LpSense : Type := LpMinimize | LpMaximize.
Inductive LpRel : Type := LE | GE | EQ.
Record LpConstraint : Type := mkConstraint {
  lhs : LpAffine; rel : LpRel; rhs : LpAffine
}.

Record LpProblem : Type := mkProblem {
  name : string;
  sense : LpSense;
  lowBound_1 : Q;
  lowBound_2 : Q;
  objective : LpAffine;
  constraints : list LpConstraint
}.

(** [prob += constraint] appends. *)
Definition add_constraint (p : LpProblem) (c : LpConstraint) : LpProblem :=
  mkProblem (name p) (sense p) (lowBound_1 p) (lowBound_2 p) (objective p)
            (constraints p ++ [c]).
Definition set_objective (p : LpProblem) (o : LpAffine) : LpProblem :=
  mkProblem (name p) (sense p) (lowBound_1 p) (lowBound_2 p) o (constraints p).

(** The Big-M constant [M = 1e6]. *)
Definition M : Q := 1000000 # 1.

(** [int(b)] for a Python boolean. *)
Definition int_of_bool (b : bool) : Q := if b then 1 else 0.

Definition limit_price_cond_1 (order_1 : Order) (exchange_rate : Q) : Q :=
  int_of_bool (Qle_bool exchange_rate (limit_price order_1)).
Definition limit_price_cond_2 (order_2 : Order) (exchange_rate : Q) : Q :=
  int_of_bool (Qle_bool (limit_price order_2) exchange_rate).

(** [optimize_for_volume], up to the call of the solver: the three asserted
    preconditions, then the problem handed to [prob.solve()]. *)
Definition optimize_for_volume (order_1 order_2 : Order) (exchange_rate : Q)
  : result LpProblem :=
  if negb (String.eqb (action order_1) "buy") then
    Raise (AssertionError "order_1.action == buy")
  else if negb (String.eqb (action order_2) "sell") then
    Raise (AssertionError "order_2.action == sell")
  else if Qle_bool exchange_rate 0 then
    Raise (AssertionError "0 < exchange_rate")
  else
    let prob := mkProblem "The DaoCross problem" LpMaximize 0 0 (num 0) [] in
    let q1 := var q_base_asterisk_1 in
    let q2 := var q_base_asterisk_2 in
    let prob := set_objective prob (plus q1 q2) in
    let c1 := limit_price_cond_1 order_1 exchange_rate in
    let c2 := limit_price_cond_2 order_2 exchange_rate in
    let prob := add_constraint prob
                  (mkConstraint q1 LE (num (quantity order_1 + M * (1 - c1)))) in
    let prob := add_constraint prob
                  (mkConstraint q2 LE (num (quantity order_2 + M * (1 - c2)))) in
    let prob := add_constraint prob (mkConstraint q1 LE (num (M * c1))) in
    let prob := add_constraint prob (mkConstraint q1 GE (num (- M * c1))) in
    let prob := add_constraint prob (mkConstraint q2 LE (num (M * c2))) in
    let prob := add_constraint prob (mkConstraint q2 GE (num (- M * c2))) in
    let prob := add_constraint prob (mkConstraint q1 EQ q2) in
    Ok prob.

(** [get_test_orders]: the two orders of the demonstration. *)
Definition get_test_orders (limit_price_1 limit_price_2 : Q) : Order * Order :=
  (mkOrder "buy" 5 "BTC" limit_price_1 "ETH",
   mkOrder "sell" 5 "BTC" limit_price_2 "ETH").

(** ** Meaning of a problem *)

Definition value (a : LpAffine) (q1 q2 : Q) : Q :=
  coef_1 a * q1 + coef_2 a * q2 + konst a.

Definition holds (c : LpConstraint) (q1 q2 : Q) : Prop :=
  match rel c with
  | LE => value (lhs c) q1 q2 <= value (rhs c) q1 q2
  | GE => value (rhs c) q1 q2 <= value (lhs c) q1 q2
  | EQ => value (lhs c) q1 q2 == value (rhs c) q1 q2
  end.

Definition feasible (p : LpProblem) (q1 q2 : Q) : Prop :=
  lowBound_1 p <= q1 /\ lowBound_2 p <= q2 /\
  Forall (fun c => holds c q1 q2) (constraints p).

(** An optimal solution of a maximisation problem. *)
Definition optimal (p : LpProblem) (q1 q2 : Q) : Prop :=
  sense p = LpMaximize /\
  feasible p q1 q2 /\
  forall q1' q2', feasible p q1' q2' ->
    value (objective p) q1' q2' <= value (objective p) q1 q2.

(** The cap a side contributes: its quantity when its limit price admits the
    exchange rate, zero otherwise. *)
Definition cap_1 (order_1 : Order) (exchange_rate : Q) : Q :=
  if Qle_bool exchange_rate (limit_price order_1) then quantity order_1 else 0.
Definition cap_2 (order_2 : Order) (exchange_rate : Q) : Q :=
  if Qle_bool (limit_price order_2) exchange_rate then quantity order_2 else 0.

End DaoCross.

(* ===================================================================== *)
(** * The two-tier computation cache *)
(* ===================================================================== *)

Module Cache.

(** What [get_last_cache_accessed] reports. *)
Inductive tier : Type := no_cache | mem | disk.

(** The argument of [clear_cache]: one tier, or (by default) both. *)
Inductive cache_type : Type := clear_mem | clear_disk.

Section Facade.
Context {K V : Type} `{Countable K}.

(** Modelled from the spec: the class [helpers.cache.Cached] is not among the
    sources, only the notebook that drives it is.  A facade holds the wrapped
    function, one flag per tier, the entries of each tier keyed by the call's
    arguments, the tier that served the last call, and (to observe
    recomputation) the number of times the wrapped function has run. *)
Record Cached : Type := mkCached {
  func : K -> V;
  use_mem_cache : bool;
  use_disk_cache : bool;
  mem_store : gmap K V;
  disk_store : gmap K V;
  last_cache_accessed : tier;
  computations : nat
}.

(** Modelled from the spec: the constructor [Cached(func, use_mem_cache,
    use_disk_cache)]; the disk tier is persistent, so it starts with whatever
    earlier sessions left in it. *)
Definition new (f : K -> V) (use_mem use_disk : bool) (on_disk : gmap K V)
  : Cached :=
  mkCached f use_mem use_disk ∅ on_disk no_cache 0.

Definition mem_lookup (c : Cached) (args : K) : option V :=
  if use_mem_cache c then mem_store c !! args else None.
Definition disk_lookup (c : Cached) (args : K) : option V :=
  if use_disk_cache c then disk_store c !! args else None.

(** Modelled from the spec: invoking the facade.  Memory is asked first, then
    disk; a disk hit populates the memory tier too; a miss recomputes and
    populates every enabled tier. *)
Definition call (c : Cached) (args : K) : V * Cached :=
  match mem_lookup c args with
  | Some v =>
      (v, mkCached (func c) (use_mem_cache c) (use_disk_cache c)
                   (mem_store c) (disk_store c) mem (computations c))
  | None =>
      match disk_lookup c args with
      | Some v =>
          (v, mkCached (func c) (use_mem_cache c) (use_disk_cache c)
                (if use_mem_cache c then <[args := v]> (mem_store c)
                 else mem_store c)
                (disk_store c) disk (computations c))
      | None =>
          let v := func c args in
          (v, mkCached (func c) (use_mem_cache c) (use_disk_cache c)
                (if use_mem_cache c then <[args := v]> (mem_store c)
                 else mem_store c)
                (if use_disk_cache c then <[args := v]> (disk_store c)
                 else disk_store c)
                no_cache (S (computations c)))
      end
  end.

(** Modelled from the spec: [clear_cache(cache_type=None)] discards the
    entries of the named tier only, of both tiers by default. *)
Definition clear_cache (which : option cache_type) (c : Cached) : Cached :=
  mkCached (func c) (use_mem_cache c) (use_disk_cache c)
    (match which with Some clear_disk => mem_store c | _ => ∅ end)
    (match which with Some clear_mem => disk_store c | _ => ∅ end)
    (last_cache_accessed c) (computations c).

Definition get_last_cache_accessed (c : Cached) : tier := last_cache_accessed c.

(** Every stored entry is a value of the wrapped function. *)
Definition consistent (c : Cached) : Prop :=
  forall k v, mem_store c !! k = Some v \/ disk_store c !! k = Some v ->
              v = func c k.

End Facade.
Arguments Cached K V {_ _}.

(** [computation_function(a, b)] of the notebook and its inputs. *)
Definition computation_function (ab : Z * Z) : Z := (ab.1 * ab.2)%Z.
Definition inputs : Z * Z := (1, 2)%Z.
Definition exp_output : Z := 2%Z.

End Cache.
(* ===================================================================== *)
(** * The collaborator-management script *)
(* ===================================================================== *)

Module Telegram.
Import Py.
Local Open Scope string_scope.
Local Open Scope py_scope.

(** The Python values the script handles. *)
Inductive pyval : Type := PyNone | PyStr (s : string).

(** [str(v)] as an f-string or [%s] renders it. *)
Definition str (v : pyval) : string :=
  match v with PyNone => "None" | PyStr s => s end.

(** An HTTP response: its status and what [.json()] gives (or raises). *)
Record Response : Type := mkResponse {
  status_code : Z;
  json : result (gmap string pyval)
}.

(** Calls that leave the process, in the order they are made. *)
Inductive event : Type :=
| HttpGet (url : string)
| SendMessage (chat_id : string) (text : pyval)
| BanChatMember (group_id user_id : string)
| UnbanChatMember (group_id user_id : string).

(** The outside world: what each call answers.  [new_bot] is
    [telegram.Bot(token=...)], which makes no call but may refuse the token;
    [send_message] gives the message handle, [PyNone] when there is none. *)
Record Api : Type := mkApi {
  new_bot : pyval -> result unit;
  requests_get : string -> result Response;
  send_message : string -> pyval -> result pyval;
  banChatMember : string -> string -> result unit;
  unbanChatMember : string -> string -> result unit
}.

Definition trace : Type := list event.

(** Perform an outside call: log it, then return or raise as it does. *)
Definition perform {A} (e : event) (r : result A) : M trace A :=
  fun tr => (r, (tr ++ [e])%list).

Definition _TELEGRAM_API : string := "https://api.telegram.org/bot".

(** The address asked for the invite link of a group. *)
Definition invite_url (bot_token : pyval) (group_id : string) : string :=
  _TELEGRAM_API ++ str bot_token
  ++ "/exportChatInviteLink?chat_id=" ++ group_id.

Section Script.
Variable api : Api.
(** [bot_token = os.getenv("TELEGRAM_BOT_TOKEN")]: [PyNone] when unset. *)
Variable bot_token : pyval.

(** [_get_invate_link].  The local [invite_link] is bound only in the
    [status_code == 200] branch; [return invite_link] reads the local, which
    Python refuses for an unbound one. *)
Definition _get_invate_link (group_id : string) : M trace pyval :=
  let url := invite_url bot_token group_id in
  invite_link_response <- perform (HttpGet url) (requests_get api url) ;;
  let locals : gmap string pyval := ∅ in
  locals <- (if Z.eqb (status_code invite_link_response) 200 then
               body <- lift (json invite_link_response) ;;
               ret (<["invite_link" := default PyNone (body !! "result")]>
                      locals)
             else ret locals) ;;
  match locals !! "invite_link" with
  | Some invite_link => ret invite_link
  | None => raise (UnboundLocalError "invite_link")
  end.

(** [_invite_collaborator]. *)
Definition _invite_collaborator (user_id group_id : string) : M trace unit :=
  link <- _get_invate_link group_id ;;
  message <- perform (SendMessage user_id link)
                     (send_message api user_id link) ;;
  match message with
  | PyNone => raise (AssertionError "message is not None")
  | _ => ret tt
  end.

(** [_remove_collaborator]. *)
Definition _remove_collaborator (user_id group_id : string) : M trace unit :=
  perform (BanChatMember group_id user_id)
          (banChatMember api group_id user_id) ;;;
  perform (UnbanChatMember group_id user_id)
          (unbanChatMember api group_id user_id).

(** One [add_argument] of an [argparse.ArgumentParser]. *)
Record Argument : Type := mkArgument {
  flag : string;
  choices : option (list string);
  required : bool
}.

(** [_parse]. *)
Definition _parse : list Argument :=
  [ mkArgument "action" (Some ["add"; "remove"; "unban"]) true;
    mkArgument "username" None true;
    mkArgument "groupid" None true ].

(** [parser.parse_args()] over the value given for each option on the command
    line (none for an option left out): a required option left out, or a
    value outside the declared choices, ends the process with status 2. *)
Fixpoint parse_args (parser : list Argument) (given : gmap string string)
  : result (gmap string pyval) :=
  match parser with
  | [] => Ok ∅
  | a :: rest =>
      match given !! flag a with
      | None =>
          if required a then Raise (SystemExit 2)
          else rbind (parse_args rest given)
                     (fun ns => Ok (<[flag a := PyNone]> ns))
      | Some v =>
          if match choices a with
             | Some cs => bool_decide (v ∈ cs)
             | None => true
             end
          then rbind (parse_args rest given)
                     (fun ns => Ok (<[flag a := PyStr v]> ns))
          else Raise (SystemExit 2)
      end
  end.

(** [main]. *)
Definition main (parser : list Argument) (given : gmap string string)
  : M trace unit :=
  args <- lift (parse_args parser given) ;;
  let action := str (default PyNone (args !! "action")) in
  let username := str (default PyNone (args !! "username")) in
  let groupid := str (default PyNone (args !! "groupid")) in
  lift (new_bot api bot_token) ;;;
  if String.eqb action "add" then
    _invite_collaborator username groupid
  else if String.eqb action "remove" then
    _remove_collaborator username groupid
  else
    raise (ValueError ("Invalid action ='" ++ action ++ "'")).

End Script.

(** A world in which the export of the invite link is refused. *)
Definition refusing_api (status : Z) : Api :=
  mkApi (fun token => match token with
                       | PyStr _ => Ok tt
                       | PyNone => Raise (ExternalError "InvalidToken")
                       end)
        (fun _ => Ok (mkResponse status (Ok {[ "ok" := PyStr "false" ]})))
        (fun _ _ => Ok (PyStr "message"))
        (fun _ _ => Ok tt)
        (fun _ _ => Ok tt).

(** A command line: [--action a --username u --groupid g]. *)
Definition command_line (a u g : string) : gmap string string :=
  {[ "action" := a; "username" := u; "groupid" := g ]}.

End Telegram.
(* ===================================================================== *)
(** * Data source nodes *)
(* ===================================================================== *)

Module Sources.
Import Py.
Local Open Scope string_scope.
Local Open Scope py_scope.

(** ** Numbers *)

(** Double-precision arithmetic, kept abstract: the nodes only combine the
    operations, so what is proved holds for IEEE doubles as for any other
    interpretation. *)
Class Float (F : Type) : Type := {
  f_of_Z : Z -> F;          (* an int used where a float is expected *)
  f_0_1 : F;                (* the literal 0.1 *)
  fadd : F -> F -> F;
  fmul : F -> F -> F;
  fdiv : F -> F -> F;
  fexp : F -> F;            (* np.exp *)
  fmean : list F -> F;      (* the mean of one row *)
  f_nonzero : F -> bool     (* x != 0.0 *)
}.

Section Data.
Context {F : Type} `{Float F}.

(** A Python number: an int or a float. *)
Inductive number : Type := PyInt (z : Z) | PyFloat (x : F).

Definition truthy (n : number) : bool :=
  match n with
  | PyInt z => negb (Z.eqb z 0)
  | PyFloat x => f_nonzero x
  end.

Definition to_float (n : number) : F :=
  match n with PyInt z => f_of_Z z | PyFloat x => x end.

(** [x or d] on an optional number: [None] and zero are falsy. *)
Definition or_number (x : option number) (d : number) : number :=
  match x with
  | Some n => if truthy n then n else d
  | None => d
  end.

(** ** Tables *)

(** A column name, and a column label of one or two levels. *)
Inductive name : Type := NInt (z : Z) | NStr (s : string).
Inductive label : Type := L1 (n : name) | L2 (top sub : name).

Global Instance name_eq_dec : EqDecision name.
Proof. solve_decision. Defined.
Global Instance label_eq_dec : EqDecision label.
Proof. solve_decision. Defined.

(** [str(x)] of a column name. *)
Definition str_name (n : name) : string :=
  match n with NInt z => pretty z | NStr s => s end.

(** A cell of a table, or an entry of its index.  Timestamps count
    nanoseconds. *)
Inductive cell : Type :=
| CInt (z : Z)
| CFloat (x : F)
| CStr (s : string)
| CTime (t : Z).

(** A [pd.DataFrame], row by row: each row is its index entry and one cell
    per column. *)
Record DataFrame : Type := mkDataFrame {
  columns : list label;
  rows : list (cell * list cell)
}.

Definition index (df : DataFrame) : list cell := map fst (rows df).

(** [df.empty]: some axis has length zero. *)
Definition empty (df : DataFrame) : bool :=
  match rows df, columns df with
  | [], _ | _, [] => true
  | _, _ => false
  end.

(** A float-valued series and a float-valued table over a datetime index. *)
Record Series : Type := mkSeries {
  s_name : option name;
  s_data : list (Z * F)
}.
Record FloatFrame : Type := mkFloatFrame {
  f_columns : list name;
  f_rows : list (Z * list F)
}.

(** Position of the first column carrying a label. *)
Fixpoint index_of (l : label) (cols : list label) : option nat :=
  match cols with
  | [] => None
  | c :: rest => if decide (c = l) then Some 0
                 else option_map S (index_of l rest)
  end.

(** [df.set_index(col, inplace=True)]: the column leaves the table and becomes
    the index; an unknown column is a [KeyError].  (Rows are as wide as the
    header; a shorter row would be left as it is.) *)
Definition set_index (col : string) (df : DataFrame) : result DataFrame :=
  match index_of (L1 (NStr col)) (columns df) with
  | None => Raise (KeyError col)
  | Some i =>
      Ok (mkDataFrame (delete i (columns df))
            (map (fun r => match r.2 !! i with
                           | Some c => (c, delete i r.2)
                           | None => r
                           end) (rows df)))
  end.

Fixpoint mapR {A B} (f : A -> result B) (l : list A) : result (list B) :=
  match l with
  | [] => Ok []
  | a :: rest =>
      match f a with
      | Raise e => Raise e
      | Ok b => match mapR f rest with
                | Raise e => Raise e
                | Ok bs => Ok (b :: bs)
                end
      end
  end.

(** [df.index = stamps]: replace the index entry of each row. *)
Definition with_index (stamps : list Z) (df : DataFrame) : DataFrame :=
  mkDataFrame (columns df)
    (zip_with (fun t r => (CTime t, r.2)) stamps (rows df)).

Definition cell_time (c : cell) : option Z :=
  match c with CTime t => Some t | _ => None end.

Fixpoint strictly_increasing (ts : list Z) : bool :=
  match ts with
  | [] => true
  | t :: rest =>
      match rest with
      | [] => true
      | t' :: _ => Z.ltb t t' && strictly_increasing rest
      end
  end.

(** Modelled from the spec: [helpers.dbg.dassert_strictly_increasing_index]
    is not among the sources; it asserts that the index is strictly
    increasing and fails fatally otherwise.  It is called on a datetime index
    only. *)
Definition dassert_strictly_increasing_index (df : DataFrame) : result unit :=
  match mapM cell_time (index df) with
  | Some ts =>
      if strictly_increasing ts then Ok tt
      else Raise (AssertionError "Index is not strictly increasing")
  | None => Raise (AssertionError "Index is not strictly increasing")
  end.

(** Modelled from the spec: [helpers.dbg.dassert(cond, msg)] fails fatally
    with the message when the condition does not hold. *)
Definition dassert (cond : bool) (msg : string) : result unit :=
  if cond then Ok tt else Raise (AssertionError msg).

(** The inclusive window [[start_date, end_date]]; a missing bound is open. *)
Definition in_window (start_date end_date : option Z) (t : Z) : bool :=
  match start_date with Some a => Z.leb a t | None => true end
  && match end_date with Some b => Z.leb t b | None => true end.

(** [df.loc[start_date : end_date]] on an increasing datetime index: the rows
    whose stamp lies in the window, in order. *)
Definition loc_slice (start_date end_date : option Z) (df : DataFrame)
  : DataFrame :=
  mkDataFrame (columns df)
    (List.filter (fun r => match cell_time r.1 with
                           | Some t => in_window start_date end_date t
                           | None => false
                           end) (rows df)).

(** [df[col] = v] with a scalar: an existing column is overwritten, a new one
    is appended; every row gets the value. *)
Definition setitem_const (col : label) (v : cell) (df : DataFrame)
  : DataFrame :=
  match index_of col (columns df) with
  | Some i => mkDataFrame (columns df)
                (map (fun r => (r.1, <[i := v]> r.2)) (rows df))
  | None => mkDataFrame (columns df ++ [col])%list
                (map (fun r => (r.1, (r.2 ++ [v])%list)) (rows df))
  end.

(** [cumsum]: running sums, the first entry being the first value itself. *)
Fixpoint cumsum_from (acc : F) (xs : list F) : list F :=
  match xs with
  | [] => []
  | x :: rest => let a := fadd acc x in a :: cumsum_from a rest
  end.
Definition cumsum (xs : list F) : list F :=
  match xs with
  | [] => []
  | x :: rest => x :: cumsum_from x rest
  end.

Definition series_map (f : list F -> list F) (s : Series) : Series :=
  mkSeries (s_name s) (zip (map fst (s_data s)) (f (map snd (s_data s)))).

(** [s.to_frame()]: one column, labelled with the name of the series. *)
Definition to_frame (s : Series) : DataFrame :=
  mkDataFrame [L1 (default (NInt 0) (s_name s))]
    (map (fun p => (CTime p.1, [CFloat p.2])) (s_data s)).

(** Column-wise [cumsum] of a table. *)
Fixpoint frame_cumsum_from (acc : list F) (rs : list (Z * list F))
  : list (Z * list F) :=
  match rs with
  | [] => []
  | r :: rest => let a := zip_with fadd acc r.2 in
                 (r.1, a) :: frame_cumsum_from a rest
  end.
Definition frame_cumsum (rs : list (Z * list F)) : list (Z * list F) :=
  match rs with
  | [] => []
  | r :: rest => r :: frame_cumsum_from r.2 rest
  end.

(** [rets * k]: every value times the factor. *)
Definition frame_scale (rets : FloatFrame) (k : number) : FloatFrame :=
  mkFloatFrame (f_columns rets)
    (map (fun r => (r.1, map (fun x => fmul x (to_float k)) r.2)) (f_rows rets)).

(** [rets.mean(axis=1)]: the mean of each row. *)
Definition mean_axis1 (rets : FloatFrame) : Series :=
  mkSeries None (map (fun r => (r.1, fmean r.2)) (f_rows rets)).

(** ** The outside world *)

(** Values passed to a reader as keyword arguments. *)
Inductive kwarg : Type :=
| KwNone | KwBool (b : bool) | KwInt (z : Z) | KwStr (s : string).

(** Calls that reach outside the node: file reads and random draws. *)
Inductive event : Type :=
| ReadCsv (path : string) (kwargs : gmap string kwarg)
| ReadParquet (path : string) (kwargs : gmap string kwarg)
| SetCovFromInvWishartDraw (dim : Z) (seed : option number)
| ArmaGenerateSample (ar ma : list number) (start_date end_date : Z)
    (freq : string) (scale burnin : number) (seed : option number)
| MvnGenerateSample (start_date end_date : Z) (freq : string)
    (seed : option number).

(** What the outside answers.  A reader or a generator may answer differently
    from one call to the next (the file changed, the generator is unseeded),
    so each answer may depend on all the calls made before. *)
Record Env : Type := mkEnv {
  pd_read_csv : list event -> string -> gmap string kwarg -> result DataFrame;
  pd_read_parquet :
    list event -> string -> gmap string kwarg -> result DataFrame;
  pd_to_datetime : cell -> result Z;
  arma_generate_sample :
    list event -> list number -> list number -> Z -> Z -> string ->
    number -> number -> option number -> result Series;
  mvn_generate_sample :
    list event -> Z -> Z -> string -> option number -> result FloatFrame;
  (* [core.finance.compute_annualized_volatility] is not among the sources *)
  compute_annualized_volatility : Series -> F
}.

(** Dictionaries live in a store and are referred to by location, so that two
    references to one dictionary see each other's updates. *)
Definition loc : Type := positive.

Record World : Type := mkWorld {
  heap : gmap loc (gmap string kwarg);
  history : list event
}.

Definition alloc_dict (d : gmap string kwarg) (w : World) : loc * World :=
  let l := fresh (dom (heap w)) in
  (l, mkWorld (<[l := d]> (heap w)) (history w)).

Definition log (e : event) (w : World) : World :=
  mkWorld (heap w) (history w ++ [e])%list.

(** ** The base class *)

(** Modelled from the spec: the base class [DataSource] of
    [core.dataflow.nodes.base] is not among the sources.  A node has an
    identifier, one conventional output name and the dataset it holds, absent
    until produced; [fit] and [predict] package the held dataset under the
    output name, and give nothing while there is none. *)
Record DataSource : Type := mkDataSource {
  nid : string;
  output_name : string;
  df : option DataFrame
}.

Definition DataSource_init (nid : string) : DataSource :=
  mkDataSource nid "df_out" None.

Definition output : Type := option (gmap string DataFrame).

Definition DataSource_fit (self : DataSource) : output :=
  match df self with
  | Some d => Some {[ output_name self := d ]}
  | None => None
  end.
Definition DataSource_predict (self : DataSource) : output :=
  match df self with
  | Some d => Some {[ output_name self := d ]}
  | None => None
  end.

Definition set_df (d : DataFrame) (self : DataSource) : DataSource :=
  mkDataSource (nid self) (output_name self) (Some d).

(** The two lifecycle calls. *)
Inductive lifecycle : Type := Fit | Predict.

End Data.

Arguments number F : clear implicits.
Arguments cell F : clear implicits.
Arguments DataFrame F : clear implicits.
Arguments Series F : clear implicits.
Arguments FloatFrame F : clear implicits.
Arguments event F : clear implicits.
Arguments Env F : clear implicits.
Arguments World F : clear implicits.
Arguments DataSource F : clear implicits.
Arguments output F : clear implicits.

(** ** [os.path.splitext] *)

(** [p.rfind(c)]: the last position of the character, [-1] when absent. *)
Fixpoint rfind_from (c : ascii) (p : list ascii) (i : Z) (found : Z) : Z :=
  match p with
  | [] => found
  | x :: rest => rfind_from c rest (i + 1) (if Ascii.eqb x c then i else found)
  end.
Definition rfind (c : ascii) (p : list ascii) : Z := rfind_from c p 0 (-1).

(** [os.path.splitext(p)] (POSIX): the extension starts at the last dot of
    the last path component, leading dots of the component apart. *)
Definition splitext (p : string) : string * string :=
  let cs := list_ascii_of_string p in
  let sepIndex := rfind "/"%char cs in
  let dotIndex := rfind "."%char cs in
  if Z.ltb sepIndex dotIndex then
    let filenameIndex := Z.to_nat (sepIndex + 1) in
    let leading := take (Z.to_nat dotIndex - filenameIndex) (drop filenameIndex cs) in
    if existsb (fun x => negb (Ascii.eqb x "."%char)) leading then
      (string_of_list_ascii (take (Z.to_nat dotIndex) cs),
       string_of_list_ascii (drop (Z.to_nat dotIndex) cs))
    else (p, "")
  else (p, "").

(** The cells of the column at a position, row by row. *)
Definition column {F} (i : nat) (d : DataFrame F) : list (option (cell F)) :=
  map (fun r => r.2 !! i) (rows d).

(** Every row is as wide as the header. *)
Definition well_formed {F} (d : DataFrame F) : Prop :=
  Forall (fun r => length r.2 = length (columns d)) (rows d).

(** ** [DiskDataSource] *)

Module DiskDataSource.
Section Node.
Context {F : Type} `{Float F} (env : Env F).

Record node : Type := mkNode {
  base : DataSource F;
  _file_path : string;
  _timestamp_col : option string;
  _start_date : option Z;
  _end_date : option Z;
  _reader_kwargs : loc
}.

(** The object and the world it runs in. *)
Definition state : Type := node * World F.

(** A dictionary is falsy when it has no entry. *)
Definition dict_truthy (w : World F) (l : loc) : bool :=
  match heap w !! l with
  | Some d => negb (Nat.eqb (size d) 0)
  | None => false
  end.

(** [__init__]; [reader_kwargs or {}] keeps the reference to the caller's
    dictionary when that one is truthy and makes a new dictionary otherwise. *)
Definition __init__ (nid file_path : string) (timestamp_col : option string)
    (start_date end_date : option Z) (reader_kwargs : option loc)
    (w : World F) : state :=
  let lw := match reader_kwargs with
            | Some l => if dict_truthy w l then (l, w) else alloc_dict ∅ w
            | None => alloc_dict ∅ w
            end in
  (mkNode (DataSource_init nid) file_path timestamp_col start_date end_date
          lw.1, lw.2).

Definition get_self : M state node := fun s => (Ok s.1, s).

Definition put_df (d : DataFrame F) : M state unit :=
  fun s => (Ok tt,
            (mkNode (set_df d (base s.1)) (_file_path s.1) (_timestamp_col s.1)
                    (_start_date s.1) (_end_date s.1) (_reader_kwargs s.1),
             s.2)).

(** Reading [self.df] where a table is needed. *)
Definition get_df : M state (DataFrame F) :=
  fun s => match df (base s.1) with
           | Some d => (Ok d, s)
           | None => (Raise (ExternalError "'NoneType' object has no attribute"), s)
           end.

(** [self._reader_kwargs[key] = v], through the reference. *)
Definition kwargs_setitem (key : string) (v : kwarg) : M state unit :=
  fun s =>
    let l := _reader_kwargs s.1 in
    (Ok tt,
     (s.1, mkWorld (<[l := <[key := v]> (default ∅ (heap s.2 !! l))]> (heap s.2))
                   (history s.2))).

Definition kwargs : M state (gmap string kwarg) :=
  fun s => (Ok (default ∅ (heap s.2 !! _reader_kwargs s.1)), s).

(** A call of a reader: logged, answered by the outside. *)
Definition call_reader (e : event F)
    (reader : list (event F) -> result (DataFrame F))
  : M state (DataFrame F) :=
  fun s => (reader (history s.2), (s.1, log e s.2)).

(** [_read_data]. *)
Definition _read_data : M state unit :=
  self <- get_self ;;
  let ext := (splitext (_file_path self)).2 in
  if String.eqb ext ".csv" then
    kw <- kwargs ;;
    (if bool_decide ("index_col" ∈ dom kw) then ret tt
     else kwargs_setitem "index_col" (KwInt 0)) ;;;
    kw <- kwargs ;;
    d <- call_reader (ReadCsv (_file_path self) kw)
           (fun h => pd_read_csv env h (_file_path self) kw) ;;
    put_df d
  else if String.eqb ext ".pq" then
    kw <- kwargs ;;
    d <- call_reader (ReadParquet (_file_path self) kw)
           (fun h => pd_read_parquet env h (_file_path self) kw) ;;
    put_df d
  else
    raise (ValueError ("Invalid file extension='" ++ ext ++ "'")).

(** [_process_data]. *)
Definition _process_data : M state unit :=
  self <- get_self ;;
  (match _timestamp_col self with
   | Some col => d <- get_df ;;
                 d' <- lift (set_index col d) ;;
                 put_df d'
   | None => ret tt
   end) ;;;
  d <- get_df ;;
  stamps <- lift (mapR (pd_to_datetime env) (index d)) ;;
  put_df (with_index stamps d) ;;;
  d <- get_df ;;
  lift (dassert_strictly_increasing_index d) ;;;
  put_df (loc_slice (_start_date self) (_end_date self) d) ;;;
  d <- get_df ;;
  lift (dassert (negb (empty d)) "Dataframe is empty").

(** [_lazy_load]. *)
Definition _lazy_load : M state unit :=
  self <- get_self ;;
  match df (base self) with
  | Some _ => ret tt
  | None => _read_data ;;; _process_data
  end.

(** [fit]; [predict] is the one of the base class. *)
Definition fit : M state (output F) :=
  _lazy_load ;;;
  self <- get_self ;;
  ret (DataSource_fit (base self)).

Definition predict : M state (output F) :=
  self <- get_self ;;
  ret (DataSource_predict (base self)).

Definition run (c : lifecycle) : M state (output F) :=
  match c with Fit => fit | Predict => predict end.

End Node.
End DiskDataSource.

(** ** [ArmaGenerator] *)

Module ArmaGenerator.
Section Node.
Context {F : Type} `{Float F} (env : Env F).

(** [cartif.ArmaProcess(ar_coeffs, ma_coeffs)] holds its coefficients. *)
Record ArmaProcess : Type := mkArmaProcess {
  ar_coeffs : list (number F);
  ma_coeffs : list (number F)
}.

Record node : Type := mkNode {
  base : DataSource F;
  _frequency : string;
  _start_date : Z;
  _end_date : Z;
  _ar_coeffs : list (number F);
  _ma_coeffs : list (number F);
  _scale : number F;
  _burnin : number F;
  _seed : option (number F);
  _arma_process : ArmaProcess
}.

Definition state : Type := node * World F.

(** [__init__]. *)
Definition __init__ (nid frequency : string) (start_date end_date : Z)
    (ar_coeffs ma_coeffs : option (list (number F)))
    (scale burnin seed : option (number F)) : node :=
  let ar := or_list ar_coeffs [PyInt 0] in
  let ma := or_list ma_coeffs [PyInt 0] in
  mkNode (DataSource_init nid) frequency start_date end_date
         ar ma
         (or_number scale (PyInt 1))
         (or_number burnin (PyInt 0))
         seed
         (mkArmaProcess ar ma).

Definition get_self : M state node := fun s => (Ok s.1, s).

Definition put_df (d : DataFrame F) : M state unit :=
  fun s => (Ok tt,
            (mkNode (set_df d (base s.1)) (_frequency s.1) (_start_date s.1)
                    (_end_date s.1) (_ar_coeffs s.1) (_ma_coeffs s.1)
                    (_scale s.1) (_burnin s.1) (_seed s.1) (_arma_process s.1),
             s.2)).

Definition get_df : M state (DataFrame F) :=
  fun s => match df (base s.1) with
           | Some d => (Ok d, s)
           | None => (Raise (ExternalError "'NoneType' object has no attribute"), s)
           end.

(** [self._arma_process.generate_sample(...)]. *)
Definition generate_sample (self : node) : M state (Series F) :=
  fun s =>
    let p := _arma_process self in
    (arma_generate_sample env (history s.2) (ar_coeffs p) (ma_coeffs p)
       (_start_date self) (_end_date self) (_frequency self)
       (_scale self) (_burnin self) (_seed self),
     (s.1, log (ArmaGenerateSample (ar_coeffs p) (ma_coeffs p)
                  (_start_date self) (_end_date self) (_frequency self)
                  (_scale self) (_burnin self) (_seed self)) s.2)).

(** [np.exp(0.1 * rets.cumsum())]. *)
Definition prices_of (rets : Series F) : Series F :=
  series_map (fun v => map (fun c => fexp (fmul f_0_1 c)) (cumsum v)) rets.

(** The draw a node asks for, and the answer it gets in a given world. *)
Definition draw (self : node) : event F :=
  ArmaGenerateSample (ar_coeffs (_arma_process self))
    (ma_coeffs (_arma_process self)) (_start_date self) (_end_date self)
    (_frequency self) (_scale self) (_burnin self) (_seed self).

Definition answer (self : node) (w : World F) : result (Series F) :=
  arma_generate_sample env (history w) (ar_coeffs (_arma_process self))
    (ma_coeffs (_arma_process self)) (_start_date self) (_end_date self)
    (_frequency self) (_scale self) (_burnin self) (_seed self).

(** The table the generator builds from a return series. *)
Definition table (self : node) (rets : Series F) : DataFrame F :=
  mkDataFrame [L1 (NStr "close"); L1 (NStr "vol")]
    (map (fun p => (CTime p.1, [CFloat p.2; CInt 100]))
       (List.filter
          (fun p => Z.leb (_start_date self) p.1 && Z.leb p.1 (_end_date self))
          (zip (map fst (s_data rets))
               (map (fun c => fexp (fmul f_0_1 c))
                    (cumsum (map snd (s_data rets))))))).

(** [_lazy_load]. *)
Definition _lazy_load : M state unit :=
  self <- get_self ;;
  match df (base self) with
  | Some _ => ret tt
  | None =>
      rets <- generate_sample self ;;
      let prices := prices_of rets in
      let prices := mkSeries (Some (NStr "close")) (s_data prices) in
      put_df (to_frame prices) ;;;
      d <- get_df ;;
      put_df (loc_slice (Some (_start_date self)) (Some (_end_date self)) d) ;;;
      d <- get_df ;;
      put_df (setitem_const (L1 (NStr "vol")) (CInt 100) d)
  end.

Definition fit : M state (output F) :=
  _lazy_load ;;;
  self <- get_self ;;
  ret (DataSource_fit (base self)).

Definition predict : M state (output F) :=
  _lazy_load ;;;
  self <- get_self ;;
  ret (DataSource_predict (base self)).

Definition run (c : lifecycle) : M state (output F) :=
  match c with Fit => fit | Predict => predict end.

End Node.
End ArmaGenerator.

(** ** [MultivariateNormalGenerator] *)

Module MultivariateNormalGenerator.
Section Node.
Context {F : Type} `{Float F} (env : Env F).

Record node : Type := mkNode {
  base : DataSource F;
  _frequency : string;
  _start_date : Z;
  _end_date : Z;
  _dim : Z;
  _target_volatility : option (number F);
  _volatility_scale_factor : number F;
  _seed : option (number F)
}.

Definition state : Type := node * World F.

(** [__init__]: the process is set up by one inverse-Wishart draw. *)
Definition __init__ (nid frequency : string) (start_date end_date : Z)
    (dim : Z) (target_volatility seed : option (number F)) (w : World F)
  : state :=
  (mkNode (DataSource_init nid) frequency start_date end_date dim
          target_volatility (PyInt 1) seed,
   log (SetCovFromInvWishartDraw dim seed) w).

Definition get_self : M state node := fun s => (Ok s.1, s).

Definition put_df (d : DataFrame F) : M state unit :=
  fun s => (Ok tt,
            (mkNode (set_df d (base s.1)) (_frequency s.1) (_start_date s.1)
                    (_end_date s.1) (_dim s.1) (_target_volatility s.1)
                    (_volatility_scale_factor s.1) (_seed s.1),
             s.2)).

Definition put_volatility_scale_factor (k : number F) : M state unit :=
  fun s => (Ok tt,
            (mkNode (base s.1) (_frequency s.1) (_start_date s.1)
                    (_end_date s.1) (_dim s.1) (_target_volatility s.1)
                    k (_seed s.1),
             s.2)).

Definition get_df : M state (DataFrame F) :=
  fun s => match df (base s.1) with
           | Some d => (Ok d, s)
           | None => (Raise (ExternalError "'NoneType' object has no attribute"), s)
           end.

(** [self._multivariate_normal_process.generate_sample(...)]. *)
Definition generate_sample (self : node) : M state (FloatFrame F) :=
  fun s =>
    (mvn_generate_sample env (history s.2) (_start_date self) (_end_date self)
       (_frequency self) (_seed self),
     (s.1, log (MvnGenerateSample (_start_date self) (_end_date self)
                  (_frequency self) (_seed self)) s.2)).

(** The draw a node asks for, and the answer it gets in a given world. *)
Definition draw (self : node) : event F :=
  MvnGenerateSample (_start_date self) (_end_date self) (_frequency self)
    (_seed self).

Definition answer (self : node) (w : World F) : result (FloatFrame F) :=
  mvn_generate_sample env (history w) (_start_date self) (_end_date self)
    (_frequency self) (_seed self).

(** The factor a [fit]-phase draw calibrates: target over realised. *)
Definition calibrated (target_volatility : number F) (rets : FloatFrame F)
  : number F :=
  PyFloat (fdiv (to_float target_volatility)
                (compute_annualized_volatility env (mean_axis1 rets))).

(** [_generate_returns]. *)
Definition _generate_returns (fit : bool) : M state (FloatFrame F) :=
  self <- get_self ;;
  rets <- generate_sample self ;;
  match _target_volatility self with
  | None => ret rets
  | Some target_volatility =>
      (if fit then
         let avg_rets := mean_axis1 rets in
         let vol := compute_annualized_volatility env avg_rets in
         put_volatility_scale_factor
           (PyFloat (fdiv (to_float target_volatility) vol))
       else ret tt) ;;;
      self <- get_self ;;
      ret (frame_scale rets (_volatility_scale_factor self))
  end.

(** [np.exp(rets.cumsum())] with the columns renamed to ["MN" + str(x)]. *)
Definition prices_of (rets : FloatFrame F) : FloatFrame F :=
  mkFloatFrame (map (fun x => NStr ("MN" ++ str_name x)) (f_columns rets))
    (map (fun r => (r.1, map fexp r.2)) (frame_cumsum (f_rows rets))).

(** [pd.concat([prices, volume], axis=1, keys=["close", "volume"])], the
    volume table holding 100 in every cell. *)
Definition concat_close_volume (prices : FloatFrame F) : DataFrame F :=
  mkDataFrame
    (map (L2 (NStr "close")) (f_columns prices)
     ++ map (L2 (NStr "volume")) (f_columns prices))%list
    (map (fun r => (CTime r.1,
                    (map CFloat r.2
                     ++ replicate (length (f_columns prices)) (CInt 100))%list))
         (f_rows prices)).

(** The returns a first load works with: the sample, times the factor in
    effect when there is a target. *)
Definition scaled_returns (self : node) (fit : bool) (rets : FloatFrame F)
  : FloatFrame F :=
  match _target_volatility self with
  | None => rets
  | Some tv => frame_scale rets (if fit then calibrated tv rets
                                 else _volatility_scale_factor self)
  end.

(** The table the generator builds from the returns it generated. *)
Definition table (self : node) (rets : FloatFrame F) : DataFrame F :=
  loc_slice (Some (_start_date self)) (Some (_end_date self))
    (concat_close_volume (prices_of rets)).

(** [_lazy_load]. *)
Definition _lazy_load (fit : bool) : M state unit :=
  self <- get_self ;;
  match df (base self) with
  | Some _ => ret tt
  | None =>
      rets <- _generate_returns fit ;;
      let prices := prices_of rets in
      put_df (concat_close_volume prices) ;;;
      d <- get_df ;;
      put_df (loc_slice (Some (_start_date self)) (Some (_end_date self)) d)
  end.

Definition fit : M state (output F) :=
  _lazy_load true ;;;
  self <- get_self ;;
  ret (DataSource_fit (base self)).

Definition predict : M state (output F) :=
  _lazy_load false ;;;
  self <- get_self ;;
  ret (DataSource_predict (base self)).

Definition run (c : lifecycle) : M state (output F) :=
  match c with Fit => fit | Predict => predict end.

End Node.
End MultivariateNormalGenerator.

(** A sequence of lifecycle calls on one node: the answers, and the state
    they leave. *)
Fixpoint run_all {S A} (run : lifecycle -> M S A) (calls : list lifecycle)
    (s : S) : list (result A) * S :=
  match calls with
  | [] => ([], s)
  | c :: rest =>
      let r := run c s in
      let rs := run_all run rest r.2 in
      (r.1 :: rs.1, rs.2)
  end.

(** ** An exact interpretation, to run the nodes on examples *)

(** Rationals stand for the doubles; [exp] is cut after its linear term. *)
Global Instance Q_float : Float Q := {
  f_of_Z := inject_Z;
  f_0_1 := (1 # 10)%Q;
  fadd := Qplus;
  fmul := Qmult;
  fdiv := Qdiv;
  fexp := fun x => (1 + x)%Q;
  fmean := fun xs => (fold_right Qplus 0%Q xs / inject_Z (Z.of_nat (length xs)))%Q;
  f_nonzero := fun x => negb (Qeq_bool x 0)
}.

(** ** [ReadDataFromDf] *)

Module ReadDataFromDf.
Section Node.
Context {F : Type} `{Float F}.

(** What a caller may pass for [df]: a table, or an object of another type. *)
Inductive pyobject : Type :=
| ObjDataFrame (d : DataFrame F)
| ObjOther (type_name : string).

Record node : Type := mkNode { base : DataSource F }.

Definition state : Type := node * World F.

(** [__init__]: the base constructor, the type assertion, the assignment. *)
Definition __init__ (nid : string) (df : pyobject) : result node :=
  let self := mkNode (DataSource_init nid) in
  match df with
  | ObjDataFrame d => Ok (mkNode (set_df d (base self)))
  | ObjOther type_name =>
      Raise (AssertionError
               ("instance of '" ++ type_name ++ "' is not 'DataFrame'"))
  end.

(** Both lifecycle calls are those of the base class. *)
Definition fit : M state (output F) :=
  fun s => (Ok (DataSource_fit (base s.1)), s).
Definition predict : M state (output F) :=
  fun s => (Ok (DataSource_predict (base s.1)), s).

Definition run (c : lifecycle) : M state (output F) :=
  match c with Fit => fit | Predict => predict end.

End Node.
End ReadDataFromDf.

(** ** A small world for the examples *)

Section Demo.
Local Open Scope Q_scope.

(** Three daily rows; the index holds day numbers and a [ts] column repeats
    them shifted by ten. *)
Definition demo_table : DataFrame Q :=
  mkDataFrame [L1 (NStr "ts"); L1 (NStr "close")]
    [ (CInt 1, [CInt 11; CFloat 10]);
      (CInt 2, [CInt 12; CFloat 11]);
      (CInt 3, [CInt 13; CFloat 12]) ].

(** The same rows with the second and third swapped. *)
Definition demo_table_unsorted : DataFrame Q :=
  mkDataFrame [L1 (NStr "ts"); L1 (NStr "close")]
    [ (CInt 1, [CInt 11; CFloat 10]);
      (CInt 3, [CInt 13; CFloat 12]);
      (CInt 2, [CInt 12; CFloat 11]) ].

Definition demo_read (path : string) : result (DataFrame Q) :=
  if String.eqb path "data/prices.csv" then Ok demo_table
  else if String.eqb path "data/prices.pq" then Ok demo_table
  else if String.eqb path "data/unsorted.csv" then Ok demo_table_unsorted
  else Raise (ExternalError "FileNotFoundError").

Definition demo_returns : Series Q :=
  mkSeries None [ (1%Z, 1); (2%Z, 2); (3%Z, -1); (4%Z, 3) ].

(** Two series; the values of a draw depend on how many calls came before. *)
Definition demo_sample (h : list (event Q)) : FloatFrame Q :=
  let k := inject_Z (Z.of_nat (length h)) in
  mkFloatFrame [NInt 0; NInt 1]
    [ (1%Z, [k; 1]); (2%Z, [2; k + 1]); (3%Z, [-1; 3]) ].

Definition demo_env : Env Q :=
  mkEnv
    (fun _ path _ => demo_read path)
    (fun _ path _ => demo_read path)
    (fun c => match c with
              | CInt z | CTime z => Ok z
              | _ => Raise (ValueError "Unknown datetime string format")
              end)
    (fun _ _ _ _ _ _ _ _ _ => Ok demo_returns)
    (fun h _ _ _ _ => Ok (demo_sample h))
    (fun s => 1 + fold_right Qplus 0 (map (fun p => p.2 * p.2) (s_data s))).

(** A world whose generators refuse their parameters. *)
Definition failing_env : Env Q :=
  mkEnv
    (fun _ path _ => demo_read path)
    (fun _ path _ => demo_read path)
    (pd_to_datetime demo_env)
    (fun _ _ _ _ _ _ _ _ _ => Raise (ValueError "bad parameters"))
    (fun _ _ _ _ _ => Raise (ValueError "bad parameters"))
    (compute_annualized_volatility demo_env).

Definition empty_world : World Q := mkWorld ∅ [].

End Demo.

End Sources.

(* ===================================================================== *)
(** * The group-identifier script *)
(* ===================================================================== *)

Module GroupId.
Import Py.
Local Open Scope string_scope.

(** The answer of [getUpdates] as the script reads it: each key the script
    tests for, or indexes with, may be missing. *)
Record Chat : Type := mkChat { id : option Z }.
Record Message : Type := mkMessage { chat : option Chat; text : option string }.
Record Update : Type := mkUpdate { message : option Message }.
Record Data : Type := mkData { result : option (list Update) }.

(** The outside world: what [requests.get] answers, and what [.json()] makes
    of the answer. *)
Record Api : Type := mkApi {
  requests_get : string -> Py.result (Py.result Data)
}.

(** What the process does: the addresses it asks, the lines it prints. *)
Record Process : Type := mkProcess {
  requests : list string;
  stdout : list string
}.

(** A Python [dict] keeps its keys in the order of their first insertion;
    [d[k] = v] on a key already there replaces the value in place. *)
Fixpoint dict_set (k : Z) (v : string) (d : list (Z * string))
  : list (Z * string) :=
  match d with
  | [] => [(k, v)]
  | kv :: rest => if Z.eqb kv.1 k then (k, v) :: rest
                  else kv :: dict_set k v rest
  end.

Fixpoint dict_get (k : Z) (d : list (Z * string)) : option string :=
  match d with
  | [] => None
  | kv :: rest => if Z.eqb kv.1 k then Some kv.2 else dict_get k rest
  end.

(** The body of the loop over the updates. *)
Definition visit (group_messages : list (Z * string)) (update : Update)
  : Py.result (list (Z * string)) :=
  match message update with
  | Some m =>
      match chat m with
      | Some c =>
          match id c with
          | None => Raise (KeyError "id")
          | Some chat_id =>
              match text m with
              | Some t => Ok (dict_set chat_id t group_messages)
              | None => Ok group_messages
              end
          end
      | None => Ok group_messages
      end
  | None => Ok group_messages
  end.

Fixpoint visit_all (group_messages : list (Z * string)) (updates : list Update)
  : Py.result (list (Z * string)) :=
  match updates with
  | [] => Ok group_messages
  | u :: rest =>
      match visit group_messages u with
      | Ok gm => visit_all gm rest
      | Raise e => Raise e
      end
  end.

Definition line (kv : Z * string) : string :=
  "Group ID: " ++ pretty kv.1 ++ ", Last Message: " ++ kv.2.

Definition updates_url (bot_token : string) : string :=
  "https://api.telegram.org/bot" ++ bot_token ++ "/getUpdates".

(** [_get_group_info]; [bot_token] is rendered as the f-string renders it. *)
Definition _get_group_info (api : Api) (bot_token : string)
  : M Process unit :=
  fun s =>
    let s1 := mkProcess (requests s ++ [updates_url bot_token])%list (stdout s) in
    match requests_get api (updates_url bot_token) with
    | Raise e => (Raise e, s1)
    | Ok response =>
        match response with
        | Raise e => (Raise e, s1)
        | Ok data =>
            match result data with
            | None => (Raise (KeyError "result"), s1)
            | Some updates =>
                match visit_all [] updates with
                | Raise e => (Raise e, s1)
                | Ok group_messages =>
                    (Ok tt, mkProcess (requests s1)
                              (stdout s1 ++ map line group_messages)%list)
                end
            end
        end
    end.

(** [_main]. *)
Definition _main (api : Api) (bot_token : string) : M Process unit :=
  _get_group_info api bot_token.

(** The chat and text of an update that carries both. *)
Definition entry (u : Update) : option (Z * string) :=
  match message u with
  | Some m => match chat m, text m with
              | Some c, Some t => match id c with
                                  | Some k => Some (k, t)
                                  | None => None
                                  end
              | _, _ => None
              end
  | None => None
  end.

(** An update the loop cannot get past: a message with a chat without [id]. *)
Definition broken (u : Update) : bool :=
  match message u with
  | Some m => match chat m with
              | Some c => match id c with None => true | Some _ => false end
              | None => false
              end
  | None => false
  end.

(** The last text sent to a chat, if any. *)
Definition last_text (k : Z) (updates : list Update) : option string :=
  last (map snd (List.filter (fun e => Z.eqb e.1 k) (omap entry updates))).

End GroupId.

(* ===================================================================== *)
(** * The configurations of the notebook test *)
(* ===================================================================== *)

Module RunNotebook.
Import Py.
Local Open Scope string_scope.

(** A configuration value, and a (flat) configuration.  Configurations are
    objects: the list the builder returns holds references. *)
Inductive value : Type := VNone | VBool (b : bool) | VInt (z : Z).

Global Instance value_eq_dec : EqDecision value.
Proof. solve_decision. Defined.

Definition config_ref : Type := positive.

(** [config[key] = v], through the reference. *)
Definition setitem (c : config_ref) (key : string) (v : value)
    (heap : gmap config_ref (gmap string value))
  : gmap config_ref (gmap string value) :=
  <[c := <[key := v]> (default ∅ (heap !! c))]> heap.

(** [for i, config in enumerate(configs): config["id"] = i], from index [i]. *)
Fixpoint tag_from (i : Z) (configs : list config_ref)
    (heap : gmap config_ref (gmap string value))
  : gmap config_ref (gmap string value) :=
  match configs with
  | [] => heap
  | c :: rest => tag_from (i + 1) rest (setitem c "id" (VInt i) heap)
  end.

(** Modelled from the spec: [core.config_builders.build_multiple_configs]
    is not among the sources.  For one path of a single key (the only use
    here) it gives one configuration per candidate value, each a copy of the
    template with the key set to the value; other shapes are left out. *)
Fixpoint copy_each (template : gmap string value) (key : string)
    (candidates : list value) (heap : gmap config_ref (gmap string value))
  : list config_ref * gmap config_ref (gmap string value) :=
  match candidates with
  | [] => ([], heap)
  | v :: rest =>
      let c := fresh (dom heap) in
      let r := copy_each template key rest (<[c := <[key := v]> template]> heap) in
      (c :: r.1, r.2)
  end.

Definition single_path_builder (template : config_ref)
    (params : list (list string * list value))
    (heap : gmap config_ref (gmap string value))
  : list config_ref * gmap config_ref (gmap string value) :=
  match params with
  | [([key], candidates)] =>
      copy_each (default ∅ (heap !! template)) key candidates heap
  | _ => ([], heap)
  end.

(** [build_configs], over the builder [cfgb.build_multiple_configs], which is
    not among the sources: given the template and the candidate values of
    each path it allocates the configurations and returns their references. *)
Definition build_configs
    (build_multiple_configs :
       config_ref -> list (list string * list value) ->
       gmap config_ref (gmap string value) ->
       list config_ref * gmap config_ref (gmap string value))
    (heap : gmap config_ref (gmap string value))
  : list config_ref * gmap config_ref (gmap string value) :=
  let config_template := fresh (dom heap) in
  let heap := <[config_template := ∅]> heap in
  let heap := setitem config_template "fail" VNone heap in
  let built := build_multiple_configs config_template
                 [(["fail"], [VBool false; VBool false; VBool true;
                              VBool false; VBool false])] heap in
  (built.1, tag_from 0 built.1 built.2).

End RunNotebook.
Module DaoCrossFacts.
Import Py DaoCross.
Local Open Scope Q_scope.

Lemma int_of_bool_cases b : int_of_bool b = 1 \/ int_of_bool b = 0.
Proof. destruct b; auto. Qed.

Lemma Qle_bool_false x y : Qle_bool x y = false -> y < x.
Proof.
  intros H. destruct (Qlt_le_dec y x) as [Hlt|Hle]; [exact Hlt|].
  apply Qle_bool_iff in Hle. congruence.
Qed.


(** The preconditions let the function through to the solver. *)
Lemma optimize_for_volume_builds o1 o2 r :
  action o1 = "buy"%string -> action o2 = "sell"%string -> 0 < r ->
  exists p, optimize_for_volume o1 o2 r = Ok p.
Proof.
  intros Hb Hs Hr. unfold optimize_for_volume. rewrite Hb, Hs. simpl.
  destruct (Qle_bool r 0) eqn:E.
  - apply Qle_bool_iff in E. lra.
  - eauto.
Qed.

(** What the built problem says, constraint by constraint. *)
Lemma optimize_for_volume_problem o1 o2 r p :
  optimize_for_volume o1 o2 r = Ok p ->
  sense p = LpMaximize /\
  (forall q1 q2, value (objective p) q1 q2 == q1 + q2) /\
  (forall q1 q2, feasible p q1 q2 <->
     0 <= q1 /\ 0 <= q2 /\
     q1 <= quantity o1 + M * (1 - limit_price_cond_1 o1 r) /\
     q2 <= quantity o2 + M * (1 - limit_price_cond_2 o2 r) /\
     q1 <= M * limit_price_cond_1 o1 r /\
     - M * limit_price_cond_1 o1 r <= q1 /\
     q2 <= M * limit_price_cond_2 o2 r /\
     - M * limit_price_cond_2 o2 r <= q2 /\
     q1 == q2).
Proof.
  unfold optimize_for_volume.
  destruct (negb _); [discriminate|].
  destruct (negb _); [discriminate|].
  destruct (Qle_bool r 0); [discriminate|].
  intros [= <-]. split; [reflexivity|]. split.
  - intros q1 q2. unfold value; simpl. ring.
  - intros q1 q2. unfold feasible; simpl.
    repeat rewrite Forall_cons. rewrite Forall_nil.
    unfold holds, value; simpl.
    set (c1 := limit_price_cond_1 o1 r). set (c2 := limit_price_cond_2 o2 r).
    split; intros H; decompose [and] H; clear H; repeat split; lra.
Qed.

(** Every feasible point lies on the diagonal, below both caps. *)
Lemma feasible_bounded o1 o2 r p q1 q2 :
  optimize_for_volume o1 o2 r = Ok p ->
  quantity o1 <= M -> quantity o2 <= M ->
  feasible p q1 q2 ->
  q1 == q2 /\ 0 <= q1 /\ q1 <= Qmin (cap_1 o1 r) (cap_2 o2 r).
Proof.
  intros Hp H1 H2 Hf.
  destruct (optimize_for_volume_problem _ _ _ _ Hp) as (_ & _ & Hfe).
  apply Hfe in Hf. clear Hfe.
  unfold limit_price_cond_1, limit_price_cond_2, cap_1, cap_2 in *.
  destruct (Qle_bool r (limit_price o1)), (Qle_bool (limit_price o2) r);
    simpl in Hf; decompose [and] Hf; clear Hf;
    (split; [assumption|split; [assumption|]]);
    apply Q.min_glb; unfold M in *; lra.
Qed.

Lemma min_caps_feasible o1 o2 r p :
  optimize_for_volume o1 o2 r = Ok p ->
  0 < quantity o1 <= M -> 0 < quantity o2 <= M ->
  let m := Qmin (cap_1 o1 r) (cap_2 o2 r) in feasible p m m.
Proof.
  intros Hp [H1 H1'] [H2 H2'] m.
  destruct (optimize_for_volume_problem _ _ _ _ Hp) as (_ & _ & Hfe).
  apply Hfe. clear Hfe.
  assert (Hm1 : m <= cap_1 o1 r) by apply Q.le_min_l.
  assert (Hm2 : m <= cap_2 o2 r) by apply Q.le_min_r.
  assert (Hm0 : 0 <= m).
  { apply Q.min_glb; unfold cap_1, cap_2;
      [destruct (Qle_bool r _)|destruct (Qle_bool _ r)]; lra. }
  clearbody m.
  unfold limit_price_cond_1, limit_price_cond_2, cap_1, cap_2 in *.
  destruct (Qle_bool r (limit_price o1)), (Qle_bool (limit_price o2) r);
    simpl; unfold M in *; repeat split; lra.
Qed.

(** C1. For a buy order and a sell order with quantities in (0, 1e6] and a
    positive exchange rate, the program built by [optimize_for_volume] has an
    optimal solution with [q1 = q2 = min (c1, c2)], where a side's cap is its
    quantity if its limit price admits the rate and 0 otherwise; the optimal
    objective is [2 * min (c1, c2)], and it is 0 as soon as one limit-price
    condition fails. *)
Theorem optimize_for_volume_optimum o1 o2 r :
  action o1 = "buy"%string -> action o2 = "sell"%string ->
  0 < quantity o1 <= M -> 0 < quantity o2 <= M -> 0 < r ->
  exists p, optimize_for_volume o1 o2 r = Ok p /\
    let c1 := if Qle_bool r (limit_price o1) then quantity o1 else 0 in
    let c2 := if Qle_bool (limit_price o2) r then quantity o2 else 0 in
    let m := Qmin c1 c2 in
    optimal p m m /\
    value (objective p) m m == 2 * m /\
    (Qle_bool r (limit_price o1) = false \/
     Qle_bool (limit_price o2) r = false ->
     m == 0 /\ value (objective p) m m == 0).
Proof.
  intros Hb Hs Hq1 Hq2 Hr.
  destruct (optimize_for_volume_builds o1 o2 r Hb Hs Hr) as [p Hp].
  exists p. split; [exact Hp|]. intros c1 c2 m.
  destruct (optimize_for_volume_problem _ _ _ _ Hp) as (Hsense & Hobj & _).
  assert (Hval : value (objective p) m m == 2 * m) by (rewrite Hobj; ring).
  split; [|split; [exact Hval|]].
  - split; [exact Hsense|]. split.
    + apply (min_caps_feasible o1 o2 r p Hp Hq1 Hq2).
    + intros q1' q2' Hf.
      destruct (feasible_bounded o1 o2 r p q1' q2' Hp) as (He & _ & Hle);
        [tauto|tauto|exact Hf|].
      rewrite !Hobj. fold c1 c2 m in Hle. unfold cap_1, cap_2 in Hle.
      fold c1 c2 m in Hle. lra.
  - intros Hfail.
    assert (Hm : m == 0).
    { subst m c1 c2. destruct Hfail as [-> | ->].
      - destruct (Qle_bool (limit_price o2) r).
        + apply Q.min_l. lra.
        + apply Q.min_l. lra.
      - destruct (Qle_bool r (limit_price o1)).
        + apply Q.min_r. lra.
        + apply Q.min_r. lra. }
    split; [exact Hm|]. rewrite Hval, Hm. ring.
Qed.

(** The optimum is unique: the solver has no other point to report. *)
Lemma optimize_for_volume_unique o1 o2 r p q1 q2 :
  optimize_for_volume o1 o2 r = Ok p ->
  0 < quantity o1 <= M -> 0 < quantity o2 <= M ->
  optimal p q1 q2 ->
  q1 == Qmin (cap_1 o1 r) (cap_2 o2 r) /\ q2 == Qmin (cap_1 o1 r) (cap_2 o2 r).
Proof.
  intros Hp Hq1 Hq2 (_ & Hf & Hmax).
  destruct (optimize_for_volume_problem _ _ _ _ Hp) as (_ & Hobj & _).
  destruct (feasible_bounded o1 o2 r p q1 q2 Hp) as (He & _ & Hle);
    [tauto|tauto|exact Hf|].
  pose proof (Hmax _ _ (min_caps_feasible o1 o2 r p Hp Hq1 Hq2)) as Hge.
  rewrite !Hobj in Hge. split; lra.
Qed.

(** The first run of the demonstration: orders (5 @ 5) and (5 @ 3), rate 4. *)
Lemma optimize_for_volume_optimum_witness :
  exists p,
    optimize_for_volume (fst (get_test_orders 5 3)) (snd (get_test_orders 5 3)) 4
      = Ok p /\
    optimal p (Qmin 5 5) (Qmin 5 5) /\
    value (objective p) (Qmin 5 5) (Qmin 5 5) == 2 * Qmin 5 5.
Proof.
  destruct (optimize_for_volume_optimum
              (fst (get_test_orders 5 3)) (snd (get_test_orders 5 3)) 4)
    as (p & Hp & Hopt & Hval & _);
    [reflexivity | reflexivity | | | reflexivity |].
  - split; [reflexivity | discriminate].
  - split; [reflexivity | discriminate].
  - exists p. split; [exact Hp|]. split; [exact Hopt | exact Hval].
Defined.

(** The remaining three runs of the demonstration: a failing limit-price
    condition on either side leaves nothing to cross. *)
Example demo_only_buy_side :
  forall p, optimize_for_volume (fst (get_test_orders 5 5))
                                (snd (get_test_orders 5 5)) 4 = Ok p ->
  forall q1 q2, optimal p q1 q2 -> q1 == 0 /\ q2 == 0.
Proof.
  intros p Hp q1 q2 Ho.
  apply (optimize_for_volume_unique _ _ _ _ _ _ Hp) in Ho.
  - exact Ho.
  - split; [reflexivity | discriminate].
  - split; [reflexivity | discriminate].
Qed.

End DaoCrossFacts.

Module DaoCrossMore.
Import Py DaoCross DaoCrossFacts.
Local Open Scope Q_scope.

(** The three assertions are the only way out before the solver: the
    function gets to build its problem exactly for a buy order, a sell order
    and a positive rate, and fails with an assertion error otherwise. *)
Theorem optimize_for_volume_preconditions o1 o2 r :
  (is_ok (optimize_for_volume o1 o2 r) = true <->
   action o1 = "buy"%string /\ action o2 = "sell"%string /\ 0 < r) /\
  (is_ok (optimize_for_volume o1 o2 r) = false ->
   exists msg, optimize_for_volume o1 o2 r = Raise (AssertionError msg)).
Proof.
  unfold optimize_for_volume.
  destruct (String.eqb_spec (action o1) "buy") as [Hb|Hb]; simpl.
  - destruct (String.eqb_spec (action o2) "sell") as [Hs|Hs]; simpl.
    + destruct (Qle_bool r 0) eqn:E; simpl.
      * apply Qle_bool_iff in E. split; [|eauto].
        split; [discriminate|]. intros (_ & _ & Hr). lra.
      * apply Qle_bool_false in E. split; [tauto|discriminate].
    + split; [|eauto]. split; [discriminate|tauto].
  - split; [|eauto]. split; [discriminate|tauto].
Qed.

Lemma optimize_for_volume_preconditions_witness :
  is_ok (optimize_for_volume (mkOrder "sell" 5 "BTC" 5 "ETH")
                             (mkOrder "sell" 5 "BTC" 3 "ETH") 4) = false /\
  exists msg, optimize_for_volume (mkOrder "sell" 5 "BTC" 5 "ETH")
                                  (mkOrder "sell" 5 "BTC" 3 "ETH") 4
              = Raise (AssertionError msg).
Proof.
  split; [reflexivity|].
  apply (optimize_for_volume_preconditions (mkOrder "sell" 5 "BTC" 5 "ETH")
           (mkOrder "sell" 5 "BTC" 3 "ETH") 4).
  reflexivity.
Defined.




(** What a side can execute at most: nothing when its limit price rejects the
    rate, otherwise its quantity, but never more than the Big-M constant. *)
Lemma feasible_capped o1 o2 r p q1 q2 :
  optimize_for_volume o1 o2 r = Ok p ->
  feasible p q1 q2 ->
  q1 == q2 /\ 0 <= q1 /\
  q1 <= (if Qle_bool r (limit_price o1) then Qmin (quantity o1) M else 0) /\
  q1 <= (if Qle_bool (limit_price o2) r then Qmin (quantity o2) M else 0).
Proof.
  intros Hp Hf.
  destruct (optimize_for_volume_problem _ _ _ _ Hp) as (_ & _ & Hfe).
  apply Hfe in Hf. clear Hfe.
  unfold limit_price_cond_1, limit_price_cond_2 in *.
  destruct (Qle_bool r (limit_price o1)), (Qle_bool (limit_price o2) r);
    simpl in Hf; decompose [and] Hf; clear Hf;
    repeat split; try assumption; try apply Q.min_glb; unfold M in *; lra.
Qed.

(** For non-negative quantities of any size the program has exactly one
    optimum, on the diagonal: the smaller of the two caps, where the cap of a
    side whose limit price admits the rate is its quantity cut at the Big-M
    constant 1e6.  Orders larger than 1e6 are thus crossed for 1e6 only. *)
Theorem optimize_for_volume_big_m_cap o1 o2 r :
  action o1 = "buy"%string -> action o2 = "sell"%string -> 0 < r ->
  0 <= quantity o1 -> 0 <= quantity o2 ->
  exists p, optimize_for_volume o1 o2 r = Ok p /\
    let c1 := if Qle_bool r (limit_price o1)
              then Qmin (quantity o1) M else 0 in
    let c2 := if Qle_bool (limit_price o2) r
              then Qmin (quantity o2) M else 0 in
    let m := Qmin c1 c2 in
    optimal p m m /\
    (forall q1 q2, optimal p q1 q2 -> q1 == m /\ q2 == m) /\
    (M <= quantity o1 -> M <= quantity o2 ->
     Qle_bool r (limit_price o1) = true ->
     Qle_bool (limit_price o2) r = true -> m == M).
Proof.
  intros Hb Hs Hr Hq1 Hq2.
  destruct (optimize_for_volume_builds o1 o2 r Hb Hs Hr) as [p Hp].
  exists p. split; [exact Hp|]. intros c1 c2 m.
  destruct (optimize_for_volume_problem _ _ _ _ Hp) as (Hsense & Hobj & Hfe).
  assert (Hm1 : m <= c1) by apply Q.le_min_l.
  assert (Hm2 : m <= c2) by apply Q.le_min_r.
  assert (Hc1 : 0 <= c1 /\ c1 <= quantity o1 /\ c1 <= M).
  { subst c1. destruct (Qle_bool r _).
    - pose proof (Q.le_min_l (quantity o1) M).
      pose proof (Q.le_min_r (quantity o1) M).
      split; [apply Q.min_glb; unfold M; lra|tauto].
    - unfold M. lra. }
  assert (Hc2 : 0 <= c2 /\ c2 <= quantity o2 /\ c2 <= M).
  { subst c2. destruct (Qle_bool _ r).
    - pose proof (Q.le_min_l (quantity o2) M).
      pose proof (Q.le_min_r (quantity o2) M).
      split; [apply Q.min_glb; unfold M; lra|tauto].
    - unfold M. lra. }
  assert (Hm0 : 0 <= m) by (apply Q.min_glb; tauto).
  assert (Hfm : feasible p m m).
  { apply Hfe. clearbody m. subst c1 c2.
    unfold limit_price_cond_1, limit_price_cond_2.
    destruct (Qle_bool r (limit_price o1)), (Qle_bool (limit_price o2) r);
      simpl; unfold M in *; repeat split; lra. }
  assert (Hub : forall q1 q2, feasible p q1 q2 -> q1 == q2 /\ q1 <= m).
  { intros q1 q2 Hf.
    destruct (feasible_capped o1 o2 r p q1 q2 Hp Hf) as (He & _ & H1 & H2).
    split; [exact He|]. apply Q.min_glb; assumption. }
  split; [|split].
  - split; [exact Hsense|]. split; [exact Hfm|].
    intros q1' q2' Hf. destruct (Hub _ _ Hf) as [He Hle].
    rewrite !Hobj. lra.
  - intros q1 q2 (_ & Hf & Hmax).
    destruct (Hub _ _ Hf) as [He Hle].
    pose proof (Hmax _ _ Hfm) as Hge. rewrite !Hobj in Hge. split; lra.
  - intros HM1 HM2 E1 E2. subst m c1 c2. rewrite E1, E2.
    rewrite (Q.min_r (quantity o1) M HM1), (Q.min_r (quantity o2) M HM2).
    apply Q.min_l. lra.
Qed.

(** Two orders of two million each, with agreeing limit prices. *)
Lemma optimize_for_volume_big_m_cap_witness :
  exists p,
    optimize_for_volume (mkOrder "buy" 2000000 "BTC" 5 "ETH")
                        (mkOrder "sell" 2000000 "BTC" 3 "ETH") 4 = Ok p /\
    forall q1 q2, optimal p q1 q2 -> q1 == M /\ q2 == M.
Proof.
  destruct (optimize_for_volume_big_m_cap
              (mkOrder "buy" 2000000 "BTC" 5 "ETH")
              (mkOrder "sell" 2000000 "BTC" 3 "ETH") 4)
    as (p & Hp & _ & Huniq & Hcap);
    [reflexivity | reflexivity | reflexivity | discriminate | discriminate |].
  exists p. split; [exact Hp|].
  intros q1 q2 Ho. destruct (Huniq q1 q2 Ho) as [H1 H2].
  rewrite H1, H2. split; reflexivity.
Defined.



End DaoCrossMore.

Module CacheFacts.
Import Cache.

Section Facade.
Context {K V : Type} `{Countable K}.
Implicit Types (c : Cached K V) (args : K).

Lemma call_mem_hit c args v :
  mem_lookup c args = Some v ->
  (call c args).1 = v /\
  get_last_cache_accessed (call c args).2 = mem /\
  mem_store (call c args).2 = mem_store c /\
  disk_store (call c args).2 = disk_store c /\
  computations (call c args).2 = computations c.
Proof. intros Hm. unfold call. rewrite Hm. simpl. auto. Qed.

Lemma call_disk_hit c args v :
  mem_lookup c args = None -> disk_lookup c args = Some v ->
  (call c args).1 = v /\
  get_last_cache_accessed (call c args).2 = disk /\
  (use_mem_cache c = true -> mem_store (call c args).2 !! args = Some v) /\
  disk_store (call c args).2 = disk_store c /\
  computations (call c args).2 = computations c.
Proof.
  intros Hm Hd. unfold call. rewrite Hm, Hd. simpl.
  repeat split; try reflexivity.
  intros ->. apply lookup_insert_eq.
Qed.

Lemma call_miss c args :
  mem_lookup c args = None -> disk_lookup c args = None ->
  (call c args).1 = func c args /\
  get_last_cache_accessed (call c args).2 = no_cache /\
  (use_mem_cache c = true ->
   mem_store (call c args).2 !! args = Some (func c args)) /\
  (use_disk_cache c = true ->
   disk_store (call c args).2 !! args = Some (func c args)) /\
  computations (call c args).2 = S (computations c).
Proof.
  intros Hm Hd. unfold call. rewrite Hm, Hd. simpl.
  repeat split; try reflexivity; intros ->; apply lookup_insert_eq.
Qed.

Lemma call_flags c args :
  func (call c args).2 = func c /\
  use_mem_cache (call c args).2 = use_mem_cache c /\
  use_disk_cache (call c args).2 = use_disk_cache c.
Proof.
  unfold call. destruct (mem_lookup c args); [simpl; auto|].
  destruct (disk_lookup c args); simpl; auto.
Qed.

Lemma clear_cache_consistent which c :
  consistent c -> consistent (clear_cache which c).
Proof.
  intros Hc k v. unfold clear_cache; simpl.
  destruct which as [[]|]; rewrite ?lookup_empty; intros [?|?];
    try discriminate; apply Hc; auto.
Qed.

Lemma new_consistent (f : K -> V) um ud (on_disk : gmap K V) :
  (forall k v, on_disk !! k = Some v -> v = f k) ->
  consistent (new f um ud on_disk).
Proof.
  intros Hd k v [Hm|Hk]; simpl in *.
  - rewrite lookup_empty in Hm. discriminate.
  - apply Hd, Hk.
Qed.

(** Calls keep the stores inside the graph of the wrapped function, and
    return its value. *)
Lemma call_consistent c args :
  consistent c ->
  (call c args).1 = func c args /\ consistent (call c args).2.
Proof.
  intros Hc. unfold call, mem_lookup, disk_lookup.
  destruct (use_mem_cache c) eqn:Um.
  - destruct (mem_store c !! args) as [v|] eqn:Hm.
    + simpl. split; [apply Hc; auto|]. intros k w; simpl. apply Hc.
    + destruct (use_disk_cache c) eqn:Ud.
      * destruct (disk_store c !! args) as [v|] eqn:Hd.
        -- simpl. split; [apply Hc; auto|]. intros k w; simpl.
           rewrite lookup_insert. case_decide as E.
           ++ subst k. intros [[= <-]|Hw]; apply Hc; auto.
           ++ apply Hc.
        -- simpl. split; [reflexivity|]. intros k w; simpl.
           rewrite !lookup_insert. case_decide as E.
           ++ subst k. intros [[= <-]|[= <-]]; reflexivity.
           ++ apply Hc.
      * simpl. split; [reflexivity|]. intros k w; simpl.
        rewrite lookup_insert. case_decide as E.
        -- subst k. intros [[= <-]|Hw]; [reflexivity|apply Hc; auto].
        -- apply Hc.
  - destruct (use_disk_cache c) eqn:Ud.
    + destruct (disk_store c !! args) as [v|] eqn:Hd.
      * simpl. split; [apply Hc; auto|]. intros k w; simpl. apply Hc.
      * simpl. split; [reflexivity|]. intros k w; simpl.
        rewrite lookup_insert. case_decide as E.
        -- subst k. intros [Hw|[= <-]]; [apply Hc; auto|reflexivity].
        -- apply Hc.
    + simpl. split; [reflexivity|]. intros k w; simpl. apply Hc.
Qed.

(** C3. With both tiers enabled and all caches cleared: the first call reports
    [no_cache]; the repeat reports [mem]; after clearing the memory tier only,
    the next call reports [disk], runs the wrapped function no further time
    and refills the memory tier, so that the call after it reports [mem];
    each of the four calls returns the value of the wrapped function. *)
Theorem fully_cached_computation_tiers c0 args :
  use_mem_cache c0 = true -> use_disk_cache c0 = true ->
  let c1 := clear_cache None c0 in
  let r1 := call c1 args in
  let r2 := call r1.2 args in
  let c2 := clear_cache (Some clear_mem) r2.2 in
  let r3 := call c2 args in
  let r4 := call r3.2 args in
  get_last_cache_accessed r1.2 = no_cache /\
  get_last_cache_accessed r2.2 = mem /\
  get_last_cache_accessed r3.2 = disk /\
  get_last_cache_accessed r4.2 = mem /\
  computations r1.2 = S (computations c0) /\
  computations r2.2 = computations r1.2 /\
  computations r3.2 = computations r1.2 /\
  computations r4.2 = computations r1.2 /\
  mem_store r3.2 !! args = Some (func c0 args) /\
  r1.1 = func c0 args /\ r2.1 = func c0 args /\
  r3.1 = func c0 args /\ r4.1 = func c0 args.
Proof.
  intros Um Ud c1 r1 r2 c2 r3 r4.
  (* first call: both tiers are cold *)
  assert (Hm1 : mem_lookup c1 args = None).
  { unfold mem_lookup, c1; simpl. rewrite Um. apply lookup_empty. }
  assert (Hd1 : disk_lookup c1 args = None).
  { unfold disk_lookup, c1; simpl. rewrite Ud. apply lookup_empty. }
  destruct (call_miss c1 args Hm1 Hd1) as (V1 & L1 & M1 & D1 & N1).
  destruct (call_flags c1 args) as (F1 & Um1 & Ud1).
  fold r1 in V1, L1, M1, D1, N1, F1, Um1, Ud1.
  change (use_mem_cache c1) with (use_mem_cache c0) in *.
  change (use_disk_cache c1) with (use_disk_cache c0) in *.
  change (func c1) with (func c0) in *.
  change (computations c1) with (computations c0) in *.
  specialize (M1 Um). specialize (D1 Ud).
  (* second call: memory is warm *)
  assert (Hm2 : mem_lookup r1.2 args = Some (func c0 args)).
  { unfold mem_lookup. rewrite Um1, Um. exact M1. }
  destruct (call_mem_hit r1.2 args _ Hm2) as (V2 & L2 & M2 & D2 & N2).
  destruct (call_flags r1.2 args) as (F2 & Um2 & Ud2).
  fold r2 in V2, L2, M2, D2, N2, F2, Um2, Ud2.
  (* memory cleared, disk kept *)
  assert (Hm3 : mem_lookup c2 args = None).
  { unfold mem_lookup, c2; simpl. rewrite Um2, Um1, Um. apply lookup_empty. }
  assert (Hd3 : disk_lookup c2 args = Some (func c0 args)).
  { unfold disk_lookup, c2; simpl. rewrite Ud2, Ud1, Ud, D2. exact D1. }
  destruct (call_disk_hit c2 args _ Hm3 Hd3) as (V3 & L3 & M3 & D3 & N3).
  destruct (call_flags c2 args) as (F3 & Um3 & Ud3).
  fold r3 in V3, L3, M3, D3, N3, F3, Um3, Ud3.
  change (use_mem_cache c2) with (use_mem_cache r2.2) in *.
  change (computations c2) with (computations r2.2) in *.
  assert (Um2' : use_mem_cache r2.2 = true) by congruence.
  specialize (M3 Um2').
  (* the disk hit refilled memory *)
  assert (Hm4 : mem_lookup r3.2 args = Some (func c0 args)).
  { unfold mem_lookup. rewrite Um3, Um2'. exact M3. }
  destruct (call_mem_hit r3.2 args _ Hm4) as (V4 & L4 & M4 & D4 & N4).
  fold r4 in V4, L4, M4, D4, N4.
  repeat split; try assumption; congruence.
Qed.

End Facade.

(** The notebook's run: [computation_function] on inputs [(1, 2)]. *)
Lemma fully_cached_computation_tiers_witness :
  let c0 := new computation_function true true {[ inputs := exp_output ]} in
  let r1 := call (clear_cache None c0) inputs in
  let r2 := call r1.2 inputs in
  let r3 := call (clear_cache (Some clear_mem) r2.2) inputs in
  get_last_cache_accessed r1.2 = no_cache /\
  get_last_cache_accessed r2.2 = mem /\
  get_last_cache_accessed r3.2 = disk /\
  r3.1 = exp_output.
Proof.
  intros c0 r1 r2 r3.
  destruct (fully_cached_computation_tiers c0 inputs eq_refl eq_refl)
    as (L1 & L2 & L3 & _ & _ & _ & _ & _ & _ & _ & _ & V3 & _).
  repeat split; assumption.
Defined.

(** After clearing every tier the next call computes again. *)
Lemma clear_all_then_no_cache {K V} `{Countable K} (c : Cached K V) args :
  get_last_cache_accessed (call (clear_cache None c) args).2 = no_cache.
Proof.
  apply call_miss; unfold mem_lookup, disk_lookup; simpl;
    [destruct (use_mem_cache c)|destruct (use_disk_cache c)];
    try reflexivity; apply lookup_empty.
Qed.

End CacheFacts.

Module TelegramFacts.
Import Py Telegram.
Local Open Scope string_scope.


(** With status 200 the link is whatever the body holds under [result]. *)
Lemma _get_invate_link_200 api tok gid tr resp body :
  requests_get api (invite_url tok gid) = Ok resp ->
  status_code resp = 200%Z -> json resp = Ok body ->
  _get_invate_link api tok gid tr =
    (Ok (default PyNone (body !! "result")),
     (tr ++ [HttpGet (invite_url tok gid)])%list).
Proof.
  intros Hget Hst Hbody.
  unfold _get_invate_link, bind, perform, lift, ret.
  rewrite Hget, Hst. simpl. rewrite Hbody. simpl.
  rewrite lookup_insert_eq. reflexivity.
Qed.

(** Without status 200 the local is never bound and the return fails. *)
Lemma get_invate_link_unbound api tok gid tr resp :
  requests_get api (invite_url tok gid) = Ok resp ->
  status_code resp <> 200%Z ->
  _get_invate_link api tok gid tr =
    (Raise (UnboundLocalError "invite_link"),
     (tr ++ [HttpGet (invite_url tok gid)])%list).
Proof.
  intros Hget Hst.
  unfold _get_invate_link, bind, perform, lift, ret, raise.
  rewrite Hget.
  destruct (Z.eqb_spec (status_code resp) 200) as [E|_]; [contradiction|].
  rewrite lookup_empty. reflexivity.
Qed.

(** C7 (as the code has it). When the export answers with a status other than
    200, the helper runs no [raise] of its own and never binds the link; its
    [return invite_link] then fails with [UnboundLocalError], so the helper
    returns no link at all, and makes no call besides the export. *)
Theorem get_invate_link_not_200 api tok gid tr resp :
  requests_get api (invite_url tok gid) = Ok resp ->
  status_code resp <> 200%Z ->
  _get_invate_link api tok gid tr =
    (Raise (UnboundLocalError "invite_link"),
     (tr ++ [HttpGet (invite_url tok gid)])%list) /\
  ~ (exists link, (_get_invate_link api tok gid tr).1 = Ok link).
Proof.
  intros Hget Hst.
  rewrite (get_invate_link_unbound api tok gid tr resp Hget Hst).
  split; [reflexivity|]. intros [link Hlink]. discriminate.
Qed.

Lemma get_invate_link_not_200_witness :
  _get_invate_link (refusing_api 403) (PyStr "TOKEN") "-1001" [] =
    (Raise (UnboundLocalError "invite_link"),
     [HttpGet (invite_url (PyStr "TOKEN") "-1001")]).
Proof.
  apply (get_invate_link_not_200 (refusing_api 403) (PyStr "TOKEN") "-1001" []
           (mkResponse 403 (Ok {[ "ok" := PyStr "false" ]}))).
  - reflexivity.
  - simpl. lia.
Defined.

(** C7 (as stated) fails: at status 404 the helper does not return. *)
Lemma get_invate_link_404_raises :
  status_code (mkResponse 404 (Ok {[ "ok" := PyStr "false" ]})) <> 200%Z /\
  requests_get (refusing_api 404) (invite_url (PyStr "TOKEN") "-1001")
    = Ok (mkResponse 404 (Ok {[ "ok" := PyStr "false" ]})) /\
  ~ (exists link,
       (_get_invate_link (refusing_api 404) (PyStr "TOKEN") "-1001" []).1
       = Ok link).
Proof.
  split; [simpl; lia|]. split; [reflexivity|].
  intros [link Hlink]. vm_compute in Hlink. discriminate.
Qed.

(** The error reaches the caller before any message is sent. *)
Lemma _invite_collaborator_not_200 api tok user gid tr resp :
  requests_get api (invite_url tok gid) = Ok resp ->
  status_code resp <> 200%Z ->
  _invite_collaborator api tok user gid tr =
    (Raise (UnboundLocalError "invite_link"),
     (tr ++ [HttpGet (invite_url tok gid)])%list).
Proof.
  intros Hget Hst. unfold _invite_collaborator, bind at 1.
  rewrite (get_invate_link_unbound api tok gid tr resp Hget Hst).
  reflexivity.
Qed.

Lemma command_line_lookup a u g :
  command_line a u g !! "action" = Some a /\
  command_line a u g !! "username" = Some u /\
  command_line a u g !! "groupid" = Some g.
Proof. unfold command_line. repeat split; by simplify_map_eq. Qed.

(** What the parser makes of a full command line. *)
Lemma parse_args_command_line a u g :
  parse_args _parse (command_line a u g) =
    if bool_decide (a ∈ ["add"; "remove"; "unban"]) then
      Ok (<["action" := PyStr a]>
            (<["username" := PyStr u]> (<["groupid" := PyStr g]> ∅)))
    else Raise (SystemExit 2).
Proof.
  destruct (command_line_lookup a u g) as (Ha & Hu & Hg).
  unfold _parse, parse_args; simpl. rewrite Ha, Hu, Hg.
  case_bool_decide; reflexivity.
Qed.

(** C8 (as the code has it). For an action other than [add] and [remove],
    [main] raises and makes no call at all: for the declared choice [unban]
    the dispatch, reached once the bot object is built, raises the
    invalid-action [ValueError]; any value outside the declared choices is
    refused by the argument parser (exit status 2) before the dispatch is
    reached. *)
Theorem main_unhandled_action api tok a u g tr :
  a <> "add" -> a <> "remove" ->
  is_ok (main api tok _parse (command_line a u g) tr).1 = false /\
  (main api tok _parse (command_line a u g) tr).2 = tr /\
  (a = "unban" -> new_bot api tok = Ok tt ->
   (main api tok _parse (command_line a u g) tr).1
   = Raise (ValueError "Invalid action ='unban'")) /\
  (a <> "unban" ->
   (main api tok _parse (command_line a u g) tr).1 = Raise (SystemExit 2)).
Proof.
  intros Hadd Hrem. unfold main, bind, lift.
  rewrite parse_args_command_line.
  case_bool_decide as Hin.
  - assert (a = "unban") as ->.
    { rewrite !elem_of_cons in Hin. rewrite elem_of_nil in Hin. tauto. }
    rewrite lookup_insert_eq. simpl.
    destruct (new_bot api tok) as [[]|e]; simpl;
      repeat split; try reflexivity; try discriminate; congruence.
  - simpl. repeat split; try reflexivity.
    intros ->. exfalso. apply Hin. rewrite !elem_of_cons. tauto.
Qed.

Lemma main_unhandled_action_witness :
  main (refusing_api 200) (PyStr "TOKEN") _parse
       (command_line "unban" "alice" "-1001") [] =
    (Raise (ValueError "Invalid action ='unban'"), []).
Proof.
  destruct (main_unhandled_action (refusing_api 200) (PyStr "TOKEN")
              "unban" "alice" "-1001" []) as (_ & Htr & Hunban & _);
    [discriminate | discriminate |].
  specialize (Hunban eq_refl eq_refl).
  destruct (main _ _ _ _ _) as [r t]. simpl in Htr, Hunban.
  rewrite Htr, Hunban. reflexivity.
Defined.

(** C8 (as stated) fails: an action outside the declared choices never gets
    to the invalid-action error. *)
Lemma main_undeclared_action_exits :
  "ban" <> "add" /\ "ban" <> "remove" /\
  ~ (exists msg,
       (main (refusing_api 200) (PyStr "TOKEN") _parse
             (command_line "ban" "alice" "-1001") []).1
       = Raise (ValueError msg)).
Proof.
  split; [discriminate|]. split; [discriminate|].
  intros [msg Hmsg]. vm_compute in Hmsg. discriminate.
Qed.

(** The two handled actions do reach the bot. *)
Lemma main_handled api tok a u g :
  a = "add" \/ a = "remove" ->
  new_bot api tok = Ok tt ->
  main api tok _parse (command_line a u g) =
    if String.eqb a "add" then _invite_collaborator api tok u g
    else _remove_collaborator api u g.
Proof.
  intros Ha Hbot. unfold main, bind at 1, lift.
  rewrite parse_args_command_line.
  rewrite bool_decide_eq_true_2
    by (rewrite !elem_of_cons; destruct Ha; auto).
  rewrite lookup_insert_eq.
  rewrite lookup_insert_ne, lookup_insert_eq by discriminate.
  rewrite !lookup_insert_ne, lookup_insert_eq by discriminate.
  simpl. unfold bind at 1. rewrite Hbot.
  destruct Ha as [-> | ->]; reflexivity.
Qed.

Lemma main_remove api tok u g tr :
  new_bot api tok = Ok tt ->
  banChatMember api g u = Ok tt ->
  (main api tok _parse (command_line "remove" u g) tr).2 =
    (tr ++ [BanChatMember g u; UnbanChatMember g u])%list.
Proof.
  intros Hbot Hban. rewrite main_handled by auto. simpl.
  unfold _remove_collaborator, bind, perform. rewrite Hban.
  simpl. rewrite <- app_assoc. reflexivity.
Qed.

Lemma main_add_requests_link api tok u g tr :
  new_bot api tok = Ok tt ->
  exists rest,
    (main api tok _parse (command_line "add" u g) tr).2 =
      (tr ++ HttpGet (invite_url tok g) :: rest)%list.
Proof.
  intros Hbot. rewrite main_handled by auto. simpl.
  unfold _invite_collaborator, _get_invate_link, bind, perform, lift, ret, raise.

  destruct (requests_get api (invite_url tok g)) as [resp|e]; [|by exists []].
  destruct (Z.eqb (status_code resp) 200).
  - destruct (json resp) as [body|e]; [|by exists []].
    rewrite lookup_insert_eq.
    destruct (send_message api u _) as [[|m]|e]; simpl;
      rewrite <- app_assoc; eauto.
  - rewrite lookup_empty. by exists [].
Qed.

End TelegramFacts.

Module TelegramMore.
Import Py Telegram TelegramFacts.
Local Open Scope string_scope.



(** [--action add], when the export answers 200 with a body: the link is
    what the body holds under [result], [None] when it holds nothing there;
    exactly one message goes out, to the user, with that link as its text,
    even when the link is [None]; the run succeeds exactly when the send gives
    a message back, and a send that gives [None] fails the assertion after
    the message has gone out. *)
Theorem main_add_sends_link api tok u g tr resp body :
  new_bot api tok = Ok tt ->
  requests_get api (invite_url tok g) = Ok resp ->
  status_code resp = 200%Z -> json resp = Ok body ->
  let link := default PyNone (body !! "result") in
  let r := main api tok _parse (command_line "add" u g) tr in
  r.2 = (tr ++ [HttpGet (invite_url tok g); SendMessage u link])%list /\
  (r.1 = Ok tt <-> exists m, send_message api u link = Ok (PyStr m)) /\
  (send_message api u link = Ok PyNone ->
   exists msg, r.1 = Raise (AssertionError msg)) /\
  (forall e, send_message api u link = Raise e -> r.1 = Raise e) /\
  (body !! "result" = None ->
   r.2 = (tr ++ [HttpGet (invite_url tok g); SendMessage u PyNone])%list).
Proof.
  intros Hbot Hget Hst Hbody link r.
  assert (Hr : r = match send_message api u link with
                   | Ok PyNone => (Raise (AssertionError "message is not None"),
                                   ((tr ++ [HttpGet (invite_url tok g)])
                                      ++ [SendMessage u link])%list)
                   | Ok (PyStr _) => (Ok tt,
                                   ((tr ++ [HttpGet (invite_url tok g)])
                                      ++ [SendMessage u link])%list)
                   | Raise e => (Raise e,
                                   ((tr ++ [HttpGet (invite_url tok g)])
                                      ++ [SendMessage u link])%list)
                   end).
  { subst r. rewrite main_handled by auto. simpl.
    unfold _invite_collaborator, bind at 1.
    rewrite (_get_invate_link_200 api tok g tr resp body Hget Hst Hbody).
    fold link. unfold bind, perform, ret, raise.
    destruct (send_message api u link) as [[|m]|e]; reflexivity. }
  rewrite Hr. clear Hr.
  assert (Htr : forall (x : result unit),
            (x, ((tr ++ [HttpGet (invite_url tok g)])
                   ++ [SendMessage u link])%list).2
            = (tr ++ [HttpGet (invite_url tok g); SendMessage u link])%list)
    by (intros x; simpl; by rewrite <- app_assoc).
  split; [|split; [|split; [|split]]].
  - destruct (send_message api u link) as [[|m]|e]; apply Htr.
  - destruct (send_message api u link) as [[|m]|e]; simpl;
      (split; [intros [=]; eauto|intros [m' [=]]; reflexivity]).
  - intros ->. simpl. eauto.
  - intros e ->. reflexivity.
  - intros Hnone.
    assert (link = PyNone) as <- by (unfold link; by rewrite Hnone).
    destruct (send_message api u link) as [[|m]|e]; apply Htr.
Qed.

Lemma main_add_sends_link_witness :
  let api := mkApi (fun _ => Ok tt)
               (fun _ => Ok (mkResponse 200 (Ok {[ "ok" := PyStr "true" ]})))
               (fun _ _ => Ok (PyStr "message")) (fun _ _ => Ok tt)
               (fun _ _ => Ok tt) in
  main api (PyStr "TOKEN") _parse (command_line "add" "alice" "-1001") [] =
    (Ok tt,
     [HttpGet (invite_url (PyStr "TOKEN") "-1001"); SendMessage "alice" PyNone]).
Proof.
  intros api.
  destruct (main_add_sends_link api (PyStr "TOKEN") "alice" "-1001" []
              (mkResponse 200 (Ok {[ "ok" := PyStr "true" ]}))
              {[ "ok" := PyStr "true" ]} eq_refl eq_refl eq_refl eq_refl)
    as (Htr & Hok & _).
  destruct (main _ _ _ _ _) as [r t]. simpl in Htr, Hok.
  rewrite Htr. f_equal. apply Hok. exists "message". reflexivity.
Defined.

(** [--action remove]: the ban comes first and the unban follows only a ban
    that succeeded.  A refused ban ends the run with its error and without
    any unban; after a ban that went through, the outcome is that of the
    unban, so that a refused unban leaves the user banned. *)
Theorem main_remove_bans_then_unbans api tok u g tr :
  new_bot api tok = Ok tt ->
  let r := main api tok _parse (command_line "remove" u g) tr in
  (forall e, banChatMember api g u = Raise e ->
     r = (Raise e, (tr ++ [BanChatMember g u])%list)) /\
  (banChatMember api g u = Ok tt ->
     r = (unbanChatMember api g u,
          (tr ++ [BanChatMember g u; UnbanChatMember g u])%list)).
Proof.
  intros Hbot r. subst r. rewrite main_handled by auto. simpl.
  unfold _remove_collaborator, bind, perform. split.
  - intros e ->. reflexivity.
  - intros ->. simpl. rewrite <- app_assoc. reflexivity.
Qed.

Lemma main_remove_bans_then_unbans_witness :
  let api := mkApi (fun _ => Ok tt) (fun _ => Raise (ExternalError "unused"))
               (fun _ _ => Ok PyNone)
               (fun _ _ => Raise (ExternalError "Forbidden"))
               (fun _ _ => Ok tt) in
  main api (PyStr "TOKEN") _parse (command_line "remove" "alice" "-1001") [] =
    (Raise (ExternalError "Forbidden"), [BanChatMember "-1001" "alice"]).
Proof.
  intros api.
  destruct (main_remove_bans_then_unbans api (PyStr "TOKEN") "alice" "-1001" []
              eq_refl) as (Hfail & _).
  exact (Hfail _ eq_refl).
Defined.

End TelegramMore.

Module SourcesFacts.
Import Py Sources.
Local Open Scope string_scope.

Section Tables.
Context {F : Type} `{Float F}.
Implicit Types (d : DataFrame F) (ts : list Z).

Lemma index_of_lt (l : label) cols i :
  index_of l cols = Some i -> (i < length cols)%nat.
Proof.
  revert i. induction cols as [|c cols IH]; intros i; simpl; [discriminate|].
  destruct (decide (c = l)).
  - intros [= <-]. lia.
  - destruct (index_of l cols) as [j|]; simpl; [|discriminate].
    intros [= <-]. specialize (IH j eq_refl). lia.
Qed.

Lemma index_of_lookup (l : label) cols i :
  index_of l cols = Some i -> cols !! i = Some l.
Proof.
  revert i. induction cols as [|c cols IH]; intros i; simpl; [discriminate|].
  destruct (decide (c = l)) as [->|].
  - intros [= <-]. reflexivity.
  - destruct (index_of l cols) as [j|]; simpl; [|discriminate].
    intros [= <-]. simpl. apply IH. reflexivity.
Qed.

Lemma index_of_None (l : label) cols :
  index_of l cols = None <-> l ∉ cols.
Proof.
  induction cols as [|c cols IH]; simpl.
  - split; [intros _; apply not_elem_of_nil|reflexivity].
  - destruct (decide (c = l)) as [->|Hne].
    + split; [discriminate|]. intros Hn. exfalso. apply Hn. left.
    + rewrite not_elem_of_cons. destruct (index_of l cols); simpl.
      * split; [discriminate|]. intros [_ Hn]. apply IH in Hn. discriminate.
      * split; [|reflexivity]. intros _. split; [congruence|]. by apply IH.
Qed.

(** The chosen column becomes the index and leaves the table. *)
Lemma set_index_column col d d1 :
  well_formed d -> set_index col d = Ok d1 ->
  exists i, index_of (L1 (NStr col)) (columns d) = Some i /\
            Some <$> index d1 = column i d /\
            columns d1 = delete i (columns d) /\
            length (rows d1) = length (rows d).
Proof.
  intros Hwf. unfold set_index.
  destruct (index_of _ (columns d)) as [i|] eqn:Hi; [|discriminate].
  intros [= <-]. exists i. split; [reflexivity|].
  pose proof (index_of_lt _ _ _ Hi) as Hlt.
  unfold index, column; simpl. split; [|split; [reflexivity|]].
  - rewrite <- !list_fmap_compose. apply Forall_fmap_ext_1.
    eapply Forall_impl; [exact Hwf|]. intros r Hr; simpl in *.
    destruct (r.2 !! i) eqn:E; [reflexivity|].
    apply lookup_ge_None in E. lia.
  - by rewrite length_map.
Qed.

Lemma set_index_missing col d :
  L1 (NStr col) ∉ columns d -> set_index col d = Raise (KeyError col).
Proof.
  intros Hn. unfold set_index.
  by rewrite (proj2 (index_of_None _ _) Hn).
Qed.

Lemma mapR_length {A B} (f : A -> result B) l bs :
  mapR f l = Ok bs -> length bs = length l.
Proof.
  revert bs. induction l as [|a l IH]; intros bs; simpl.
  - intros [= <-]. reflexivity.
  - destruct (f a); [|discriminate]. destruct (mapR f l); [|discriminate].
    intros [= <-]. simpl. f_equal. by apply IH.
Qed.

Lemma index_with_index ts d :
  length ts = length (rows d) -> index (with_index ts d) = map CTime ts.
Proof.
  unfold index, with_index; simpl. generalize (rows d) as rs.
  induction ts as [|t ts IH]; intros [|r rs]; simpl; try discriminate.
  - reflexivity.
  - intros [= Hl]. f_equal. by apply IH.
Qed.

Lemma mapM_cell_time ts :
  mapM cell_time (map (@CTime F) ts) = Some ts.
Proof.
  induction ts as [|t ts IH]; [reflexivity|].
  simpl. rewrite IH. reflexivity.
Qed.

(** On a parsed index the assertion is exactly the order check. *)
Lemma dassert_strictly_increasing_index_with_index ts d :
  length ts = length (rows d) ->
  dassert_strictly_increasing_index (with_index ts d) =
    if strictly_increasing ts then Ok tt
    else Raise (AssertionError "Index is not strictly increasing").
Proof.
  intros Hl. unfold dassert_strictly_increasing_index.
  rewrite index_with_index by exact Hl. by rewrite mapM_cell_time.
Qed.

(** Every row of a slice lies in the window, and no row of the window is
    lost. *)
Lemma loc_slice_rows a b d r :
  r ∈ rows (loc_slice a b d) <->
  r ∈ rows d /\ exists t, r.1 = CTime t /\ in_window a b t = true.
Proof.
  unfold loc_slice; simpl. rewrite list_elem_of_In, filter_In, <- list_elem_of_In.
  split; intros [Hr Hw]; (split; [exact Hr|]).
  - destruct r.1 as [| | |t]; simpl in Hw; try discriminate. eauto.
  - destruct Hw as (t & -> & Hw). exact Hw.
Qed.

Lemma in_window_spec a b t :
  in_window a b t = true <->
  (forall x, a = Some x -> (x <= t)%Z) /\ (forall y, b = Some y -> (t <= y)%Z).
Proof.
  unfold in_window. rewrite andb_true_iff.
  destruct a as [x|], b as [y|]; rewrite ?Z.leb_le;
    (split; [intros [Ha Hb]; split; intros ? [=]; subst; auto
            | intros [Ha Hb]; split; auto]).
Qed.

Lemma empty_no_rows d : rows d = [] -> empty d = true.
Proof. unfold empty. by intros ->. Qed.

End Tables.


(** *** The disk source *)

Section Disk.
Import DiskDataSource.
Context {F : Type} `{Float F} (env : Env F).
Implicit Types (self : node (F:=F)) (w : World F) (d : DataFrame F).

Ltac run_m :=
  unfold bind, ret, raise, lift, get_self, get_df, put_df; simpl.

Lemma disk_lazy_load_loaded self w d :
  df (base self) = Some d -> _lazy_load env (self, w) = (Ok tt, (self, w)).
Proof. intros Hd. unfold _lazy_load. run_m. by rewrite Hd. Qed.

(** Once a dataset is held, both calls hand it out and touch nothing. *)
Lemma disk_loaded self w d c :
  df (base self) = Some d ->
  run env c (self, w) = (Ok (Some {[ output_name (base self) := d ]}), (self, w)).
Proof.
  intros Hd. destruct c; simpl.
  - unfold fit, bind at 1. rewrite (disk_lazy_load_loaded self w d Hd).
    run_m. unfold DataSource_fit. by rewrite Hd.
  - unfold predict. run_m. unfold DataSource_predict. by rewrite Hd.
Qed.

(** Before the first [fit], [predict] has nothing to give. *)
Lemma disk_predict_unloaded self w :
  df (base self) = None -> predict (self, w) = (Ok None, (self, w)).
Proof. intros Hd. unfold predict. run_m. unfold DataSource_predict. by rewrite Hd. Qed.

(** Reading touches no field but the dataset, and logs one call at most. *)
Lemma _read_data_frame self w r s1 :
  _read_data env (self, w) = (r, s1) ->
  _file_path s1.1 = _file_path self /\
  _timestamp_col s1.1 = _timestamp_col self /\
  _start_date s1.1 = _start_date self /\
  _end_date s1.1 = _end_date self /\
  _reader_kwargs s1.1 = _reader_kwargs self /\
  output_name (base s1.1) = output_name (base self) /\
  nid (base s1.1) = nid (base self) /\
  (r = Ok tt -> (exists raw, df (base s1.1) = Some raw) /\
                (exists e, history s1.2 = (history w ++ [e])%list)).
Proof.
  unfold _read_data, bind, ret, raise, get_self, kwargs, kwargs_setitem,
    call_reader, put_df; simpl.
  destruct (String.eqb _ ".csv").
  - case_bool_decide; simpl.
    + destruct (pd_read_csv _ _ _ _); intros [= <- <-]; simpl;
        repeat split; try discriminate; eauto.
    + destruct (pd_read_csv _ _ _ _); intros [= <- <-]; simpl;
        repeat split; try discriminate; eauto.
  - destruct (String.eqb _ ".pq").
    + destruct (pd_read_parquet _ _ _ _); intros [= <- <-]; simpl;
        repeat split; try discriminate; eauto.
    + intros [= <- <-]; simpl. repeat split; discriminate.
Qed.

(** The checks of [_process_data], in their order. *)
Lemma _process_data_checks self w raw d1 ts :
  df (base self) = Some raw ->
  match _timestamp_col self with
  | Some col => set_index col raw
  | None => Ok raw
  end = Ok d1 ->
  mapR (pd_to_datetime env) (index d1) = Ok ts ->
  let parsed := with_index ts d1 in
  let sliced := loc_slice (_start_date self) (_end_date self) parsed in
  _process_data env (self, w) =
    if strictly_increasing ts then
      (dassert (negb (empty sliced)) "Dataframe is empty",
       (put_df sliced (self, w)).2)
    else
      (Raise (AssertionError "Index is not strictly increasing"),
       (put_df parsed (self, w)).2).
Proof.
  intros Hraw Hcol Hts parsed sliced.
  assert (Hlen : length ts = length (rows d1))
    by (rewrite (mapR_length _ _ _ Hts); unfold index; apply length_map).
  pose proof (dassert_strictly_increasing_index_with_index ts d1 Hlen) as Hd.
  subst parsed sliced.
  unfold _process_data. run_m.
  destruct (_timestamp_col self) as [col|] eqn:Ecol; simpl.
  - rewrite Hraw; simpl. rewrite Hcol; simpl. rewrite Hts; simpl.
    rewrite Hd, Ecol. destruct (strictly_increasing ts); reflexivity.
  - rewrite Hraw; simpl. injection Hcol as ->. rewrite Hts; simpl.
    rewrite Hd, Ecol. destruct (strictly_increasing ts); reflexivity.
Qed.

(** A successful [_process_data] leaves a dataset behind and makes no call. *)
Lemma _process_data_ok s s' :
  _process_data env s = (Ok tt, s') ->
  (exists d, df (base s'.1) = Some d) /\ s'.2 = s.2 /\
  output_name (base s'.1) = output_name (base s.1).
Proof.
  destruct s as [self w]. unfold _process_data. run_m.
  destruct (_timestamp_col self) as [col|]; simpl.
  - destruct (df (base self)) as [raw|]; simpl; [|discriminate].
    destruct (set_index col raw) as [d1|]; simpl; [|discriminate].
    destruct (mapR _ _) as [ts|]; simpl; [|discriminate].
    destruct (dassert_strictly_increasing_index _); simpl; [|discriminate].
    intros [= _ <-]. simpl. eauto.
  - destruct (df (base self)) as [raw|]; simpl; [|discriminate].
    destruct (mapR _ _) as [ts|]; simpl; [|discriminate].
    destruct (dassert_strictly_increasing_index _); simpl; [|discriminate].
    intros [= _ <-]. simpl. eauto.
Qed.

Lemma run_all_loaded {S A} (run : lifecycle -> M S A) (s : S) (a : A) calls :
  (forall c, run c s = (Ok a, s)) ->
  run_all run calls s = (map (fun _ => Ok a) calls, s).
Proof.
  intros Hrun. induction calls as [|c calls IH]; [reflexivity|].
  simpl. rewrite Hrun. simpl. rewrite IH. reflexivity.
Qed.

(** The disk source reads once: a first [fit] that succeeds stores what it
    returns, after one read; every later call returns the same and changes
    neither the node nor the world. *)
Lemma disk_produces_once self w out s1 :
  df (base self) = None ->
  fit env (self, w) = (Ok out, s1) ->
  (exists d, df (base s1.1) = Some d /\
             out = Some {[ output_name (base s1.1) := d ]}) /\
  (exists e, history s1.2 = (history w ++ [e])%list) /\
  forall calls,
    run_all (run env) calls s1 = (map (fun _ => Ok out) calls, s1).
Proof.
  intros Hnone. unfold fit, bind at 1.
  destruct (_lazy_load env (self, w)) as [[[]|e] s] eqn:Hload; [|discriminate].
  run_m. intros [= <- <-].
  unfold _lazy_load in Hload. revert Hload. run_m. rewrite Hnone.
  destruct (_read_data env (self, w)) as [[[]|e] sr] eqn:Hread; [|discriminate].
  intros Hproc.
  destruct (_read_data_frame self w _ _ Hread) as (_ & _ & _ & _ & _ & _ & _ & Hr).
  destruct (Hr eq_refl) as (_ & e & He).
  destruct (_process_data_ok _ _ Hproc) as ((d & Hd) & Hw & _).
  assert (Hout : DataSource_fit (base s.1) = Some {[ output_name (base s.1) := d ]})
    by (unfold DataSource_fit; by rewrite Hd).
  split; [exists d; split; [exact Hd|exact Hout]|].
  split; [exists e; by rewrite Hw|].
  intros calls. apply run_all_loaded. intros c.
  destruct s as [self1 w1]. rewrite Hout. by apply disk_loaded.
Qed.

(** C4. The first [fit] of the disk source, once the file is read: a given
    timestamp column becomes the index; the index is parsed into timestamps;
    unless these are strictly increasing, [fit] fails fatally; otherwise the
    table is cut to the rows whose stamp lies in [[start_date, end_date]],
    bounds included, and an empty cut makes [fit] fail with "Dataframe is
    empty"; [fit] returns the dataset only when both checks pass. *)
Theorem disk_first_fit_checks self w s1 raw d1 ts :
  df (base self) = None ->
  _read_data env (self, w) = (Ok tt, s1) ->
  df (base s1.1) = Some raw ->
  match _timestamp_col self with
  | Some col => set_index col raw
  | None => Ok raw
  end = Ok d1 ->
  mapR (pd_to_datetime env) (index d1) = Ok ts ->
  let parsed := with_index ts d1 in
  let sliced := loc_slice (_start_date self) (_end_date self) parsed in
  (* the outcome *)
  (fit env (self, w)).1 =
    (if negb (strictly_increasing ts) then
       Raise (AssertionError "Index is not strictly increasing")
     else if empty sliced then
       Raise (AssertionError "Dataframe is empty")
     else Ok (Some {[ output_name (base self) := sliced ]})) /\
  (* only when both checks pass *)
  (forall out, (fit env (self, w)).1 = Ok out ->
     strictly_increasing ts = true /\ empty sliced = false /\
     df (base (fit env (self, w)).2.1) = Some sliced) /\
  (* the index *)
  (forall col, _timestamp_col self = Some col -> well_formed raw ->
     exists i, index_of (L1 (NStr col)) (columns raw) = Some i /\
               Some <$> index d1 = column i raw) /\
  index parsed = map CTime ts /\
  (* the window *)
  (forall r, r ∈ rows sliced <->
     r ∈ rows parsed /\
     exists t, r.1 = CTime t /\
       (forall a, _start_date self = Some a -> (a <= t)%Z) /\
       (forall b, _end_date self = Some b -> (t <= b)%Z)).
Proof.
  intros Hnone Hread Hraw Hcol Hts parsed sliced.
  destruct (_read_data_frame self w _ _ Hread)
    as (_ & Htc & Hsd & Hed & _ & Hon & _ & _).
  destruct s1 as [self1 w1]. simpl in Hraw, Htc, Hsd, Hed, Hon.
  subst sliced. rewrite <- Hsd, <- Hed. clear Hsd Hed.
  set (sliced := loc_slice (_start_date self1) (_end_date self1) parsed).
  assert (Hfit : fit env (self, w) =
    if strictly_increasing ts then
      match dassert (negb (empty sliced)) "Dataframe is empty" with
      | Ok _ => (Ok (Some {[ output_name (base self) := sliced ]}),
                 (put_df sliced (self1, w1)).2)
      | Raise e => (Raise e, (put_df sliced (self1, w1)).2)
      end
    else (Raise (AssertionError "Index is not strictly increasing"),
          (put_df parsed (self1, w1)).2)).
  { unfold fit, bind at 1. unfold _lazy_load. run_m. rewrite Hnone, Hread.
    rewrite <- Htc in Hcol.
    rewrite (_process_data_checks self1 w1 raw d1 ts Hraw Hcol Hts).
    fold parsed sliced.
    destruct (strictly_increasing ts); [|reflexivity].
    destruct (dassert _ _); [|reflexivity].
    unfold put_df, DataSource_fit; simpl. by rewrite Hon. }
  rewrite Hfit. clear Hfit. split; [|split; [|split; [|split]]].
  - destruct (strictly_increasing ts); simpl; [|reflexivity].
    unfold dassert. destruct (empty sliced); reflexivity.
  - intros out. destruct (strictly_increasing ts); simpl; [|discriminate].
    unfold dassert. destruct (empty sliced); simpl; [discriminate|].
    intros _. auto.
  - intros col Hc Hwf. rewrite Hc in Hcol.
    destruct (set_index_column col raw d1 Hwf Hcol) as (i & Hi & Hidx & _).
    eauto.
  - apply index_with_index. rewrite (mapR_length _ _ _ Hts).
    unfold index. apply length_map.
  - intros r. unfold sliced. rewrite loc_slice_rows.
    split; intros [Hr (t & Ht & Hw)]; (split; [exact Hr|]); exists t;
      (split; [exact Ht|]).
    + apply in_window_spec in Hw. exact Hw.
    + apply in_window_spec. exact Hw.
Qed.

(** [_process_data] makes no call and touches no dictionary, whatever its
    outcome. *)
Lemma _process_data_world s :
  (_process_data env s).2.2 = s.2.
Proof.
  destruct s as [self w]. unfold _process_data, dassert. run_m.
  destruct (_timestamp_col self) as [col|]; simpl;
    destruct (df (base self)) as [raw|]; simpl; try reflexivity.
  - destruct (set_index col raw) as [d1|]; simpl; [|reflexivity].
    destruct (mapR _ _) as [ts|]; simpl; [|reflexivity].
    destruct (dassert_strictly_increasing_index _); simpl; [|reflexivity].
    repeat (match goal with |- context [match ?x with _ => _ end] =>
              destruct x end; simpl); reflexivity.
  - destruct (mapR _ _) as [ts|]; simpl; [|reflexivity].
    destruct (dassert_strictly_increasing_index _); simpl; [|reflexivity].
    repeat (match goal with |- context [match ?x with _ => _ end] =>
              destruct x end; simpl); reflexivity.
Qed.

(** What reading a [.csv] path does to the store of dictionaries. *)
Lemma _read_data_csv_heap self w kw :
  (splitext (_file_path self)).2 = ".csv" ->
  heap w !! _reader_kwargs self = Some kw ->
  heap (_read_data env (self, w)).2.2 =
    if bool_decide ("index_col" ∈ dom kw) then heap w
    else <[_reader_kwargs self := <["index_col" := KwInt 0]> kw]> (heap w).
Proof.
  intros Hext Hkw.
  unfold _read_data, bind, ret, raise, get_self, kwargs, kwargs_setitem,
    call_reader, put_df; simpl.
  rewrite Hext; simpl. rewrite Hkw; simpl.
  case_bool_decide; simpl;
    destruct (pd_read_csv _ _ _ _); simpl; rewrite ?Hkw; reflexivity.
Qed.

Lemma fit_unloaded_heap self w :
  df (base self) = None ->
  heap (fit env (self, w)).2.2 = heap (_read_data env (self, w)).2.2.
Proof.
  intros Hnone. unfold fit, bind at 1. unfold _lazy_load. run_m.
  rewrite Hnone.
  destruct (_read_data env (self, w)) as [[[]|e] sr] eqn:Hread; simpl;
    [|reflexivity].
  pose proof (_process_data_world sr) as Hw.
  destruct (_process_data env sr) as [[[]|e] sp]; simpl in *; by rewrite Hw.
Qed.

(** The constructor keeps the caller's dictionary exactly when it has an
    entry. *)
Lemma __init___aliases nid path tc sd ed l kw w :
  heap w !! l = Some kw -> kw <> ∅ ->
  __init__ nid path tc sd ed (Some l) w =
    (mkNode (DataSource_init nid) path tc sd ed l, w).
Proof.
  intros Hkw Hne. unfold __init__, dict_truthy. rewrite Hkw.
  destruct (Nat.eqb_spec (size kw) 0) as [E|_]; [|reflexivity].
  apply map_size_empty_iff in E. contradiction.
Qed.

Lemma __init___fresh nid path tc sd ed (w : World F) l :
  heap w !! l = Some ∅ ->
  let s0 := __init__ nid path tc sd ed (Some l) w in
  _reader_kwargs s0.1 <> l /\ heap s0.2 !! l = Some ∅ /\
  heap s0.2 !! _reader_kwargs s0.1 = Some ∅.
Proof.
  intros Hl. unfold __init__, dict_truthy. rewrite Hl.
  rewrite map_size_empty. simpl.
  assert (Hfresh : fresh (dom (heap w)) ∉ dom (heap w)) by apply is_fresh.
  assert (Hne : fresh (dom (heap w)) <> l).
  { intros E. apply Hfresh. rewrite E. apply elem_of_dom. eauto. }
  split; [exact Hne|]. split.
  - by rewrite lookup_insert_ne.
  - apply lookup_insert_eq.
Qed.

(** C9 (as the code has it). A disk source built with a caller's reader
    options that hold at least one entry, none of them [index_col], on a
    [.csv] path: the node refers to the caller's own dictionary, and its first
    [fit] stores [index_col = 0] in that dictionary; every other key, and
    every other dictionary, is as before. *)
Theorem disk_fit_writes_callers_kwargs nid path tc sd ed l kw w :
  heap w !! l = Some kw ->
  kw <> ∅ ->
  "index_col" ∉ dom kw ->
  (splitext path).2 = ".csv" ->
  let s0 := __init__ nid path tc sd ed (Some l) w in
  let s1 := (fit env s0).2 in
  _reader_kwargs s0.1 = l /\ s0.2 = w /\
  (exists kw', heap s1.2 !! l = Some kw' /\
               kw' !! "index_col" = Some (KwInt 0) /\
               forall k, k <> "index_col" -> kw' !! k = kw !! k) /\
  (forall l', l' <> l -> heap s1.2 !! l' = heap w !! l').
Proof.
  intros Hkw Hne Hic Hext s0 s1. subst s1 s0.
  rewrite (__init___aliases nid path tc sd ed l kw w Hkw Hne). simpl.
  split; [reflexivity|]. split; [reflexivity|].
  rewrite fit_unloaded_heap by reflexivity.
  rewrite (_read_data_csv_heap _ w kw) by assumption. simpl.
  rewrite bool_decide_eq_false_2 by exact Hic. split.
  - exists (<["index_col" := KwInt 0]> kw). rewrite lookup_insert_eq.
    split; [reflexivity|]. split; [apply lookup_insert_eq|].
    intros k Hk. by rewrite lookup_insert_ne.
  - intros l' Hl'. by rewrite lookup_insert_ne.
Qed.

End Disk.

(** The first [fit] on the demonstration file, with the caller's options
    [{"sep": ","}] at location 1. *)
Lemma disk_fit_writes_callers_kwargs_witness :
  let w := mkWorld {[ 1%positive := {[ "sep" := KwStr "," ]} ]} [] in
  let s0 := DiskDataSource.__init__ "disk" "data/prices.csv" None None None
              (Some 1%positive) w in
  exists kw', heap (DiskDataSource.fit demo_env s0).2.2 !! 1%positive = Some kw' /\
              kw' !! "index_col" = Some (KwInt 0) /\
              kw' !! "sep" = Some (KwStr ",").
Proof.
  intros w s0.
  destruct (disk_fit_writes_callers_kwargs demo_env "disk" "data/prices.csv"
              None None None 1%positive {[ "sep" := KwStr "," ]} w)
    as (_ & _ & (kw' & Hl & Hi & Hk) & _).
  - reflexivity.
  - intros E. apply (f_equal (fun m => m !! "sep")) in E. discriminate.
  - rewrite dom_singleton_L. intros E%elem_of_singleton. discriminate.
  - reflexivity.
  - exists kw'. split; [exact Hl|]. split; [exact Hi|].
    rewrite Hk by discriminate. reflexivity.
Defined.

(** C9 (as stated) fails for a caller's dictionary without entries: it is
    falsy, the constructor replaces it by a dictionary of its own, and the
    first [fit] leaves the caller's one as it was. *)
Lemma disk_fit_spares_empty_kwargs :
  let w := mkWorld {[ 1%positive := ∅ ]} [] in
  let s0 := DiskDataSource.__init__ "disk" "data/prices.csv" None None None
              (Some 1%positive) w in
  heap w !! 1%positive = Some ∅ /\
  (splitext "data/prices.csv").2 = ".csv" /\
  df (DiskDataSource.base s0.1) = None /\
  is_ok (DiskDataSource.fit demo_env s0).1 = true /\
  heap (DiskDataSource.fit demo_env s0).2.2 !! 1%positive = Some ∅ /\
  DiskDataSource._reader_kwargs s0.1 <> 1%positive.
Proof.
  intros w s0. repeat split; try reflexivity. discriminate.
Qed.


(** *** The ARMA generator *)

Section Arma.
Import ArmaGenerator.
Context {F : Type} `{Float F} (env : Env F).
Implicit Types (self : node (F:=F)) (w : World F) (d : DataFrame F).

Ltac run_m :=
  unfold bind, ret, raise, lift, get_self, get_df, put_df, generate_sample;
  simpl.

Lemma filter_map_comm {A B} (f : B -> bool) (g : A -> B) l :
  List.filter f (map g l) = map g (List.filter (fun x => f (g x)) l).
Proof.
  induction l as [|a l IH]; [reflexivity|]. simpl.
  destruct (f (g a)); simpl; by rewrite IH.
Qed.

Lemma arma_lazy_load_loaded self w d :
  df (base self) = Some d -> _lazy_load env (self, w) = (Ok tt, (self, w)).
Proof. intros Hd. unfold _lazy_load. run_m. by rewrite Hd. Qed.

(** The first load, unfolded. *)
Lemma arma_lazy_load_unloaded self w :
  df (base self) = None ->
  _lazy_load env (self, w) =
    match answer env self w with
    | Ok rets => (Ok tt, (put_df (table self rets)
                            (self, log (draw self) w)).2)
    | Raise e => (Raise e, (self, log (draw self) w))
    end.
Proof.
  intros Hnone. unfold _lazy_load. run_m. rewrite Hnone.
  unfold answer. simpl.
  destruct (arma_generate_sample _ _ _ _ _ _ _ _ _ _) as [rets|e];
    [|reflexivity]. simpl.
  do 3 f_equal. unfold set_df; simpl. f_equal. f_equal.
  unfold table, to_frame, loc_slice, setitem_const, prices_of, series_map.
  simpl. f_equal. rewrite filter_map_comm, <- list_fmap_compose.
  reflexivity.
Qed.

Lemma arma_loaded self w d c :
  df (base self) = Some d ->
  run env c (self, w) = (Ok (Some {[ output_name (base self) := d ]}), (self, w)).
Proof.
  intros Hd. destruct c; simpl.
  - unfold fit, bind at 1. rewrite (arma_lazy_load_loaded self w d Hd).
    run_m. unfold DataSource_fit. by rewrite Hd.
  - unfold predict, bind at 1. rewrite (arma_lazy_load_loaded self w d Hd).
    run_m. unfold DataSource_predict. by rewrite Hd.
Qed.

(** The ARMA generator draws once, on whichever call comes first. *)
Lemma arma_produces_once self w c out s1 :
  df (base self) = None ->
  run env c (self, w) = (Ok out, s1) ->
  (exists d, df (base s1.1) = Some d /\
             out = Some {[ output_name (base s1.1) := d ]}) /\
  history s1.2 = (history w ++ [draw self])%list /\
  forall calls,
    run_all (run env) calls s1 = (map (fun _ => Ok out) calls, s1).
Proof.
  intros Hnone Hrun.
  assert (Hs : exists rets,
    s1 = (put_df (table self rets) (self, log (draw self) w)).2 /\
    out = Some {[ output_name (base self) := table self rets ]}).
  { destruct c; simpl in Hrun; revert Hrun;
      unfold fit, predict, bind at 1;
      rewrite (arma_lazy_load_unloaded self w Hnone);
      destruct (answer env self w) as [rets|e]; try discriminate;
      run_m; intros [= <- <-]; eauto. }
  destruct Hs as (rets & -> & ->). simpl.
  split; [eauto|]. split; [reflexivity|].
  intros calls. apply run_all_loaded. intros c'.
  exact (arma_loaded (put_df (table self rets) (self, log (draw self) w)).2.1
           _ (table self rets) c' eq_refl).
Qed.

(** C6. The dataset of the ARMA generator: the price is
    [exp (0.1 * cumsum returns)], in a column named [close]; the rows are
    those of the window [[start_date, end_date]], bounds included; a column
    [vol] holding 100 in every row comes after it. *)
Theorem arma_dataset self w rets :
  df (base self) = None ->
  answer env self w = Ok rets ->
  let stamps := map fst (s_data rets) in
  let prices := map (fun c => fexp (fmul f_0_1 c))
                    (cumsum (map snd (s_data rets))) in
  let kept := List.filter
                (fun p => Z.leb (_start_date self) p.1
                          && Z.leb p.1 (_end_date self))
                (zip stamps prices) in
  exists s1,
    _lazy_load env (self, w) = (Ok tt, s1) /\
    df (base s1.1) =
      Some (mkDataFrame [L1 (NStr "close"); L1 (NStr "vol")]
              (map (fun p => (CTime p.1, [CFloat p.2; CInt 100])) kept)) /\
    (forall p, p ∈ kept <->
       p ∈ zip stamps prices /\
       (_start_date self <= p.1 <= _end_date self)%Z) /\
    (forall d, df (base s1.1) = Some d ->
       Forall (fun r => r.2 !! 1%nat = Some (CInt 100)) (rows d)).
Proof.
  intros Hnone Hans stamps prices kept.
  rewrite (arma_lazy_load_unloaded self w Hnone), Hans.
  eexists. split; [reflexivity|]. simpl.
  split; [reflexivity|]. split.
  - intros p. unfold kept.
    rewrite list_elem_of_In, filter_In, <- list_elem_of_In.
    rewrite andb_true_iff, !Z.leb_le. tauto.
  - intros d [= <-]. simpl. apply Forall_map, Forall_forall.
    intros p _. reflexivity.
Qed.

(** Whatever the generator answers, the first load asks for one draw, with
    the parameters the node holds. *)
Lemma arma_fit_history self w :
  df (base self) = None ->
  history (fit env (self, w)).2.2 = (history w ++ [draw self])%list.
Proof.
  intros Hnone. unfold fit, bind at 1.
  rewrite (arma_lazy_load_unloaded self w Hnone).
  destruct (answer env self w); reflexivity.
Qed.

(** C10. The constructor of the ARMA generator replaces every falsy optional
    argument but the seed by its default: an absent or empty list of
    coefficients by [[0]], an absent or zero scale by 1 (a scale of 0 is
    stored, and drawn with, as 1), an absent or zero burn-in by 0; a truthy
    argument is kept; the seed is stored as given, 0 included. *)
Theorem arma_init_defaults nid freq sd ed ar ma scale burnin seed :
  let n := __init__ nid freq sd ed ar ma scale burnin seed in
  (* coefficients *)
  (ar = None \/ ar = Some [] -> _ar_coeffs n = [PyInt 0]) /\
  (forall a l, ar = Some (a :: l) -> _ar_coeffs n = a :: l) /\
  (ma = None \/ ma = Some [] -> _ma_coeffs n = [PyInt 0]) /\
  (forall a l, ma = Some (a :: l) -> _ma_coeffs n = a :: l) /\
  ar_coeffs (_arma_process n) = _ar_coeffs n /\
  ma_coeffs (_arma_process n) = _ma_coeffs n /\
  (* scale *)
  (scale = None \/ (exists x, scale = Some x /\ truthy x = false) ->
   _scale n = PyInt 1) /\
  (scale = Some (PyInt 0) -> _scale n = PyInt 1) /\
  (forall x, scale = Some x -> truthy x = true -> _scale n = x) /\
  (* burn-in *)
  (burnin = None \/ (exists x, burnin = Some x /\ truthy x = false) ->
   _burnin n = PyInt 0) /\
  (forall x, burnin = Some x -> truthy x = true -> _burnin n = x) /\
  (* seed *)
  _seed n = seed /\
  (* the draw uses the stored values *)
  (forall w, history (fit env (n, w)).2.2 =
     (history w ++ [ArmaGenerateSample (_ar_coeffs n) (_ma_coeffs n) sd ed freq
                      (_scale n) (_burnin n) seed])%list).
Proof.
  intros n. subst n. unfold __init__; simpl.
  repeat split.
  - intros [-> | ->]; reflexivity.
  - intros a l ->. reflexivity.
  - intros [-> | ->]; reflexivity.
  - intros a l ->. reflexivity.
  - intros [-> | (x & -> & Hx)]; simpl; [reflexivity|by rewrite Hx].
  - intros ->. reflexivity.
  - intros x -> Hx. simpl. by rewrite Hx.
  - intros [-> | (x & -> & Hx)]; simpl; [reflexivity|by rewrite Hx].
  - intros x -> Hx. simpl. by rewrite Hx.
  - intros w. by rewrite arma_fit_history.
Qed.

End Arma.

(** No coefficients, a scale of 0 and a seed of 0. *)
Lemma arma_init_defaults_witness :
  let n := ArmaGenerator.__init__ (F:=Q) "arma" "D" 2 4 (Some []) None
             (Some (PyInt 0)) None (Some (PyInt 0)) in
  ArmaGenerator._ar_coeffs n = [PyInt 0] /\
  ArmaGenerator._ma_coeffs n = [PyInt 0] /\
  ArmaGenerator._scale n = PyInt 1 /\
  ArmaGenerator._burnin n = PyInt 0 /\
  ArmaGenerator._seed n = Some (PyInt 0) /\
  history (ArmaGenerator.fit demo_env (n, empty_world)).2.2 =
    [ArmaGenerateSample [PyInt 0] [PyInt 0] 2 4 "D" (PyInt 1) (PyInt 0)
       (Some (PyInt 0))].
Proof.
  intros n.
  destruct (arma_init_defaults demo_env "arma" "D" 2%Z 4%Z (Some []) None
              (Some (PyInt 0)) None (Some (PyInt 0)))
    as (Har & _ & Hma & _ & _ & _ & _ & Hsc & _ & Hbu & _ & Hseed & Hdraw).
  split; [apply Har; auto|]. split; [apply Hma; auto|].
  split; [apply Hsc; reflexivity|]. split; [apply Hbu; auto|].
  split; [exact Hseed|]. exact (Hdraw empty_world).
Defined.

(** The demonstration draw, cut to days 2 to 4. *)
Lemma arma_dataset_witness :
  let n := ArmaGenerator.__init__ (F:=Q) "arma" "D" 2 4 None None None None
             (Some (PyInt 0)) in
  exists s1,
    ArmaGenerator._lazy_load demo_env (n, empty_world) = (Ok tt, s1) /\
    df (ArmaGenerator.base s1.1) =
      Some (mkDataFrame [L1 (NStr "close"); L1 (NStr "vol")]
              [ (CTime 2, [CFloat (1 + (1 # 10) * (1 + 2))%Q; CInt 100]);
                (CTime 3, [CFloat (1 + (1 # 10) * (1 + 2 + -1))%Q; CInt 100]);
                (CTime 4, [CFloat (1 + (1 # 10) * (1 + 2 + -1 + 3))%Q; CInt 100]) ]).
Proof.
  intros n.
  destruct (arma_dataset demo_env n empty_world demo_returns eq_refl eq_refl)
    as (s1 & Hload & Hdf & _).
  exists s1. split; [exact Hload|]. exact Hdf.
Defined.


(** *** The multivariate normal generator *)

Section Mvn.
Import MultivariateNormalGenerator.
Context {F : Type} `{Float F} (env : Env F).
Implicit Types (self : node (F:=F)) (w : World F) (d : DataFrame F).

Ltac run_m :=
  unfold bind, ret, raise, lift, get_self, get_df, put_df,
    put_volatility_scale_factor, generate_sample;
  simpl.

(** [_generate_returns], unfolded: one draw; with a target, a [fit]-phase
    call first records the calibrated factor; the sample is then multiplied
    by the factor the node holds. *)
Lemma _generate_returns_eq self w fit :
  _generate_returns env fit (self, w) =
    match answer env self w with
    | Raise e => (Raise e, (self, log (draw self) w))
    | Ok rets =>
        match _target_volatility self with
        | None => (Ok rets, (self, log (draw self) w))
        | Some tv =>
            let k := if fit then calibrated env tv rets
                     else _volatility_scale_factor self in
            (Ok (frame_scale rets k),
             (put_volatility_scale_factor k (self, log (draw self) w)).2)
        end
    end.
Proof.
  unfold _generate_returns. run_m. unfold answer.
  destruct (mvn_generate_sample _ _ _ _ _ _) as [rets|e]; [|reflexivity].
  simpl. destruct (_target_volatility self) as [tv|] eqn:Etv; [|reflexivity].
  destruct fit; simpl; rewrite ?Etv; [reflexivity|].
  destruct self; simpl in *. by rewrite Etv.
Qed.


(** Through [fit] and [predict] a node draws once only, so a [predict] that
    comes first draws with the factor the constructor set, 1. *)
Lemma mvn_predict_first_factor nid freq sd ed dim tv seed w rets :
  let s0 := __init__ nid freq sd ed dim (Some tv) seed w in
  answer env s0.1 s0.2 = Ok rets ->
  (_generate_returns env false s0).1 = Ok (frame_scale rets (PyInt 1)).
Proof.
  intros s0 Hans. rewrite (surjective_pairing s0), _generate_returns_eq, Hans.
  reflexivity.
Qed.

Lemma mvn_lazy_load_loaded self w d fit :
  df (base self) = Some d -> _lazy_load env fit (self, w) = (Ok tt, (self, w)).
Proof. intros Hd. unfold _lazy_load. run_m. by rewrite Hd. Qed.

Lemma mvn_loaded self w d c :
  df (base self) = Some d ->
  run env c (self, w) = (Ok (Some {[ output_name (base self) := d ]}), (self, w)).
Proof.
  intros Hd. destruct c; simpl.
  - unfold fit, bind at 1. rewrite (mvn_lazy_load_loaded self w d _ Hd).
    run_m. unfold DataSource_fit. by rewrite Hd.
  - unfold predict, bind at 1. rewrite (mvn_lazy_load_loaded self w d _ Hd).
    run_m. unfold DataSource_predict. by rewrite Hd.
Qed.

(** A first load that succeeds stores the table built from the returns of one
    draw, and changes nothing of the node but the dataset and the factor. *)
Lemma mvn_lazy_load_unloaded self w fit s1 :
  df (base self) = None ->
  _lazy_load env fit (self, w) = (Ok tt, s1) ->
  (exists d, df (base s1.1) = Some d) /\
  output_name (base s1.1) = output_name (base self) /\
  history s1.2 = (history w ++ [draw self])%list.
Proof.
  intros Hnone. unfold _lazy_load, bind at 1. unfold get_self at 1. simpl.
  rewrite Hnone. unfold bind at 1. rewrite _generate_returns_eq.
  destruct (answer env self w) as [rets|e]; [|discriminate].
  destruct (_target_volatility self) as [tv|]; run_m;
    intros [= <-]; simpl; eauto.
Qed.

(** The multivariate normal generator draws once, on whichever call comes
    first. *)
Lemma mvn_produces_once self w c out s1 :
  df (base self) = None ->
  run env c (self, w) = (Ok out, s1) ->
  (exists d, df (base s1.1) = Some d /\
             out = Some {[ output_name (base s1.1) := d ]}) /\
  history s1.2 = (history w ++ [draw self])%list /\
  forall calls,
    run_all (run env) calls s1 = (map (fun _ => Ok out) calls, s1).
Proof.
  intros Hnone Hrun.
  assert (Hs : exists fit, _lazy_load env fit (self, w) = (Ok tt, s1) /\
                           out = DataSource_fit (base s1.1)).
  { destruct c; simpl in Hrun; revert Hrun; unfold fit, predict, bind at 1;
      [destruct (_lazy_load env true (self, w)) as [[[]|e] s] eqn:Hl
      |destruct (_lazy_load env false (self, w)) as [[[]|e] s] eqn:Hl];
      try discriminate; run_m; intros [= <- <-]; eauto. }
  destruct Hs as (fit & Hload & ->).
  destruct (mvn_lazy_load_unloaded self w fit s1 Hnone Hload)
    as ((d & Hd) & _ & Hh).
  assert (Hout : DataSource_fit (base s1.1)
                 = Some {[ output_name (base s1.1) := d ]})
    by (unfold DataSource_fit; by rewrite Hd).
  split; [eauto|]. split; [exact Hh|].
  intros calls. apply run_all_loaded. intros c'.
  destruct s1 as [self1 w1]. rewrite Hout. by apply mvn_loaded.
Qed.

End Mvn.


(** *** All source nodes *)

(** C2. Each source node produces its dataset at most once.  The first call
    that gets a dataset ([fit] for the disk source; [fit] or [predict] for
    the two generators) stores what it returns, after a single read or draw;
    from then on every [fit] and every [predict] returns that same dataset
    and changes neither the node nor the world: nothing is read or drawn
    again. *)
Theorem sources_produce_once {F : Type} `{Float F} (env : Env F) :
  (forall (self : DiskDataSource.node) w out s1,
     df (DiskDataSource.base self) = None ->
     DiskDataSource.fit env (self, w) = (Ok out, s1) ->
     (exists d, df (DiskDataSource.base s1.1) = Some d /\
        out = Some {[ output_name (DiskDataSource.base s1.1) := d ]}) /\
     (exists e, history s1.2 = (history w ++ [e])%list) /\
     forall calls,
       run_all (DiskDataSource.run env) calls s1
       = (map (fun _ => Ok out) calls, s1)) /\
  (forall (self : ArmaGenerator.node) w c out s1,
     df (ArmaGenerator.base self) = None ->
     ArmaGenerator.run env c (self, w) = (Ok out, s1) ->
     (exists d, df (ArmaGenerator.base s1.1) = Some d /\
        out = Some {[ output_name (ArmaGenerator.base s1.1) := d ]}) /\
     (exists e, history s1.2 = (history w ++ [e])%list) /\
     forall calls,
       run_all (ArmaGenerator.run env) calls s1
       = (map (fun _ => Ok out) calls, s1)) /\
  (forall (self : MultivariateNormalGenerator.node) w c out s1,
     df (MultivariateNormalGenerator.base self) = None ->
     MultivariateNormalGenerator.run env c (self, w) = (Ok out, s1) ->
     (exists d, df (MultivariateNormalGenerator.base s1.1) = Some d /\
        out = Some {[ output_name (MultivariateNormalGenerator.base s1.1) := d ]}) /\
     (exists e, history s1.2 = (history w ++ [e])%list) /\
     forall calls,
       run_all (MultivariateNormalGenerator.run env) calls s1
       = (map (fun _ => Ok out) calls, s1)).
Proof.
  split; [|split].
  - intros self w out s1 Hnone Hfit.
    exact (disk_produces_once env self w out s1 Hnone Hfit).
  - intros self w c out s1 Hnone Hrun.
    destruct (arma_produces_once env self w c out s1 Hnone Hrun)
      as (Hd & Hh & Hall).
    split; [exact Hd|]. split; [eauto|exact Hall].
  - intros self w c out s1 Hnone Hrun.
    destruct (mvn_produces_once env self w c out s1 Hnone Hrun)
      as (Hd & Hh & Hall).
    split; [exact Hd|]. split; [eauto|exact Hall].
Qed.

(** The three nodes in the demonstration world: a first call, then three
    more. *)
Lemma sources_produce_once_witness :
  let disk := DiskDataSource.fit demo_env
                (DiskDataSource.__init__ "disk" "data/prices.csv" None
                   (Some 2%Z) None None empty_world) in
  let arma := ArmaGenerator.predict demo_env
                (ArmaGenerator.__init__ "arma" "D" 2 4 None None None None
                   None, empty_world) in
  let mvn := MultivariateNormalGenerator.predict demo_env
               (MultivariateNormalGenerator.__init__ "mvn" "D" 1 3 2
                  (Some (PyFloat (1 # 2)%Q)) None empty_world) in
  (is_ok disk.1 = true /\
   run_all (DiskDataSource.run demo_env) [Fit; Predict; Fit] disk.2
   = ([disk.1; disk.1; disk.1], disk.2)) /\
  (is_ok arma.1 = true /\
   run_all (ArmaGenerator.run demo_env) [Fit; Predict; Fit] arma.2
   = ([arma.1; arma.1; arma.1], arma.2)) /\
  (is_ok mvn.1 = true /\
   run_all (MultivariateNormalGenerator.run demo_env) [Fit; Predict; Fit] mvn.2
   = ([mvn.1; mvn.1; mvn.1], mvn.2)).
Proof.
  intros disk arma mvn.
  destruct (sources_produce_once demo_env) as (Hdisk & Harma & Hmvn).
  split; [|split]; (split; [reflexivity|]).
  - destruct (Hdisk
      (DiskDataSource.__init__ "disk" "data/prices.csv" None (Some 2%Z) None
         None empty_world).1
      (DiskDataSource.__init__ "disk" "data/prices.csv" None (Some 2%Z) None
         None empty_world).2
      (match disk.1 with Ok o => o | Raise _ => None end) disk.2
      eq_refl eq_refl) as (_ & _ & Hall).
    exact (Hall [Fit; Predict; Fit]).
  - destruct (Harma
      (ArmaGenerator.__init__ "arma" "D" 2%Z 4%Z None None None None None)
      empty_world Predict
      (match arma.1 with Ok o => o | Raise _ => None end) arma.2
      eq_refl eq_refl) as (_ & _ & Hall).
    exact (Hall [Fit; Predict; Fit]).
  - destruct (Hmvn
      (MultivariateNormalGenerator.__init__ "mvn" "D" 1%Z 3%Z 2%Z
         (Some (PyFloat (1 # 2)%Q)) None empty_world).1
      (MultivariateNormalGenerator.__init__ "mvn" "D" 1%Z 3%Z 2%Z
         (Some (PyFloat (1 # 2)%Q)) None empty_world).2
      Predict
      (match mvn.1 with Ok o => o | Raise _ => None end) mvn.2
      eq_refl eq_refl) as (_ & _ & Hall).
    exact (Hall [Fit; Predict; Fit]).
Defined.

(** The disk source on the demonstration file, indexed by its [ts] column
    and cut to days 12 and 13. *)
Lemma disk_first_fit_checks_witness :
  (DiskDataSource.fit demo_env
     (DiskDataSource.__init__ "disk" "data/prices.csv" (Some "ts")
        (Some 12%Z) (Some 13%Z) None empty_world)).1 =
  Ok (Some {[ "df_out" :=
                mkDataFrame [L1 (NStr "close")]
                  [ (CTime 12, [CFloat 11%Q]); (CTime 13, [CFloat 12%Q]) ] ]}).
Proof.
  pose (s0 := DiskDataSource.__init__ (F:=Q) "disk" "data/prices.csv"
                (Some "ts") (Some 12%Z) (Some 13%Z) None empty_world).
  destruct (disk_first_fit_checks demo_env s0.1 s0.2
              (DiskDataSource._read_data demo_env s0).2
              demo_table
              (mkDataFrame [L1 (NStr "close")]
                 [ (CInt 11, [CFloat 10%Q]); (CInt 12, [CFloat 11%Q]);
                   (CInt 13, [CFloat 12%Q]) ])
              [11; 12; 13]%Z
              eq_refl eq_refl eq_refl eq_refl eq_refl) as (Hfit & _).
  exact Hfit.
Defined.

(** The two failures of the first [fit], on the demonstration files. *)
Example disk_fit_unsorted :
  (DiskDataSource.fit demo_env
     (DiskDataSource.__init__ "disk" "data/unsorted.csv" None None None None
        empty_world)).1 =
  Raise (AssertionError "Index is not strictly increasing").
Proof. reflexivity. Qed.

Example disk_fit_empty_window :
  (DiskDataSource.fit demo_env
     (DiskDataSource.__init__ "disk" "data/prices.csv" None (Some 7%Z)
        (Some 9%Z) None empty_world)).1 =
  Raise (AssertionError "Dataframe is empty").
Proof. reflexivity. Qed.

Example disk_fit_bad_extension :
  (DiskDataSource.fit demo_env
     (DiskDataSource.__init__ "disk" "data/prices.txt" None None None None
        empty_world)).1 =
  Raise (ValueError "Invalid file extension='.txt'").
Proof. reflexivity. Qed.

(** A first [fit] that fails in the checks has already stored what it read:
    the next [fit] finds a dataset and returns it. *)
Example disk_fit_after_failed_fit :
  let first := DiskDataSource.fit demo_env
                 (DiskDataSource.__init__ "disk" "data/unsorted.csv" None None
                    None None empty_world) in
  is_ok (fst first) = false /\
  is_ok (DiskDataSource.fit demo_env (snd first)).1 = true /\
  history (DiskDataSource.fit demo_env (snd first)).2.2
  = history (snd (snd first)).
Proof. repeat split. Qed.



End SourcesFacts.

Module GroupIdFacts.
Import Py GroupId.
Local Open Scope string_scope.

Lemma dict_get_set k' k v d :
  dict_get k' (dict_set k v d) = if Z.eqb k k' then Some v else dict_get k' d.
Proof.
  induction d as [|[k0 v0] d IH]; simpl.
  - reflexivity.
  - destruct (Z.eqb_spec k0 k) as [->|Hne]; simpl.
    + destruct (Z.eqb_spec k k'); reflexivity.
    + destruct (Z.eqb_spec k0 k') as [->|Hne'].
      * destruct (Z.eqb_spec k k'); [congruence|reflexivity].
      * exact IH.
Qed.

Lemma dict_set_keys k' k v d :
  k' ∈ map fst (dict_set k v d) <-> k' = k \/ k' ∈ map fst d.
Proof.
  induction d as [|[k0 v0] d IH]; simpl.
  - rewrite list_elem_of_singleton, elem_of_nil. tauto.
  - destruct (Z.eqb_spec k0 k) as [->|Hne]; simpl.
    + rewrite !elem_of_cons. tauto.
    + rewrite !elem_of_cons, IH. tauto.
Qed.

Lemma dict_set_NoDup k v d :
  NoDup (map fst d) -> NoDup (map fst (dict_set k v d)).
Proof.
  induction d as [|[k0 v0] d IH]; simpl.
  - intros _. apply NoDup_singleton.
  - rewrite !NoDup_cons. intros [Hk0 Hd].
    destruct (Z.eqb_spec k0 k) as [->|Hne]; simpl.
    + rewrite NoDup_cons. tauto.
    + rewrite NoDup_cons. split; [|by apply IH].
      rewrite dict_set_keys. intros [->|Hin]; [congruence|contradiction].
Qed.

Lemma dict_get_elem k v d :
  NoDup (map fst d) -> ((k, v) ∈ d <-> dict_get k d = Some v).
Proof.
  induction d as [|[k0 v0] d IH]; simpl.
  - intros _. rewrite elem_of_nil. split; [tauto|discriminate].
  - rewrite NoDup_cons. intros [Hk0 Hd]. rewrite elem_of_cons.
    destruct (Z.eqb_spec k0 k) as [->|Hne].
    + split.
      * intros [[= <-]|Hin]; [reflexivity|].
        exfalso. apply Hk0. apply list_elem_of_fmap. by exists (k, v).
      * intros [= <-]. by left.
    + rewrite <- (IH Hd). split; [intros [[= ? ?]|?]; [congruence|done]|auto].
Qed.

(** The loop either stops at the first broken update or stores the entries
    one after the other. *)
Lemma visit_all_eq updates group_messages :
  visit_all group_messages updates =
    if existsb broken updates then Raise (KeyError "id")
    else Ok (fold_left (fun d e => dict_set e.1 e.2 d) (omap entry updates)
                       group_messages).
Proof.
  revert group_messages.
  induction updates as [|u updates IH]; intros gm; [reflexivity|].
  simpl. unfold visit, broken, entry.
  destruct (message u) as [[[[[k|]]|] [t|]]|]; simpl; try apply IH; reflexivity.
Qed.

Lemma fold_dict_get k entries d :
  dict_get k (fold_left (fun d e => dict_set e.1 e.2 d) entries d) =
    match last (map snd (List.filter (fun e : Z * string => Z.eqb e.1 k) entries)) with
    | Some t => Some t
    | None => dict_get k d
    end.
Proof.
  revert d. induction entries as [|[k0 t0] entries IH]; intros d; simpl.
  - reflexivity.
  - rewrite IH, dict_get_set.
    destruct (Z.eqb_spec k0 k) as [->|Hne]; simpl; [|reflexivity].
    rewrite last_cons. destruct (last _); reflexivity.
Qed.

Lemma fold_dict_NoDup entries d :
  NoDup (map fst d) ->
  NoDup (map fst (fold_left (fun d (e : Z * string) => dict_set e.1 e.2 d)
                            entries d)).
Proof.
  revert d. induction entries as [|e entries IH]; intros d Hd; simpl.
  - exact Hd.
  - apply IH. by apply dict_set_NoDup.
Qed.

(** When every chat that is looked at has an identifier, the script prints
    one line per chat that sent a text, no chat twice, and the line of a chat
    shows the last text it sent; updates without a message, a chat or a text
    add nothing. *)
Theorem get_group_info_prints api bot_token s data updates :
  requests_get api (updates_url bot_token) = Ok (Ok data) ->
  result data = Some updates ->
  existsb broken updates = false ->
  exists group_messages,
    _get_group_info api bot_token s =
      (Ok tt, mkProcess (requests s ++ [updates_url bot_token])%list
                        (stdout s ++ map line group_messages)%list) /\
    NoDup (map fst group_messages) /\
    (forall k t, (k, t) ∈ group_messages <-> last_text k updates = Some t) /\
    (forall k, k ∈ map fst group_messages <->
               exists t, (k, t) ∈ omap entry updates).
Proof.
  intros Hget Hres Hok.
  set (gm := fold_left (fun d (e : Z * string) => dict_set e.1 e.2 d)
                       (omap entry updates) []).
  assert (Hnd : NoDup (map fst gm)) by (apply fold_dict_NoDup, NoDup_nil_2).
  assert (Hget' : forall k, dict_get k gm = last_text k updates).
  { intros k. unfold gm, last_text. rewrite fold_dict_get.
    destruct (last _); reflexivity. }
  exists gm. split; [|split; [exact Hnd|split]].
  - unfold _get_group_info. rewrite Hget, Hres, visit_all_eq, Hok. reflexivity.
  - intros k t. rewrite (dict_get_elem k t gm Hnd), Hget'. reflexivity.
  - intros k. split.
    + intros Hk. apply list_elem_of_fmap in Hk as [[k' t] [-> Hin]]. simpl.
      apply (dict_get_elem k' t gm Hnd) in Hin. rewrite Hget' in Hin.
      unfold last_text in Hin. apply last_Some_elem_of in Hin.
      apply list_elem_of_fmap in Hin as [[k2 t2] [-> Hin]].
      apply list_elem_of_In, filter_In in Hin as [Hin Hk]. simpl in Hk.
      apply Z.eqb_eq in Hk. subst k2. exists t2. by apply list_elem_of_In.
    + intros [t Hin].
      assert (Hsome : is_Some (last_text k updates)).
      { unfold last_text. destruct (last _) eqn:E; [eauto|].
        apply last_None in E. apply fmap_nil_inv in E.
        assert (Hf : In (k, t) (List.filter (fun e : Z * string => Z.eqb e.1 k)
                                  (omap entry updates))).
        { apply filter_In. split; [by apply list_elem_of_In|].
          simpl. apply Z.eqb_refl. }
        rewrite E in Hf. destruct Hf. }
      destruct Hsome as [t' Ht']. rewrite <- Hget' in Ht'.
      apply (dict_get_elem k t' gm Hnd) in Ht'.
      apply list_elem_of_fmap. by exists (k, t').
Qed.

(** Three updates of chat 7 (the second without text) and one of chat 9. *)
Lemma get_group_info_prints_witness :
  let say k t := mkUpdate (Some (mkMessage (Some (mkChat (Some k))) t)) in
  let updates := [ say 7%Z (Some "one"); say 9%Z (Some "two");
                   say 7%Z None; mkUpdate None; say 7%Z (Some "three") ] in
  let api := mkApi (fun _ => Ok (Ok (mkData (Some updates)))) in
  exists group_messages,
    _get_group_info api "TOKEN" (mkProcess [] []) =
      (Ok tt, mkProcess [updates_url "TOKEN"] (map line group_messages)) /\
    (7%Z, "three") ∈ group_messages /\ (9%Z, "two") ∈ group_messages.
Proof.
  intros say updates api.
  destruct (get_group_info_prints api "TOKEN" (mkProcess [] [])
              (mkData (Some updates)) updates eq_refl eq_refl eq_refl)
    as (gm & Hrun & _ & Hlast & _).
  exists gm. split; [exact Hrun|].
  split; apply Hlast; reflexivity.
Defined.

(** The script asks [getUpdates] once and checks no status.  It prints only
    after the whole answer is read: when it fails, nothing is printed.  An
    answer without [result] is a [KeyError]; so is a message whose chat has
    no [id], whether or not the message has a text, and whatever came
    before. *)
Theorem get_group_info_fails api bot_token s :
  let r := _get_group_info api bot_token s in
  requests r.2 = (requests s ++ [updates_url bot_token])%list /\
  (is_ok r.1 = false -> stdout r.2 = stdout s) /\
  (forall data, requests_get api (updates_url bot_token) = Ok (Ok data) ->
     result data = None -> r.1 = Raise (KeyError "result")) /\
  (forall data updates,
     requests_get api (updates_url bot_token) = Ok (Ok data) ->
     result data = Some updates -> existsb broken updates = true ->
     r.1 = Raise (KeyError "id")).
Proof.
  intros r. subst r. unfold _get_group_info.
  destruct (requests_get api (updates_url bot_token)) as [[data|e]|e]; simpl.
  - destruct (result data) as [updates|] eqn:Hres; simpl.
    + rewrite visit_all_eq.
      destruct (existsb broken updates) eqn:Hb; simpl;
        (split; [reflexivity|]); (split; [intros; done|]);
        (split; intros; simplify_eq; congruence).
    + split; [reflexivity|]. split; [reflexivity|].
      split; intros; simplify_eq; congruence.
  - split; [reflexivity|]. split; [reflexivity|].
    split; intros; simplify_eq.
  - split; [reflexivity|]. split; [reflexivity|].
    split; intros; simplify_eq.
Qed.

Lemma get_group_info_fails_witness :
  let updates := [ mkUpdate (Some (mkMessage (Some (mkChat (Some 7%Z)))
                                             (Some "one")));
                   mkUpdate (Some (mkMessage (Some (mkChat None)) None)) ] in
  let api := mkApi (fun _ => Ok (Ok (mkData (Some updates)))) in
  (_get_group_info api "TOKEN" (mkProcess [] [])).1 = Raise (KeyError "id") /\
  stdout (_get_group_info api "TOKEN" (mkProcess [] [])).2 = [].
Proof.
  intros updates api.
  destruct (get_group_info_fails api "TOKEN" (mkProcess [] []))
    as (_ & Hout & _ & Hid).
  split; [exact (Hid _ updates eq_refl eq_refl eq_refl)|].
  exact (Hout eq_refl).
Defined.

End GroupIdFacts.

Module RunNotebookFacts.
Import Py RunNotebook.
Local Open Scope string_scope.

Implicit Types (heap : gmap config_ref (gmap string value)).

Lemma tag_from_other i configs heap c :
  c ∉ configs -> tag_from i configs heap !! c = heap !! c.
Proof.
  revert i heap. induction configs as [|c0 rest IH]; intros i heap Hc; simpl.
  - reflexivity.
  - apply not_elem_of_cons in Hc as [Hne Hrest].
    rewrite IH by exact Hrest. unfold setitem. by rewrite lookup_insert_ne.
Qed.

(** The identifier a configuration ends with is the index of its last
    occurrence in the list. *)
Lemma tag_from_last i configs heap n c :
  configs !! n = Some c -> c ∉ drop (S n) configs ->
  tag_from i configs heap !! c =
    Some (<["id" := VInt (i + Z.of_nat n)]> (default ∅ (heap !! c))).
Proof.
  revert i heap n. induction configs as [|c0 rest IH]; intros i heap n;
    [discriminate|].
  destruct n as [|n]; simpl.
  - intros [= ->] Hlast. rewrite drop_0 in Hlast.
    rewrite tag_from_other by exact Hlast.
    unfold setitem. rewrite lookup_insert_eq. do 3 f_equal. lia.
  - intros Hn Hlast. rewrite (IH (i + 1)%Z _ n Hn Hlast).
    unfold setitem. replace (i + 1 + Z.of_nat n)%Z with (i + Z.pos (Pos.of_succ_nat n))%Z by lia.
    destruct (decide (c0 = c)) as [->|Hne].
    + rewrite lookup_insert_eq. simpl. by rewrite insert_insert_eq.
    + by rewrite lookup_insert_ne.
Qed.

(** The identifier loop of [build_configs], on any list of configurations.
    When the list holds each configuration once, the configuration at
    position [n] gets [id = n] and keeps every other key, no two
    configurations of the list are equal afterwards, and configurations
    outside the list are left alone.  A configuration that the list holds
    twice has one identifier only, that of its last position. *)
Theorem tag_from_ids configs heap :
  let heap' := tag_from 0 configs heap in
  (NoDup configs ->
   (forall n c, configs !! n = Some c ->
      exists config, heap' !! c = Some config /\
        config !! "id" = Some (VInt (Z.of_nat n)) /\
        forall key, key <> "id" ->
          config !! key = default ∅ (heap !! c) !! key) /\
   (forall n m c d, n <> m -> configs !! n = Some c -> configs !! m = Some d ->
      heap' !! c <> heap' !! d)) /\
  (forall n m c, (n < m)%nat -> configs !! n = Some c ->
     configs !! m = Some c -> c ∉ drop (S m) configs ->
     exists config, heap' !! c = Some config /\
       config !! "id" = Some (VInt (Z.of_nat m))) /\
  (forall c, c ∉ configs -> heap' !! c = heap !! c).
Proof.
  intros heap'.
  assert (Hnd : NoDup configs -> forall n c, configs !! n = Some c ->
            heap' !! c = Some (<["id" := VInt (Z.of_nat n)]>
                                 (default ∅ (heap !! c)))).
  { intros Hnodup n c Hn. unfold heap'.
    rewrite (tag_from_last 0 configs heap n c Hn); [reflexivity|].
    intros Hin. apply list_elem_of_lookup in Hin as [j Hj].
    rewrite lookup_drop in Hj.
    pose proof (NoDup_lookup _ _ _ _ Hnodup Hn Hj). lia. }
  split; [|split].
  - intros Hnodup. split.
    + intros n c Hn. eexists. split; [exact (Hnd Hnodup n c Hn)|].
      split; [apply lookup_insert_eq|].
      intros key Hkey. by rewrite lookup_insert_ne.
    + intros n m c d Hnm Hn Hm.
      rewrite (Hnd Hnodup n c Hn), (Hnd Hnodup m d Hm). intros [= E].
      apply (f_equal (fun cfg => cfg !! "id")) in E.
      rewrite !lookup_insert_eq in E. injection E as E. lia.
  - intros n m c _ _ Hm Hlast. eexists.
    split; [exact (tag_from_last 0 configs heap m c Hm Hlast)|].
    apply lookup_insert_eq.
  - intros c Hc. by apply tag_from_other.
Qed.

(** Five configurations as the builder is meant to give them, and a list that
    holds the first of them a second time. *)
Lemma tag_from_ids_witness :
  let fail b : gmap string value := {[ "fail" := VBool b ]} in
  let heap : gmap config_ref (gmap string value) :=
    {[ 1%positive := fail false; 2%positive := fail false;
       3%positive := fail true; 4%positive := fail false;
       5%positive := fail false ]} in
  let heap' := tag_from 0 [1; 2; 3; 4; 5]%positive heap in
  heap !! 1%positive = heap !! 2%positive /\
  heap' !! 1%positive <> heap' !! 2%positive /\
  (exists config, heap' !! 3%positive = Some config /\
                  config !! "id" = Some (VInt 2) /\
                  config !! "fail" = Some (VBool true)) /\
  (exists config,
      tag_from 0 [1; 2; 1]%positive heap !! 1%positive = Some config /\
      config !! "id" = Some (VInt 2)).
Proof.
  intros fail heap heap'.
  destruct (tag_from_ids [1; 2; 3; 4; 5]%positive heap) as ((Hid & Hne) & _ & _).
  { compute_done. }
  destruct (tag_from_ids [1; 2; 1]%positive heap) as (_ & Hlast & _).
  split; [reflexivity|]. split; [|split].
  - apply (Hne 0%nat 1%nat); [lia|reflexivity|reflexivity].
  - destruct (Hid 2%nat 3%positive eq_refl) as (config & Hc & Hi & Hk).
    exists config. split; [exact Hc|]. split; [exact Hi|].
    rewrite Hk by discriminate. reflexivity.
  - apply (Hlast 0%nat 2%nat); [lia|reflexivity|reflexivity|].
    simpl. apply not_elem_of_nil.
Defined.

(** [build_configs] returns the builder's list with the identifiers in
    place: whatever the builder gives, as long as it gives each
    configuration once, the configuration at position [n] has [id = n] and
    no two returned configurations are equal. *)
Theorem build_configs_distinct build_multiple_configs heap :
  let r := build_configs build_multiple_configs heap in
  NoDup r.1 ->
  (forall n c, r.1 !! n = Some c ->
     exists config, r.2 !! c = Some config /\
                    config !! "id" = Some (VInt (Z.of_nat n))) /\
  (forall n m c d, n <> m -> r.1 !! n = Some c -> r.1 !! m = Some d ->
     r.2 !! c <> r.2 !! d).
Proof.
  intros r Hnodup. subst r. unfold build_configs in *. simpl in *.
  set (built := build_multiple_configs _ _ _) in *.
  assert (Hid : forall n c, built.1 !! n = Some c ->
            tag_from 0 built.1 built.2 !! c =
              Some (<["id" := VInt (Z.of_nat n)]> (default ∅ (built.2 !! c)))).
  { intros n c Hn. rewrite (tag_from_last 0 built.1 built.2 n c Hn);
      [reflexivity|].
    intros Hin. apply list_elem_of_lookup in Hin as [j Hj].
    rewrite lookup_drop in Hj.
    pose proof (NoDup_lookup _ _ _ _ Hnodup Hn Hj). lia. }
  split.
  - intros n c Hn. eexists. split; [exact (Hid n c Hn)|].
    apply lookup_insert_eq.
  - intros n m c d Hnm Hn Hm. rewrite (Hid n c Hn), (Hid m d Hm).
    intros [= E]. apply (f_equal (fun cfg => cfg !! "id")) in E.
    rewrite !lookup_insert_eq in E. injection E as E. lia.
Qed.

(** With a builder that copies the template once per candidate value. *)
Lemma build_configs_distinct_witness :
  let r := build_configs single_path_builder ∅ in
  length r.1 = 5%nat /\
  (forall n m c d, n <> m -> r.1 !! n = Some c -> r.1 !! m = Some d ->
     r.2 !! c <> r.2 !! d).
Proof.
  intros r. split; [reflexivity|].
  apply (build_configs_distinct single_path_builder ∅). compute_done.
Defined.

End RunNotebookFacts.

Module CacheMore.
Import Cache CacheFacts.

Section Facade.
Context {K V : Type} `{Countable K}.
Implicit Types (c : Cached K V) (args : K).

(** A facade with one tier only (on the facade as modelled above).  With
    memory alone, a first call on cold memory computes and reports
    [no_cache], the repeat reports [mem], and the disk tier is never written.
    With disk alone, after the disk tier is cleared, the first call reports
    [no_cache], the repeat reports [disk], and the memory tier is never
    written.  Either way the function runs once and both calls return its
    value.  With no tier at all, every call computes. *)
Theorem single_tier_facades c args :
  (use_mem_cache c = true -> use_disk_cache c = false ->
   mem_store c !! args = None ->
   let r1 := call c args in
   let r2 := call r1.2 args in
   get_last_cache_accessed r1.2 = no_cache /\
   get_last_cache_accessed r2.2 = mem /\
   r1.1 = func c args /\ r2.1 = func c args /\
   computations r2.2 = S (computations c) /\
   disk_store r2.2 = disk_store c) /\
  (use_mem_cache c = false -> use_disk_cache c = true ->
   let r1 := call (clear_cache (Some clear_disk) c) args in
   let r2 := call r1.2 args in
   get_last_cache_accessed r1.2 = no_cache /\
   get_last_cache_accessed r2.2 = disk /\
   r1.1 = func c args /\ r2.1 = func c args /\
   computations r2.2 = S (computations c) /\
   mem_store r2.2 = mem_store c) /\
  (use_mem_cache c = false -> use_disk_cache c = false ->
   let r1 := call c args in
   get_last_cache_accessed r1.2 = no_cache /\
   r1.1 = func c args /\
   computations r1.2 = S (computations c) /\
   mem_store r1.2 = mem_store c /\ disk_store r1.2 = disk_store c).
Proof.
  destruct c as [f um ud ms ds l n]. simpl. split; [|split].
  - intros -> -> Hcold. unfold call, mem_lookup, disk_lookup. simpl.
    rewrite Hcold. simpl. rewrite lookup_insert_eq. simpl. auto 10.
  - intros -> ->. unfold call, mem_lookup, disk_lookup. simpl.
    rewrite lookup_empty. simpl. rewrite lookup_insert_eq. simpl. auto 10.
  - intros -> ->. unfold call, mem_lookup, disk_lookup. simpl. auto.
Qed.

End Facade.

(** The memory-only and the disk-only facade of the notebook. *)
Lemma single_tier_facades_witness :
  let memory_cached_func := new computation_function true false ∅ in
  let disk_cached_computation :=
    new computation_function false true {[ inputs := exp_output ]} in
  get_last_cache_accessed
    (call (call memory_cached_func inputs).2 inputs).2 = mem /\
  get_last_cache_accessed
    (call (call (clear_cache (Some clear_disk) disk_cached_computation)
                inputs).2 inputs).2 = disk.
Proof.
  intros m d.
  destruct (single_tier_facades m inputs) as (Hm & _ & _).
  destruct (single_tier_facades d inputs) as (_ & Hd & _).
  split.
  - apply (Hm eq_refl eq_refl eq_refl).
  - apply (Hd eq_refl eq_refl).
Defined.

End CacheMore.

Module SourcesMore.
Import Py Sources SourcesFacts.
Local Open Scope string_scope.

(** *** The disk source, beyond the first successful [fit] *)

Section DiskMore.
Import DiskDataSource.
Context {F : Type} `{Float F} (env : Env F).
Implicit Types (self : node (F:=F)) (w : World F) (d : DataFrame F).

Ltac run_m :=
  unfold bind, ret, raise, lift, get_self, get_df, put_df; simpl.

Lemma fit_unloaded self w :
  df (base self) = None ->
  fit env (self, w) =
    match _read_data env (self, w) with
    | (Ok _, sr) =>
        match _process_data env sr with
        | (Ok _, sp) => (Ok (DataSource_fit (base sp.1)), sp)
        | (Raise e, sp) => (Raise e, sp)
        end
    | (Raise e, sr) => (Raise e, sr)
    end.
Proof.
  intros Hnone. unfold fit, bind at 1. unfold _lazy_load. run_m.
  rewrite Hnone. destruct (_read_data env (self, w)) as [[[]|e] sr];
    [|reflexivity].
  destruct (_process_data env sr) as [[[]|e] sp]; reflexivity.
Qed.

(** The reader is chosen by the extension alone. *)
Lemma _read_data_eq self w :
  _read_data env (self, w) =
    let ext := (splitext (_file_path self)).2 in
    let kw := default ∅ (heap w !! _reader_kwargs self) in
    if String.eqb ext ".csv" then
      let kw' := if bool_decide ("index_col" ∈ dom kw) then kw
                 else <["index_col" := KwInt 0]> kw in
      let w' := if bool_decide ("index_col" ∈ dom kw) then w
                else mkWorld (<[_reader_kwargs self := kw']> (heap w))
                             (history w) in
      match pd_read_csv env (history w) (_file_path self) kw' with
      | Ok d => (Ok tt, (put_df d (self, log (ReadCsv (_file_path self) kw') w')).2)
      | Raise e => (Raise e, (self, log (ReadCsv (_file_path self) kw') w'))
      end
    else if String.eqb ext ".pq" then
      match pd_read_parquet env (history w) (_file_path self) kw with
      | Ok d => (Ok tt, (put_df d (self, log (ReadParquet (_file_path self) kw) w)).2)
      | Raise e => (Raise e, (self, log (ReadParquet (_file_path self) kw) w))
      end
    else (Raise (ValueError ("Invalid file extension='" ++ ext ++ "'")),
          (self, w)).
Proof.
  unfold _read_data, bind, ret, raise, get_self, kwargs, kwargs_setitem,
    call_reader, put_df; simpl.
  destruct (String.eqb _ ".csv").
  - destruct (decide ("index_col"
                       ∈ dom (default ∅ (heap w !! _reader_kwargs self))))
      as [Hin|Hnin].
    + rewrite !bool_decide_eq_true_2 by exact Hin. simpl.
      destruct (pd_read_csv _ _ _ _); reflexivity.
    + rewrite !bool_decide_eq_false_2 by exact Hnin. simpl.
      rewrite lookup_insert_eq. simpl.
      destruct (pd_read_csv _ _ _ _); reflexivity.
  - destruct (String.eqb _ ".pq"); [|reflexivity].
    destruct (pd_read_parquet _ _ _ _); reflexivity.
Qed.

(** A path whose extension is neither [.csv] nor [.pq] is refused before
    anything is read: the first [fit] raises the [ValueError] naming the
    extension, and leaves the node, the reader options and the call history
    exactly as they were. *)
Theorem disk_fit_invalid_extension self w :
  df (base self) = None ->
  (splitext (_file_path self)).2 <> ".csv" ->
  (splitext (_file_path self)).2 <> ".pq" ->
  fit env (self, w) =
    (Raise (ValueError ("Invalid file extension='"
                        ++ (splitext (_file_path self)).2 ++ "'")),
     (self, w)).
Proof.
  intros Hnone Hcsv Hpq. rewrite fit_unloaded by exact Hnone.
  rewrite _read_data_eq. simpl.
  destruct (String.eqb_spec (splitext (_file_path self)).2 ".csv");
    [contradiction|].
  destruct (String.eqb_spec (splitext (_file_path self)).2 ".pq");
    [contradiction|reflexivity].
Qed.

(** Whatever happens after the read, [fit] leaves the store and the history
    as the read left them. *)
Lemma fit_unloaded_world self w :
  df (base self) = None ->
  (fit env (self, w)).2.2 = (_read_data env (self, w)).2.2.
Proof.
  intros Hnone. rewrite fit_unloaded by exact Hnone.
  destruct (_read_data env (self, w)) as [[[]|e] sr]; [|reflexivity].
  pose proof (_process_data_world env sr) as Hw.
  destruct (_process_data env sr) as [[[]|e] sp]; exact Hw.
Qed.

(** The reader options are written to in one case only.  On a [.pq] path,
    and on a [.csv] path whose options already name an [index_col], the
    first [fit] passes the options to the reader as they are, in a single
    read, and changes no dictionary. *)
Theorem disk_fit_keeps_reader_options self w kw :
  df (base self) = None ->
  heap w !! _reader_kwargs self = Some kw ->
  (splitext (_file_path self)).2 = ".pq" \/
  ((splitext (_file_path self)).2 = ".csv" /\ "index_col" ∈ dom kw) ->
  heap (fit env (self, w)).2.2 = heap w /\
  history (fit env (self, w)).2.2 =
    (history w ++
     [if String.eqb (splitext (_file_path self)).2 ".csv"
      then ReadCsv (_file_path self) kw
      else ReadParquet (_file_path self) kw])%list.
Proof.
  intros Hnone Hkw Hext. rewrite fit_unloaded_world by exact Hnone.
  rewrite _read_data_eq. simpl. rewrite Hkw. simpl.
  destruct Hext as [Hpq|[Hcsv Hin]].
  - rewrite Hpq. simpl.
    destruct (pd_read_parquet _ _ _ _); split; reflexivity.
  - rewrite Hcsv. simpl. rewrite bool_decide_eq_true_2 by exact Hin.
    destruct (pd_read_csv _ _ _ _); split; reflexivity.
Qed.

(** On a [.csv] path whose options name no [index_col], the reader is asked
    once, with the options and [index_col = 0] on top: the first column is
    the index unless the caller says otherwise. *)
Theorem disk_csv_default_index_col self w kw :
  df (base self) = None ->
  heap w !! _reader_kwargs self = Some kw ->
  (splitext (_file_path self)).2 = ".csv" ->
  "index_col" ∉ dom kw ->
  history (fit env (self, w)).2.2 =
    (history w
     ++ [ReadCsv (_file_path self) (<["index_col" := KwInt 0]> kw)])%list /\
  (forall e,
     pd_read_csv env (history w) (_file_path self)
       (<["index_col" := KwInt 0]> kw) = Raise e ->
     (fit env (self, w)).1 = Raise e).
Proof.
  intros Hnone Hkw Hcsv Hnin. split.
  - rewrite fit_unloaded_world by exact Hnone.
    rewrite _read_data_eq. simpl. rewrite Hkw, Hcsv. simpl.
    rewrite !bool_decide_eq_false_2 by exact Hnin.
    destruct (pd_read_csv _ _ _ _); reflexivity.
  - intros e He. rewrite fit_unloaded by exact Hnone.
    rewrite _read_data_eq. simpl. rewrite Hkw, Hcsv. simpl.
    rewrite !bool_decide_eq_false_2 by exact Hnin. by rewrite He.
Qed.

(** [_process_data] never drops the dataset the node holds. *)
Lemma _process_data_keeps_df s :
  is_Some (df (base s.1)) ->
  is_Some (df (base (_process_data env s).2.1)).
Proof.
  destruct s as [self w]. intros [raw Hraw]. simpl in Hraw.
  unfold _process_data, dassert. run_m.
  destruct (_timestamp_col self) as [col|]; simpl; rewrite Hraw; simpl.
  - destruct (set_index col raw) as [d1|]; simpl; [|by rewrite Hraw].
    destruct (mapR _ _) as [ts|]; simpl; [|eauto].
    destruct (dassert_strictly_increasing_index _); simpl; [|eauto].
    repeat (match goal with |- context [match ?x with _ => _ end] =>
              destruct x end; simpl); eauto.
  - destruct (mapR _ _) as [ts|]; simpl; [|by rewrite Hraw].
    destruct (dassert_strictly_increasing_index _); simpl; [|eauto].
    repeat (match goal with |- context [match ?x with _ => _ end] =>
              destruct x end; simpl); eauto.
Qed.

(** The dataset is stored before it is checked.  When the file was read but
    the first [fit] then fails (unknown timestamp column, unparsable index,
    index not increasing, empty window), the node keeps a dataset all the
    same: every later [fit] or [predict] returns it, without reading again
    and without running any check. *)
Theorem disk_fit_after_failed_checks self w sr e s1 :
  df (base self) = None ->
  _read_data env (self, w) = (Ok tt, sr) ->
  fit env (self, w) = (Raise e, s1) ->
  exists d, df (base s1.1) = Some d /\
    s1.2 = sr.2 /\
    forall calls,
      run_all (run env) calls s1 =
        (map (fun _ => Ok (Some {[ output_name (base s1.1) := d ]})) calls, s1).
Proof.
  intros Hnone Hread. rewrite fit_unloaded by exact Hnone. rewrite Hread.
  destruct (_read_data_frame env self w _ _ Hread)
    as (_ & _ & _ & _ & _ & _ & _ & Hr).
  destruct (Hr eq_refl) as ((raw & Hraw) & _).
  pose proof (_process_data_keeps_df sr (ex_intro _ raw Hraw)) as [d Hd].
  pose proof (_process_data_world env sr) as Hw.
  destruct (_process_data env sr) as [[[]|e'] sp]; [discriminate|].
  intros [= <- <-]. exists d. split; [exact Hd|]. split; [exact Hw|].
  intros calls. apply run_all_loaded. intros c.
  destruct sp as [self1 w1]. by apply disk_loaded.
Qed.

(** A read that fails is not remembered: the node is exactly as before, so
    the next [fit] starts over with another read. *)
Theorem disk_failed_read_is_retried self w e s1 :
  df (base self) = None ->
  _read_data env (self, w) = (Raise e, s1) ->
  fit env (self, w) = (Raise e, s1) /\
  s1.1 = self /\
  heap (fit env s1).2.2 = heap (_read_data env (self, s1.2)).2.2 /\
  ((splitext (_file_path self)).2 = ".csv" \/
   (splitext (_file_path self)).2 = ".pq" ->
   length (history s1.2) = S (length (history w)) /\
   length (history (fit env s1).2.2) = S (S (length (history w)))).
Proof.
  intros Hnone Hread.
  assert (Hself : s1.1 = self).
  { revert Hread. rewrite _read_data_eq. simpl.
    destruct (String.eqb _ ".csv").
    - destruct (pd_read_csv _ _ _ _); [discriminate|]. by intros [= _ <-].
    - destruct (String.eqb _ ".pq").
      + destruct (pd_read_parquet _ _ _ _); [discriminate|]. by intros [= _ <-].
      + by intros [= _ <-]. }
  split; [by rewrite fit_unloaded, Hread|]. split; [exact Hself|].
  destruct s1 as [self1 w1]. simpl in Hself. subst self1. simpl.
  split; [by rewrite fit_unloaded_world|].
  intros Hext. rewrite fit_unloaded_world by exact Hnone.
  assert (Hlog : forall w0, length (history (_read_data env (self, w0)).2.2)
                            = S (length (history w0))).
  { intros w0. rewrite _read_data_eq. simpl.
    destruct Hext as [-> | ->]; simpl.
    - case_bool_decide; destruct (pd_read_csv _ _ _ _); simpl;
        rewrite length_app; simpl; lia.
    - destruct (pd_read_parquet _ _ _ _); simpl;
        rewrite length_app; simpl; lia. }
  pose proof (Hlog w) as H1. rewrite Hread in H1. simpl in H1.
  split; [exact H1|]. rewrite Hlog. by rewrite H1.
Qed.

End DiskMore.

(** The unsorted demonstration file: the first [fit] fails, what follows
    succeeds. *)
Lemma disk_fit_after_failed_checks_witness :
  let s0 := DiskDataSource.__init__ (F:=Q) "disk" "data/unsorted.csv" None
              None None None empty_world in
  let first := DiskDataSource.fit demo_env s0 in
  is_ok (fst first) = false /\
  exists d,
    run_all (DiskDataSource.run demo_env) [Fit; Predict] (snd first) =
      ([Ok (Some {[ "df_out" := d ]}); Ok (Some {[ "df_out" := d ]})],
       snd first).
Proof.
  intros s0 first. split; [reflexivity|].
  destruct (disk_fit_after_failed_checks demo_env (fst s0) (snd s0)
              (snd (DiskDataSource._read_data demo_env s0))
              (AssertionError "Index is not strictly increasing")
              (snd first) eq_refl eq_refl eq_refl) as (d & _ & _ & Hall).
  exists d. exact (Hall [Fit; Predict]).
Defined.

Lemma disk_failed_read_is_retried_witness :
  let s0 := DiskDataSource.__init__ (F:=Q) "disk" "data/missing.csv" None
              None None None empty_world in
  let first := DiskDataSource.fit demo_env s0 in
  fst first = Raise (ExternalError "FileNotFoundError") /\
  length (history (snd (snd (DiskDataSource.fit demo_env (snd first))))) = 2%nat.
Proof.
  intros s0 first.
  destruct (disk_failed_read_is_retried demo_env (fst s0) (snd s0)
              (ExternalError "FileNotFoundError")
              (snd (DiskDataSource._read_data demo_env s0)) eq_refl eq_refl)
    as (Hfit & _ & _ & Hretry).
  split.
  - change (fst first) with (fst (DiskDataSource.fit demo_env (fst s0, snd s0))).
    by rewrite Hfit.
  - destruct (Hretry (or_introl eq_refl)) as [_ H2].
    change (snd first) with (snd (DiskDataSource.fit demo_env (fst s0, snd s0))).
    rewrite Hfit. exact H2.
Defined.

Lemma disk_fit_invalid_extension_witness :
  DiskDataSource.fit demo_env
    (DiskDataSource.__init__ (F:=Q) "disk" "data/prices.csv.gz" None None None
       None empty_world) =
  (Raise (ValueError "Invalid file extension='.gz'"),
   DiskDataSource.__init__ (F:=Q) "disk" "data/prices.csv.gz" None None None
     None empty_world).
Proof.
  pose (s0 := DiskDataSource.__init__ (F:=Q) "disk" "data/prices.csv.gz" None
                None None None empty_world).
  exact (disk_fit_invalid_extension demo_env (fst s0) (snd s0) eq_refl
           ltac:(discriminate) ltac:(discriminate)).
Defined.

Lemma disk_csv_default_index_col_witness :
  let w := mkWorld {[ 1%positive := {[ "sep" := KwStr ";" ]} ]} [] in
  let s0 := DiskDataSource.__init__ (F:=Q) "disk" "data/prices.csv" None None
              None (Some 1%positive) w in
  history (snd (snd (DiskDataSource.fit demo_env s0))) =
    [ReadCsv "data/prices.csv"
       (<["index_col" := KwInt 0]> {[ "sep" := KwStr ";" ]})].
Proof.
  intros w s0.
  apply (disk_csv_default_index_col demo_env (fst s0) (snd s0)
           {[ "sep" := KwStr ";" ]} eq_refl eq_refl eq_refl).
  rewrite dom_singleton_L. intros E%elem_of_singleton. discriminate.
Defined.

Lemma disk_fit_keeps_reader_options_witness :
  let w := mkWorld {[ 1%positive := {[ "index_col" := KwStr "ts" ]} ]} [] in
  let s0 := DiskDataSource.__init__ (F:=Q) "disk" "data/prices.csv" None None
              None (Some 1%positive) w in
  heap (snd (snd (DiskDataSource.fit demo_env s0))) = heap w /\
  history (snd (snd (DiskDataSource.fit demo_env s0))) =
    [ReadCsv "data/prices.csv" {[ "index_col" := KwStr "ts" ]}].
Proof.
  intros w s0.
  apply (disk_fit_keeps_reader_options demo_env (fst s0) (snd s0)
           {[ "index_col" := KwStr "ts" ]} eq_refl eq_refl).
  right. split; [reflexivity|].
  rewrite dom_singleton_L. by apply elem_of_singleton.
Defined.


(** *** The generators, beyond the first successful call *)

Section GeneratorsMore.
Context {F : Type} `{Float F} (env : Env F).

(** A draw that fails is not remembered either: the call raises what the
    generator raised, the node is unchanged (no dataset, and for the
    multivariate generator no new scale factor), and the draw is in the
    history, so that the next [fit] or [predict] draws again. *)
Theorem generators_retry_after_failed_draw :
  (forall (self : ArmaGenerator.node) w c e,
     df (ArmaGenerator.base self) = None ->
     ArmaGenerator.answer env self w = Raise e ->
     ArmaGenerator.run env c (self, w) =
       (Raise e, (self, log (ArmaGenerator.draw self) w)) /\
     forall c',
       history (ArmaGenerator.run env c'
                  (self, log (ArmaGenerator.draw self) w)).2.2 =
         (history w ++ [ArmaGenerator.draw self; ArmaGenerator.draw self])%list) /\
  (forall (self : MultivariateNormalGenerator.node) w c e,
     df (MultivariateNormalGenerator.base self) = None ->
     MultivariateNormalGenerator.answer env self w = Raise e ->
     MultivariateNormalGenerator.run env c (self, w) =
       (Raise e, (self, log (MultivariateNormalGenerator.draw self) w))).
Proof.
  split.
  - intros self w c e Hnone Hans. split.
    + destruct c; simpl; unfold ArmaGenerator.fit, ArmaGenerator.predict;
        unfold bind at 1;
        rewrite (arma_lazy_load_unloaded env self w Hnone), Hans; reflexivity.
    + intros c'.
      assert (Hh : forall w0,
        history (ArmaGenerator._lazy_load env (self, w0)).2.2 =
          (history w0 ++ [ArmaGenerator.draw self])%list).
      { intros w0. rewrite (arma_lazy_load_unloaded env self w0 Hnone).
        destruct (ArmaGenerator.answer env self w0); reflexivity. }
      specialize (Hh (log (ArmaGenerator.draw self) w)).
      simpl in Hh. rewrite <- app_assoc in Hh. simpl in Hh.
      destruct c'; simpl; unfold ArmaGenerator.fit, ArmaGenerator.predict;
        unfold bind at 1;
        destruct (ArmaGenerator._lazy_load env _) as [[[]|e'] s']; exact Hh.
  - intros self w c e Hnone Hans.
    assert (Hl : forall fit, MultivariateNormalGenerator._lazy_load env fit (self, w)
                 = (Raise e, (self, log (MultivariateNormalGenerator.draw self) w))).
    { intros fit. unfold MultivariateNormalGenerator._lazy_load, bind at 1.
      unfold MultivariateNormalGenerator.get_self at 1. simpl.
      rewrite Hnone. unfold bind at 1.
      rewrite _generate_returns_eq, Hans. reflexivity. }
    destruct c; simpl;
      unfold MultivariateNormalGenerator.fit, MultivariateNormalGenerator.predict;
      unfold bind at 1; rewrite Hl; reflexivity.
Qed.

End GeneratorsMore.

Lemma generators_retry_after_failed_draw_witness :
  let arma := ArmaGenerator.__init__ (F:=Q) "arma" "D" 2 4 None None None
                None None in
  let first := ArmaGenerator.fit failing_env (arma, empty_world) in
  fst first = Raise (ValueError "bad parameters") /\
  length (history (snd (snd (ArmaGenerator.predict failing_env (snd first)))))
    = 2%nat.
Proof.
  intros arma first.
  destruct (generators_retry_after_failed_draw failing_env) as (Harma & _).
  destruct (Harma arma empty_world Fit (ValueError "bad parameters")
              eq_refl eq_refl) as (Hfirst & Hnext).
  change (ArmaGenerator.run failing_env Fit (arma, empty_world))
    with first in Hfirst.
  split.
  - by rewrite Hfirst.
  - rewrite Hfirst. exact (f_equal length (Hnext Predict)).
Defined.

Section MvnMore.
Import MultivariateNormalGenerator.
Context {F : Type} `{Float F} (env : Env F).
Implicit Types (self : node (F:=F)) (w : World F) (d : DataFrame F).

Lemma frame_cumsum_from_length n (acc : list F) rs :
  length acc = n -> Forall (fun r : Z * list F => length r.2 = n) rs ->
  Forall (fun r : Z * list F => length r.2 = n) (frame_cumsum_from acc rs).
Proof.
  intros Hacc Hrs. revert acc Hacc.
  induction Hrs as [|r rs Hr Hrs IH]; intros acc Hacc; simpl.
  - constructor.
  - simpl in Hr.
    assert (Hz : length (zip_with fadd acc r.2) = n).
    { rewrite length_zip_with, Hacc, Hr. apply Nat.min_id. }
    constructor; [exact Hz|]. by apply IH.
Qed.

Lemma frame_cumsum_length n (rs : list (Z * list F)) :
  Forall (fun r : Z * list F => length r.2 = n) rs ->
  Forall (fun r : Z * list F => length r.2 = n) (frame_cumsum rs).
Proof.
  intros Hrs. destruct Hrs as [|r rs Hr Hrs]; simpl; [constructor|].
  constructor; [exact Hr|]. by apply frame_cumsum_from_length.
Qed.

(** The first load, unfolded. *)
Lemma mvn_lazy_load_eq self w fit rets :
  df (base self) = None -> answer env self w = Ok rets ->
  exists s1,
    _lazy_load env fit (self, w) = (Ok tt, s1) /\
    df (base s1.1) = Some (table self (scaled_returns env self fit rets)) /\
    _volatility_scale_factor s1.1 =
      match _target_volatility self with
      | Some tv => if fit then calibrated env tv rets
                   else _volatility_scale_factor self
      | None => _volatility_scale_factor self
      end.
Proof.
  intros Hnone Hans.
  unfold _lazy_load, bind at 1. unfold get_self at 1. simpl.
  rewrite Hnone. unfold bind at 1. rewrite _generate_returns_eq, Hans.
  unfold scaled_returns.
  destruct (_target_volatility self) as [tv|]; simpl;
    unfold bind, put_df, get_df; simpl; eexists; repeat split.
Qed.

(** The dataset of the multivariate normal generator.  Its columns are the
    price columns, labelled [close] over ["MN" + str(x)] for each column [x]
    of the sample, followed by as many [volume] columns with the same
    sub-labels; a row holds the prices [exp (cumsum returns)] of its stamp,
    column by column, then 100 in each volume cell; the rows are those of
    the window [[start_date, end_date]], bounds included.  The returns are
    the sample as it is without a target volatility, and the sample times the
    scale factor with one. *)
Theorem mvn_dataset self w fit rets :
  df (base self) = None ->
  answer env self w = Ok rets ->
  let scaled := scaled_returns env self fit rets in
  let n := length (f_columns rets) in
  exists s1 d,
    _lazy_load env fit (self, w) = (Ok tt, s1) /\
    df (base s1.1) = Some d /\
    columns d =
      (map (fun x => L2 (NStr "close") (NStr ("MN" ++ str_name x)))
           (f_columns rets)
       ++ map (fun x => L2 (NStr "volume") (NStr ("MN" ++ str_name x)))
              (f_columns rets))%list /\
    rows d =
      map (fun r => (CTime r.1,
                     (map CFloat r.2 ++ replicate n (CInt 100))%list))
        (List.filter
           (fun r => Z.leb (_start_date self) r.1
                     && Z.leb r.1 (_end_date self))
           (map (fun r => (r.1, map fexp r.2))
                (frame_cumsum (f_rows scaled)))) /\
    (Forall (fun r : Z * list F => length r.2 = n) (f_rows rets) ->
     well_formed d /\
     Forall (fun r => forall j, (j < n)%nat ->
                        r.2 !! (n + j)%nat = Some (CInt 100)) (rows d)).
Proof.
  intros Hnone Hans scaled n.
  destruct (mvn_lazy_load_eq self w fit rets Hnone Hans) as (s1 & Hl & Hd & _).
  exists s1, (table self scaled). split; [exact Hl|]. split; [exact Hd|].
  assert (Hcols : f_columns scaled = f_columns rets).
  { unfold scaled, scaled_returns.
    destruct (_target_volatility self); reflexivity. }
  assert (Hrows : rows (table self scaled) =
    map (fun r => (CTime r.1, (map CFloat r.2 ++ replicate n (CInt 100))%list))
      (List.filter (fun r => Z.leb (_start_date self) r.1
                             && Z.leb r.1 (_end_date self))
         (map (fun r => (r.1, map fexp r.2)) (frame_cumsum (f_rows scaled))))).
  { unfold table, loc_slice, concat_close_volume, prices_of. simpl.
    rewrite filter_map_comm. simpl. rewrite length_map, Hcols. reflexivity. }
  split; [|split; [exact Hrows|]].
  - unfold table, loc_slice, concat_close_volume, prices_of. simpl.
    rewrite Hcols, <- !list_fmap_compose. reflexivity.
  - intros Hwf.
    assert (Hwf' : Forall (fun r : Z * list F => length r.2 = n)
                          (frame_cumsum (f_rows scaled))).
    { apply frame_cumsum_length. unfold scaled, scaled_returns.
      destruct (_target_volatility self); [|exact Hwf].
      simpl. apply Forall_map. eapply Forall_impl; [exact Hwf|].
      intros r Hr. simpl. by rewrite length_map. }
    assert (Hkept : Forall (fun r : Z * list F => length r.2 = n)
      (List.filter (fun r => Z.leb (_start_date self) r.1
                             && Z.leb r.1 (_end_date self))
         (map (fun r => (r.1, map fexp r.2)) (frame_cumsum (f_rows scaled))))).
    { apply Forall_forall. intros r Hr.
      apply list_elem_of_In, filter_In in Hr as [Hr _].
      apply list_elem_of_In, list_elem_of_fmap in Hr as [r0 [-> Hr0]].
      simpl. rewrite length_map.
      exact (proj1 (Forall_forall _ _) Hwf' r0 Hr0). }
    split.
    + unfold well_formed. rewrite Hrows.
      apply Forall_map. eapply Forall_impl; [exact Hkept|].
      intros r Hr. simpl in Hr. simpl.
      unfold table, loc_slice, concat_close_volume, prices_of. simpl.
      rewrite !length_app, !length_map, length_replicate, Hr, Hcols.
      reflexivity.
    + rewrite Hrows. apply Forall_map. eapply Forall_impl; [exact Hkept|].
      intros r Hr j Hj. simpl in *.
      rewrite lookup_app_r by (rewrite length_map; lia).
      rewrite length_map, Hr.
      replace (n + j - n)%nat with j by lia.
      by apply lookup_replicate_2.
Qed.

Lemma mvn_predict_first self w tv out s1 :
  df (base self) = None -> _target_volatility self = Some tv ->
  predict env (self, w) = (Ok out, s1) ->
  _volatility_scale_factor s1.1 = _volatility_scale_factor self /\
  exists rets,
    answer env self w = Ok rets /\
    df (base s1.1) =
      Some (table self (frame_scale rets (_volatility_scale_factor self))).
Proof.
  intros Hnone Htv. unfold predict, bind at 1.
  destruct (answer env self w) as [rets|e] eqn:Hans.
  - destruct (mvn_lazy_load_eq self w false rets Hnone Hans)
      as (s & Hs & Hd & Hk).
    rewrite Hs. unfold bind, get_self, ret. simpl. intros [= _ <-].
    rewrite Htv in Hk. split; [exact Hk|]. exists rets.
    split; [reflexivity|]. rewrite Hd. unfold scaled_returns.
    by rewrite Htv.
  - unfold _lazy_load, bind at 1. unfold get_self at 1. simpl.
    rewrite Hnone. unfold bind at 1. rewrite _generate_returns_eq, Hans.
    discriminate.
Qed.

(** The target volatility takes effect only if [fit] comes first.  On a node
    just built with a target, a [predict] that gets the dataset builds it
    from the sample times the initial factor 1, and the node is settled from
    then on: whatever calls follow, [fit] included, the factor stays 1 and
    the dataset stays as it is. *)
Theorem mvn_predict_first_ignores_target nid freq sd ed dim tv seed w out s1 :
  let s0 := __init__ nid freq sd ed dim (Some tv) seed w in
  predict env s0 = (Ok out, s1) ->
  _volatility_scale_factor s1.1 = PyInt 1 /\
  (exists rets,
     answer env s0.1 s0.2 = Ok rets /\
     df (base s1.1) = Some (table s0.1 (frame_scale rets (PyInt 1)))) /\
  forall calls, (run_all (run env) calls s1).2 = s1.
Proof.
  intros s0 Hpred.
  destruct (mvn_produces_once env s0.1 s0.2 Predict out s1 eq_refl Hpred)
    as (_ & _ & Hall).
  destruct (mvn_predict_first s0.1 s0.2 tv out s1 eq_refl eq_refl Hpred)
    as (Hk & Hrets).
  split; [exact Hk|]. split; [exact Hrets|].
  intros calls. by rewrite Hall.
Qed.

End MvnMore.

Lemma mvn_dataset_witness :
  let s0 := MultivariateNormalGenerator.__init__ "mvn" "D" 2 3 2 None None
              empty_world in
  exists s1,
    MultivariateNormalGenerator._lazy_load demo_env true s0 = (Ok tt, s1) /\
    df (MultivariateNormalGenerator.base s1.1) =
      Some (mkDataFrame
              [ L2 (NStr "close") (NStr "MN0"); L2 (NStr "close") (NStr "MN1");
                L2 (NStr "volume") (NStr "MN0"); L2 (NStr "volume") (NStr "MN1") ]
              [ (CTime 2, [CFloat (1 + (1 + 2))%Q; CFloat (1 + (1 + (1 + 1)))%Q;
                           CInt 100; CInt 100]);
                (CTime 3, [CFloat (1 + (1 + 2 + -1))%Q;
                           CFloat (1 + (1 + (1 + 1) + 3))%Q;
                           CInt 100; CInt 100]) ]).
Proof.
  intros s0.
  destruct (mvn_dataset demo_env s0.1 s0.2 true (demo_sample (history s0.2))
              eq_refl eq_refl) as (s1 & d & Hl & Hd & Hc & Hr & _).
  exists s1. split; [exact Hl|]. rewrite Hd. f_equal.
  destruct d as [cols rs]. simpl in Hc, Hr. rewrite Hc, Hr. reflexivity.
Defined.

Lemma mvn_predict_first_ignores_target_witness :
  let s0 := MultivariateNormalGenerator.__init__ "mvn" "D" 1 3 2
              (Some (PyFloat (1 # 2)%Q)) None empty_world in
  let first := MultivariateNormalGenerator.predict demo_env s0 in
  is_ok (fst first) = true /\
  MultivariateNormalGenerator._volatility_scale_factor (fst (snd first))
    = PyInt 1 /\
  snd (run_all (MultivariateNormalGenerator.run demo_env) [Fit; Fit]
         (snd first)) = snd first.
Proof.
  intros s0 first. split; [reflexivity|].
  destruct (mvn_predict_first_ignores_target demo_env "mvn" "D" 1%Z 3%Z 2%Z
              (PyFloat (1 # 2)%Q) None empty_world
              (match fst first with Ok o => o | Raise _ => None end)
              (snd first) eq_refl) as (Hk & _ & Hall).
  split; [exact Hk|]. exact (Hall [Fit; Fit]).
Defined.

(** *** The direct-dataset source *)

Section ReadDf.
Import ReadDataFromDf.
Context {F : Type} `{Float F}.

(** The direct-dataset source is built only from a table, and then holds it
    from the start: every [fit] and every [predict] returns that table and
    changes neither the node nor the world.  Anything else is refused by the
    constructor. *)
Theorem read_data_from_df nid (obj : pyobject (F:=F)) :
  (forall d, obj = ObjDataFrame d ->
     exists self, __init__ nid obj = Ok self /\
       df (base self) = Some d /\
       forall (w : World F) calls,
         run_all run calls (self, w) =
           (map (fun _ => Ok (Some {[ output_name (base self) := d ]})) calls,
            (self, w))) /\
  (forall type_name, obj = ObjOther type_name ->
     exists msg, __init__ nid obj = Raise (AssertionError msg)).
Proof.
  split.
  - intros d ->. eexists. split; [reflexivity|]. split; [reflexivity|].
    intros w calls. apply run_all_loaded. intros []; reflexivity.
  - intros type_name ->. eexists. reflexivity.
Qed.

End ReadDf.

Lemma read_data_from_df_witness :
  exists self,
    ReadDataFromDf.__init__ "df" (ReadDataFromDf.ObjDataFrame demo_table)
      = Ok self /\
    run_all ReadDataFromDf.run [Predict; Fit] (self, empty_world) =
      ([Ok (Some {[ "df_out" := demo_table ]});
        Ok (Some {[ "df_out" := demo_table ]})], (self, empty_world)).
Proof.
  destruct (read_data_from_df "df" (ReadDataFromDf.ObjDataFrame demo_table))
    as (Hok & _).
  destruct (Hok demo_table eq_refl) as (self & Hinit & _ & Hall).
  exists self. split; [exact Hinit|].
  rewrite (Hall empty_world [Predict; Fit]).
  injection Hinit as <-. reflexivity.
Defined.

End SourcesMore.
